(** * github_commit_collector: branch resolution, transport and collection

    A shallow embedding of the Python sources
    (team_mapper.py, github_client.py, branch_detector.py, models.py,
    commit_processor.py, data_collector.py, config_manager.py, main.py)
    and the properties of the specification that are stated about them.

    Conventions of the embedding.
    - A Python function that performs effects is a function in the monad
      [M S A := S -> Outcome A * S]: it threads a state and ends with a
      value ([Ok]), a raised exception ([Raise]) or, for the one unbounded
      loop of the sources, with [Diverge] when the loop bound of the model
      is used up.  Only subclasses of [Exception] are modelled, so
      [except Exception] is a handler for every [Raise].
    - Decoded JSON documents are records that follow the schema of the
      provider; a key that the code reads with [.get] is an [option].
    - Python [str] values are [string]s, a character outside ASCII being
      the bytes of its encoding.  [lower] is the ASCII case mapping; it is
      [str.lower] on the strings that [is_ascii] accepts, and the
      properties about letter case are stated for those.
    - A [logger] call appends a record (level and message template) to the
      log of the state it runs in. *)

From Stdlib Require Import ZArith QArith String Ascii List Bool Lia.
From stdpp Require Import base gmap strings list.

Local Open Scope string_scope.
Local Open Scope Z_scope.

(** ** Python exceptions and outcomes *)

Inductive exn : Type :=
  | ConnectionError                 (* requests.exceptions.ConnectionError *)
  | Timeout                         (* requests.exceptions.Timeout *)
  | HTTPError (status : Z)          (* requests.exceptions.HTTPError *)
  | JSONDecodeError                 (* requests.exceptions.JSONDecodeError *)
  | RateLimitError                  (* github_client.RateLimitError *)
  | RetryError (last : exn)         (* tenacity.RetryError *)
  | ValueError (msg : string)
  | FileNotFoundError
  | YAMLError
  | KeyError (key : string)
  | TypeError
  | AttributeError
  | OverflowError.

(** [isinstance(e, requests.exceptions.RequestException)] *)
Definition is_RequestException (e : exn) : bool :=
  match e with
  | ConnectionError | Timeout | HTTPError _ | JSONDecodeError => true
  | _ => false
  end.

Definition is_HTTPError (e : exn) : bool :=
  match e with HTTPError _ => true | _ => false end.

Inductive Outcome (A : Type) : Type :=
  | Ok (a : A)
  | Raise (e : exn)
  | Diverge.
Arguments Ok {A} a.
Arguments Raise {A} e.
Arguments Diverge {A}.

Definition M (S A : Type) : Type := S -> Outcome A * S.

Definition ret {S A} (a : A) : M S A := fun s => (Ok a, s).

Definition bind {S A B} (m : M S A) (k : A -> M S B) : M S B :=
  fun s =>
    match m s with
    | (Ok a, s') => k a s'
    | (Raise e, s') => (Raise e, s')
    | (Diverge, s') => (Diverge, s')
    end.

Definition raise {S A} (e : exn) : M S A := fun s => (Raise e, s).

(** [try: body  except Exception as e: handler e] *)
Definition try_except {S A} (body : M S A) (handler : exn -> M S A) : M S A :=
  fun s =>
    match body s with
    | (Raise e, s') => handler e s'
    | r => r
    end.

(** [try: body  except cls as e: handler e] for an exception class [cls] *)
Definition try_except_of {S A} (cls : exn -> bool)
    (body : M S A) (handler : exn -> M S A) : M S A :=
  try_except body (fun e => if cls e then handler e else raise e).

Definition modify {S} (f : S -> S) : M S unit := fun s => (Ok tt, f s).
Definition gets {S A} (f : S -> A) : M S A := fun s => (Ok (f s), s).

Notation "'let*' x ':=' m 'in' k" := (bind m (fun x => k))
  (at level 10, x pattern, m at level 100, k at level 200).
Notation "m ';;' k" := (bind m (fun _ => k))
  (at level 100, k at level 200, right associativity).

(** ** Python built-ins used by the sources *)

(** Truth value of a [str]: the empty string is falsy. *)
Definition str_truthy (s : string) : bool :=
  match s with EmptyString => false | _ => true end.

(** Truth value of an [Optional[str]]: [None] and [""] are falsy. *)
Definition truthy (o : option string) : bool :=
  match o with Some s => str_truthy s | None => false end.

Definition lower_ascii (c : ascii) : ascii :=
  let n := nat_of_ascii c in
  if ((65 <=? n)%nat && (n <=? 90)%nat)%bool then ascii_of_nat (n + 32) else c.

(** [s.lower()], for a string of ASCII characters *)
Fixpoint lower (s : string) : string :=
  match s with
  | EmptyString => EmptyString
  | String c r => String (lower_ascii c) (lower r)
  end.

(** [s.isascii()] *)
Fixpoint is_ascii (s : string) : bool :=
  match s with
  | EmptyString => true
  | String c r => (nat_of_ascii c <? 128)%nat && is_ascii r
  end.

(** ** logging *)

Inductive level : Type := DEBUG | INFO | WARNING | ERROR.

Definition LogRecord : Type := level * string.

Class Logging (S : Type) : Type := { log_record : LogRecord -> S -> S }.

Definition logger_debug {S} `{Logging S} (msg : string) : M S unit :=
  modify (log_record (DEBUG, msg)).
Definition logger_info {S} `{Logging S} (msg : string) : M S unit :=
  modify (log_record (INFO, msg)).
Definition logger_warning {S} `{Logging S} (msg : string) : M S unit :=
  modify (log_record (WARNING, msg)).
Definition logger_error {S} `{Logging S} (msg : string) : M S unit :=
  modify (log_record (ERROR, msg)).

(** ** team_mapper.py *)

(** The [team_config] dictionary read from teams.yaml.  [teams] keeps the
    order of the mapping; a value that is not a list is [None]. *)
Record TeamConfig : Type := {
  cfg_default_team : option string;
  cfg_teams : option (list (string * option (list string)))
}.

Record TeamMapper : Type := {
  team_config : TeamConfig;
  default_team : string;
  username_to_team : gmap string string
}.

(** The inner loop of [__init__]:
    [for username in members: self.username_to_team[username.lower()] = team_name] *)
Definition add_members (team_name : string) (members : list string)
    (m : gmap string string) : gmap string string :=
  fold_left (fun m username => <[lower username := team_name]> m) members m.

(** The outer loop of [__init__] over [teams.items()]. *)
Definition add_teams (teams : list (string * option (list string)))
    (m : gmap string string) : gmap string string :=
  fold_left
    (fun m '(team_name, members) =>
       match members with
       | Some members => add_members team_name members m   (* isinstance(members, list) *)
       | None => m
       end)
    teams m.

(** [TeamMapper.__init__] *)
Definition TeamMapper_init {S} `{Logging S} (cfg : TeamConfig) : M S TeamMapper :=
  let default_team := default "unassigned" (cfg_default_team cfg) in
  let teams := default [] (cfg_teams cfg) in
  let username_to_team := add_teams teams ∅ in
  logger_info "Team mapper initialized with {len(self.username_to_team)} user mappings";;
  ret {| team_config := cfg;
         default_team := default_team;
         username_to_team := username_to_team |}.

(** [TeamMapper.get_team] *)
Definition get_team {S} `{Logging S} (self : TeamMapper) (username : option string)
    : M S string :=
  match username with
  | Some username =>
      if negb (str_truthy username) then ret (default_team self)
      else
        let username_lower := lower username in
        let team := default (default_team self) (username_to_team self !! username_lower) in
        logger_debug "Mapped user '{username}' to team '{team}'";;
        ret team
  | None => ret (default_team self)
  end.

(** [TeamMapper.add_mapping] *)
Definition add_mapping {S} `{Logging S} (self : TeamMapper) (username team_name : string)
    : M S TeamMapper :=
  logger_debug "Added mapping: {username} -> {team_name}";;
  ret {| team_config := team_config self;
         default_team := default_team self;
         username_to_team := <[lower username := team_name]> (username_to_team self) |}.

(** ** Decoded JSON documents (schema of the provider) *)

(** [key in d] for a key that the schema makes optional. *)
Definition has_key {A} (o : option A) : bool :=
  match o with Some _ => true | None => false end.

(** A key whose value the schema allows to be null, or that the code reads
    with [.get(key, default)]: the key is absent, or its value is null, or
    it has a value.  [d.get(key, default)] is the default for an absent key
    only; for a null value it is [None]. *)
Inductive field (A : Type) : Type :=
  | Absent
  | Null
  | Value (a : A).
Arguments Absent {A}.
Arguments Null {A}.
Arguments Value {A} a.

(** [key in d] *)
Definition has_field {A} (f : field A) : bool :=
  match f with Absent => false | _ => true end.

Definition is_null {A} (f : field A) : bool :=
  match f with Null => true | _ => false end.

(** [rate_data["resources"]["core"]] with its two integer fields; the
    document's [rl_core] is [None] when one of the subscripts has no such
    key. *)
Record CoreLimit : Type := { remaining : Z; reset : Z }.
Record RateLimitDoc : Type := { rl_core : option CoreLimit }.

(** Repository metadata. *)
Record RepoInfo : Type := {
  default_branch : option string;
  html_url : option string
}.

(** [commit["commit"]["author"]] *)
Record GitAuthor : Type := {
  ga_name : option string;
  ga_email : option string;
  ga_date : option string
}.

(** [commit["commit"]] *)
Record CommitInfo : Type := {
  ci_author : field GitAuthor;
  ci_message : option string
}.

(** [commit["author"]]: the account of the author; an object without keys
    is falsy. *)
Record GitHubUser : Type := {
  login : option string;
  user_other_keys : bool
}.

Record StatsRaw : Type := {
  st_additions : option Z;
  st_deletions : option Z;
  st_total : option Z
}.

Record FileChangeRaw : Type := {
  fr_filename : option string;
  fr_status : option string;
  fr_additions : option Z;
  fr_deletions : option Z;
  fr_changes : option Z;
  fr_patch : option string
}.

(** A commit object of the listing endpoint (summary) or of the
    per-commit endpoint (detail: with [stats] and [files]).  The nested
    objects and the list are [field]s: the code calls a method on what
    [.get] returns for them, which fails on a null; the other values are
    as the schema of the provider types them.  [rc_other_keys] tells
    whether the object has keys besides those read by the code. *)
Record RawCommit : Type := {
  rc_sha : option string;
  rc_html_url : option string;
  rc_commit : field CommitInfo;
  rc_author : field GitHubUser;
  rc_stats : field StatsRaw;
  rc_files : field (list FileChangeRaw);
  rc_other_keys : bool
}.

(** Truth value of a dictionary: it is truthy when it has a key. *)
Definition user_truthy (u : GitHubUser) : bool :=
  has_key (login u) || user_other_keys u.

Definition commit_truthy (c : RawCommit) : bool :=
  has_key (rc_sha c) || has_key (rc_html_url c) || has_field (rc_commit c)
  || has_field (rc_author c) || has_field (rc_stats c) || has_field (rc_files c)
  || rc_other_keys c.

(** The document of [GET /user]. *)
Record UserDoc : Type := { user_login : option string }.

(** The body of the answer to [GET /user] once decoded: a JSON object, or
    another JSON value (null, a list, a string, a number), which has no
    method [get]. *)
Inductive UserBody : Type :=
  | UserObject (user_data : UserDoc)
  | UserNotAnObject.

(** ** github_client.py *)

(** Values of the query-parameter dictionary. *)
Inductive pval : Type := PStr (s : string) | PInt (z : Z).

#[export] Instance pval_eq_dec : EqDecision pval.
Proof. solve_decision. Defined.

(** [session.get(url, params=params, timeout=...)] *)
Record Request : Type := {
  url : string;
  params : option (gmap string pval)
}.

(** What the client does to the outside world: requests and sleeps. *)
Inductive Event : Type :=
  | EvGet (r : Request)
  | EvSleep (seconds : Q).

Definition is_get (e : Event) : bool :=
  match e with EvGet _ => true | EvSleep _ => false end.

Definition is_sleep (e : Event) : bool :=
  match e with EvSleep _ => true | EvGet _ => false end.

(** The state of the client module: the events so far and the records of
    its logger. *)
Record HttpWorld : Type := {
  trace : list Event;
  http_log : list LogRecord
}.

#[export] Instance HttpWorld_Logging : Logging HttpWorld :=
  {| log_record := fun r w =>
       {| trace := trace w; http_log := (http_log w ++ [r])%list |} |}.

(** The kinds of document the endpoints answer with. *)
Inductive DocKind : Type := KRateLimit | KRepo | KCommitList | KCommit | KUser.

Definition doc (k : DocKind) : Type :=
  match k with
  | KRateLimit => RateLimitDoc
  | KRepo => RepoInfo
  | KCommitList => list RawCommit
  | KCommit => RawCommit
  | KUser => UserBody
  end.

(** A [requests.Response]; [json] is [None] when [response.json()] raises. *)
Record Response (A : Type) : Type := {
  status_code : Z;
  text : string;
  json : option A
}.
Arguments status_code {A} _.
Arguments text {A} _.
Arguments json {A} _.

Inductive TransportError : Type := TConnectionError | TTimeout.

Definition exn_of_transport (e : TransportError) : exn :=
  match e with TConnectionError => ConnectionError | TTimeout => Timeout end.

(** The provider and the host.  [http_get] and [time_time] are functions
    of what has happened so far: the answer to a request and the reading
    of [time.time()].  The other fields are the floats and the ranges of
    the host: [float_of q] is the float that an operation with the exact
    result [q] yields, [fromtimestamp_accepts t] says that
    [datetime.fromtimestamp(t)] returns and does not raise, and
    [sleep_accepts q] says the same of [time.sleep(q)]. *)
Record HttpEnv : Type := {
  http_get : forall k : DocKind, list Event -> Request -> TransportError + Response (doc k);
  time_time : list Event -> Q;
  float_of : Q -> Q;
  fromtimestamp_accepts : Z -> bool;
  sleep_accepts : Q -> bool
}.

Record GitHubAPIClient : Type := {
  token : string;
  api_url : string;
  timeout : Z;
  max_retries : Z;
  rate_limit_buffer : Z
}.

(** [s.lstrip(c)] and [s.rstrip(c)] for a one-character argument *)
Fixpoint lstrip (c : ascii) (s : string) : string :=
  match s with
  | EmptyString => EmptyString
  | String a r => if Ascii.eqb a c then lstrip c r else s
  end.

Fixpoint rstrip (c : ascii) (s : string) : string :=
  match s with
  | EmptyString => EmptyString
  | String a r =>
      match rstrip c r with
      | EmptyString => if Ascii.eqb a c then EmptyString else String a EmptyString
      | r' => String a r'
      end
  end.

(** [needle in hay] on strings *)
Fixpoint str_contains (needle hay : string) : bool :=
  if String.prefix needle hay then true
  else match hay with
       | EmptyString => false
       | String _ r => str_contains needle r
       end.

(** tenacity: [wait_exponential(multiplier, min, max)] at an attempt number
    (counted from 1). *)
Definition wait_exponential (multiplier min max : Z) (attempt_number : nat) : Z :=
  let exp := 2 ^ (Z.of_nat attempt_number - 1) in
  let result := multiplier * exp in
  Z.max (Z.max 0 min) (Z.min result max).

Module github_client.
Section Client.
Context (env : HttpEnv).

(** [GitHubAPIClient.__init__] *)
Definition init (token : string) (api_url : string) (timeout max_retries
    rate_limit_buffer : Z) : M HttpWorld GitHubAPIClient :=
  logger_info "GitHub API client initialized";;
  ret {| token := token;
         api_url := rstrip "/" api_url;
         timeout := timeout;
         max_retries := max_retries;
         rate_limit_buffer := rate_limit_buffer |}.

(** [self.session.get(url, params=params, timeout=self.timeout)] *)
Definition session_get (k : DocKind) (url : string)
    (params : option (gmap string pval)) : M HttpWorld (Response (doc k)) :=
  fun w =>
    let r := {| url := url; params := params |} in
    let w' := {| trace := (trace w ++ [EvGet r])%list; http_log := http_log w |} in
    match http_get env k (trace w) r with
    | inl e => (Raise (exn_of_transport e), w')
    | inr response => (Ok response, w')
    end.

(** [time.time()] *)
Definition time_now : M HttpWorld Q := gets (fun w => time_time env (trace w)).

(** [time.sleep(seconds)] for a duration that it accepts; the waits of
    tenacity, between 2 and 10 seconds, are such. *)
Definition time_sleep (seconds : Q) : M HttpWorld unit :=
  modify (fun w => {| trace := (trace w ++ [EvSleep seconds])%list;
                      http_log := http_log w |}).

(** [time.sleep(seconds)] for a computed duration: it raises when the
    duration is out of range. *)
Definition time_sleep_checked (seconds : Q) : M HttpWorld unit :=
  if sleep_accepts env seconds then time_sleep seconds else raise OverflowError.

(** [datetime.fromtimestamp(timestamp)], for what its result is used: the
    text of a log message. *)
Definition datetime_fromtimestamp (timestamp : Z) : M HttpWorld unit :=
  if fromtimestamp_accepts env timestamp then ret tt else raise OverflowError.

(** [response.raise_for_status()] *)
Definition raise_for_status {A} (response : Response A) : M HttpWorld unit :=
  if (400 <=? status_code response) && (status_code response <? 600)
  then raise (HTTPError (status_code response))
  else ret tt.

(** [response.json()] *)
Definition response_json {A} (response : Response A) : M HttpWorld A :=
  match json response with
  | Some d => ret d
  | None => raise JSONDecodeError
  end.

(** [GitHubAPIClient._check_rate_limit].  The subtraction and the
    addition are those of floats: [reset_time] is converted to a float and
    each result is rounded. *)
Definition _check_rate_limit (self : GitHubAPIClient) : M HttpWorld unit :=
  try_except
    (let* response := session_get KRateLimit (api_url self +:+ "/rate_limit") None in
     raise_for_status response;;
     let* rate_data := response_json response in
     let* core_limit :=
       match rl_core rate_data with
       | Some core_limit => ret core_limit
       | None => raise (KeyError "core")
       end in
     let remaining := remaining core_limit in
     let reset_time := reset core_limit in
     logger_debug "Rate limit: {remaining} requests remaining";;
     if remaining <=? rate_limit_buffer self then
       datetime_fromtimestamp reset_time;;
       let* now := time_now in
       let wait_seconds :=
         float_of env (float_of env (float_of env (inject_Z reset_time) - now) + 1)%Q in
       if Qlt_le_dec 0 wait_seconds then
         logger_warning
           "Rate limit nearly exceeded. Waiting until {reset_datetime} ({wait_seconds:.0f} seconds)";;
         time_sleep_checked wait_seconds
       else ret tt
     else ret tt)
    (fun e => logger_warning "Could not check rate limit: {e}").

(** The body of [GitHubAPIClient._make_request]: one attempt. *)
Definition _make_request_body (k : DocKind) (self : GitHubAPIClient)
    (endpoint : string) (params : option (gmap string pval)) : M HttpWorld (doc k) :=
  _check_rate_limit self;;
  let url := api_url self +:+ "/" +:+ lstrip "/" endpoint in
  try_except_of is_RequestException
    (let* response := session_get k url params in
     (if (status_code response =? 403)
          && str_contains "rate limit" (lower (text response))
      then raise RateLimitError
      else ret tt);;
     raise_for_status response;;
     response_json response)
    (fun e =>
       (if is_HTTPError e
        then logger_error "HTTP error for {url}: {e}"
        else logger_error "Request error for {url}: {e}");;
       raise e).

(** tenacity's retrying call for
    [stop=stop_after_attempt(n)], [wait=wait_exponential(multiplier, min, max)],
    [retry=retry_if_exception_type(classes)]: after a failed attempt of a
    retried class, stop with [RetryError] when the attempt number has
    reached [n], else sleep and call again.  [left] is [n] minus the
    attempt number. *)
Fixpoint retrying {A} (left attempt_number : nat)
    (wait : nat -> Z) (retry_if : exn -> bool) (fn : M HttpWorld A) : M HttpWorld A :=
  fun w =>
    match fn w with
    | (Raise e, w') =>
        if retry_if e then
          match left with
          | O => (Raise (RetryError e), w')
          | S left' =>
              (time_sleep (inject_Z (wait attempt_number));;
               retrying left' (S attempt_number) wait retry_if fn) w'
          end
        else (Raise e, w')
    | r => r
    end.

Definition retry {A} (stop_after_attempt : nat) (wait : nat -> Z)
    (retry_if_exception_type : exn -> bool) (fn : M HttpWorld A) : M HttpWorld A :=
  retrying (stop_after_attempt - 1) 1 wait retry_if_exception_type fn.

(** [GitHubAPIClient._make_request] with its decorator. *)
Definition _make_request (k : DocKind) (self : GitHubAPIClient)
    (endpoint : string) (params : option (gmap string pval)) : M HttpWorld (doc k) :=
  retry 3 (wait_exponential 1 2 10)
    (fun e => is_RequestException e || match e with RateLimitError => true | _ => false end)
    (_make_request_body k self endpoint params).

(** [GitHubAPIClient.get_repository_info] *)
Definition get_repository_info (self : GitHubAPIClient) (owner repo : string)
    : M HttpWorld RepoInfo :=
  let endpoint := "repos/" +:+ owner +:+ "/" +:+ repo in
  logger_info "Fetching repository info: {owner}/{repo}";;
  _make_request KRepo self endpoint None.

(** The [while True] loop of [get_commits]; [fuel] bounds the number of
    iterations of the model. *)
Fixpoint get_commits_loop (fuel : nat) (self : GitHubAPIClient) (endpoint : string)
    (params : gmap string pval) (per_page : Z)
    (all_commits : list RawCommit) (page : Z) : M HttpWorld (list RawCommit) :=
  match fuel with
  | O => fun w => (Diverge, w)
  | S fuel =>
      let params := <["page" := PInt page]> params in
      let* commits := _make_request KCommitList self endpoint (Some params) in
      match commits with
      | [] => ret all_commits
      | _ =>
          let all_commits := (all_commits ++ commits)%list in
          logger_debug "Fetched page {page}: {len(commits)} commits";;
          if Z.of_nat (length commits) <? per_page then ret all_commits
          else get_commits_loop fuel self endpoint params per_page all_commits (page + 1)
      end
  end.

Definition set_if_truthy (key : string) (v : option string)
    (params : gmap string pval) : gmap string pval :=
  match v with
  | Some s => if str_truthy s then <[key := PStr s]> params else params
  | None => params
  end.

(** [GitHubAPIClient.get_commits] *)
Definition get_commits (fuel : nat) (self : GitHubAPIClient) (owner repo branch : string)
    (since until author : option string) (per_page : Z) : M HttpWorld (list RawCommit) :=
  let endpoint := "repos/" +:+ owner +:+ "/" +:+ repo +:+ "/commits" in
  let params : gmap string pval :=
    <["per_page" := PInt (Z.min per_page 100)]> (<["sha" := PStr branch]> ∅) in
  let params := set_if_truthy "since" since params in
  let params := set_if_truthy "until" until params in
  let params := set_if_truthy "author" author params in
  logger_info "Fetching commits from {owner}/{repo} (branch: {branch})";;
  let* all_commits := get_commits_loop fuel self endpoint params per_page [] 1 in
  logger_info "Total commits fetched: {len(all_commits)}";;
  ret all_commits.

(** [GitHubAPIClient.get_commit_details] *)
Definition get_commit_details (self : GitHubAPIClient) (owner repo sha : string)
    : M HttpWorld RawCommit :=
  let endpoint := "repos/" +:+ owner +:+ "/" +:+ repo +:+ "/commits/" +:+ sha in
  _make_request KCommit self endpoint None.

(** [GitHubAPIClient.test_connection] *)
Definition test_connection (self : GitHubAPIClient) : M HttpWorld bool :=
  try_except
    (let* response := session_get KUser (api_url self +:+ "/user") None in
     raise_for_status response;;
     let* user_data := response_json response in
     match user_data with
     | UserObject user_data =>
         logger_info "Successfully authenticated as: {user_data.get('login', 'unknown')}";;
         ret true
     | UserNotAnObject => raise AttributeError
     end)
    (fun e => logger_error "Authentication test failed: {e}";; ret false).
End Client.
End github_client.

(** ** The client as its users see it

    [BranchDetector] and [DataCollector] are handed a [github_client]
    object and call three of its methods; [W] is the state those methods
    act on.  [get_commits] takes the optional arguments of the Python
    method explicitly: [since], [until], [author], [per_page]. *)
Class GitHubClient (W : Type) : Type := {
  get_repository_info : string -> string -> M W RepoInfo;
  get_commits : string -> string -> string ->
                option string -> option string -> option string -> Z ->
                M W (list RawCommit);
  get_commit_details : string -> string -> string -> M W RawCommit
}.

(** [GitHubAPIClient] is such a client; [fuel] bounds the pages of one
    listing. *)
Definition api_client (env : HttpEnv) (fuel : nat) (self : GitHubAPIClient)
    : GitHubClient HttpWorld :=
  {| get_repository_info := github_client.get_repository_info env self;
     get_commits := github_client.get_commits env fuel self;
     get_commit_details := github_client.get_commit_details env self |}.

(** The state of the resolver and collector modules: the world of the
    client, the branch cache of the [BranchDetector] and the records of
    their loggers. *)
Record State (W : Type) : Type := {
  world : W;
  _branch_cache : gmap string string;
  log : list LogRecord
}.
Arguments world {W} _.
Arguments _branch_cache {W} _.
Arguments log {W} _.

#[export] Instance State_Logging {W} : Logging (State W) :=
  {| log_record := fun r s =>
       {| world := world s; _branch_cache := _branch_cache s;
          log := (log s ++ [r])%list |} |}.

(** A call into the client. *)
Definition call {W A} (m : M W A) : M (State W) A :=
  fun s =>
    let '(r, w') := m (world s) in
    (r, {| world := w'; _branch_cache := _branch_cache s; log := log s |}).

Definition set_branch_cache {W} (f : gmap string string -> gmap string string)
    : M (State W) unit :=
  modify (fun s => {| world := world s; _branch_cache := f (_branch_cache s);
                      log := log s |}).

(** ** branch_detector.py *)

Section BranchDetector.
Context {W : Type} {client : GitHubClient W}.

(** [BranchDetector.detect_default_branch] *)
Definition detect_default_branch (owner repo : string) : M (State W) string :=
  let cache_key := owner +:+ "/" +:+ repo in
  let* cache := gets _branch_cache in
  match cache !! cache_key with
  | Some branch =>
      logger_debug "Using cached branch for {cache_key}: {self._branch_cache[cache_key]}";;
      ret branch
  | None =>
      try_except
        (let* repo_info := call (get_repository_info owner repo) in
         let default_branch := default "main" (default_branch repo_info) in
         logger_info "Detected default branch for {owner}/{repo}: {default_branch}";;
         set_branch_cache (insert cache_key default_branch);;
         ret default_branch)
        (fun e =>
           logger_warning "Could not detect default branch for {owner}/{repo}: {e}";;
           logger_info "Falling back to 'main' branch";;
           ret "main")
  end.

(** [BranchDetector.validate_branch] *)
Definition validate_branch (owner repo branch : string) : M (State W) bool :=
  try_except
    (let* commits := call (get_commits owner repo branch None None None 1) in
     ret (0 <? length commits)%nat)
    (fun e =>
       logger_debug "Branch '{branch}' validation failed for {owner}/{repo}: {e}";;
       ret false).

(** Step 3 of [get_branch_with_fallback]: the loop over the common
    branch names; [Some branch] is its early [return branch]. *)
Fixpoint try_common_branches (owner repo default_branch : string)
    (common_branches : list string) : M (State W) (option string) :=
  match common_branches with
  | [] => ret None
  | branch :: rest =>
      if String.eqb branch default_branch
      then try_common_branches owner repo default_branch rest
      else
        logger_debug "Trying common branch: {branch}";;
        let* ok := validate_branch owner repo branch in
        if ok then
          logger_info "Using branch '{branch}' for {owner}/{repo}";;
          set_branch_cache (insert (owner +:+ "/" +:+ repo) branch);;
          ret (Some branch)
        else try_common_branches owner repo default_branch rest
  end.

Definition common_branches : list string := ["main"; "master"; "develop"; "trunk"].

(** [BranchDetector.get_branch_with_fallback] *)
Definition get_branch_with_fallback (owner repo : string)
    (preferred_branch : option string) : M (State W) string :=
  (* 1. Try preferred branch if provided *)
  let* found :=
    match preferred_branch with
    | Some preferred =>
        if str_truthy preferred then
          logger_debug "Trying preferred branch: {preferred_branch}";;
          let* ok := validate_branch owner repo preferred in
          if ok then
            logger_info "Using preferred branch '{preferred_branch}' for {owner}/{repo}";;
            ret (Some preferred)
          else
            logger_warning "Preferred branch '{preferred_branch}' not found for {owner}/{repo}";;
            ret None
        else ret None
    | None => ret None
    end in
  match found with
  | Some branch => ret branch
  | None =>
      (* 2. Try repository's default branch *)
      logger_debug "Detecting default branch for {owner}/{repo}";;
      let* default_branch := detect_default_branch owner repo in
      let* ok := validate_branch owner repo default_branch in
      if ok then
        logger_info "Using default branch '{default_branch}' for {owner}/{repo}";;
        ret default_branch
      else
        (* 3. Try common branch names *)
        let* found := try_common_branches owner repo default_branch common_branches in
        match found with
        | Some branch => ret branch
        | None =>
            (* 4. Fallback *)
            logger_warning "Could not find valid branch for {owner}/{repo}, using 'main'";;
            ret "main"
        end
  end.

(** [BranchDetector.clear_cache] *)
Definition clear_cache : M (State W) unit :=
  set_branch_cache (fun _ => ∅);;
  logger_debug "Branch detection cache cleared".
End BranchDetector.

(** ** models.py *)

(** A [datetime] is kept as a timestamp. *)
Definition datetime : Type := Z.

Record FileChange : Type := {
  filename : string;
  status : string;
  additions : Z;
  deletions : Z;
  changes : Z;
  patch : option string
}.

Record CommitData : Type := {
  repository_name : string;
  repository_owner : string;
  repository_url : string;
  commit_sha : string;
  commit_message : string;
  commit_date : datetime;
  commit_url : string;
  author_name : string;
  author_username : option string;
  author_email : string;
  team_name : string;
  total_additions : Z;
  total_deletions : Z;
  total_changes : Z;
  files_changed_count : Z;
  branch : string;
  file_changes : list FileChange
}.

(** ** The host: clock and library functions

    [datetime_now] is [datetime.now()]; [date_parser_parse] is
    [dateutil.parser.parse], [None] when it raises; [urlparse_path] is
    [urllib.parse.urlparse(url).path]. *)
Class Host (W : Type) : Type := {
  datetime_now : W -> datetime;
  date_parser_parse : string -> option datetime;
  urlparse_path : string -> string
}.

(** ** commit_processor.py *)

Record CommitProcessor : Type := { cp_team_mapper : TeamMapper }.

Section CommitProcessor.
Context {W : Type} {host : Host W}.

(** [CommitProcessor.__init__] *)
Definition CommitProcessor_init (team_mapper : TeamMapper) : M (State W) CommitProcessor :=
  logger_info "Commit processor initialized";;
  ret {| cp_team_mapper := team_mapper |}.

(** [CommitProcessor._process_file_changes] *)
Definition _process_file_changes (files_data : list FileChangeRaw) : list FileChange :=
  map (fun file_data =>
         {| filename := default "" (fr_filename file_data);
            status := default "modified" (fr_status file_data);
            additions := default 0 (fr_additions file_data);
            deletions := default 0 (fr_deletions file_data);
            changes := default 0 (fr_changes file_data);
            patch := fr_patch file_data |})
      files_data.

(** [d.get(key, {})] for a nested object, at the first method call on the
    result: a null is [None], which has no attribute [get]. *)
Definition get_object {A} (f : field A) (empty : A) : M (State W) A :=
  match f with
  | Absent => ret empty
  | Null => raise AttributeError
  | Value a => ret a
  end.

(** [CommitProcessor.process_commit] *)
Definition process_commit (self : CommitProcessor) (commit_data : RawCommit)
    (repo_owner repo_name repo_url branch : string)
    (detailed_data : option RawCommit) : M (State W) CommitData :=
  (* Use detailed data if provided, otherwise use basic commit data *)
  let data :=
    match detailed_data with
    | Some detailed => if commit_truthy detailed then detailed else commit_data
    | None => commit_data
    end in
  (* Extract commit information *)
  let* commit_info :=
    get_object (rc_commit data) {| ci_author := Absent; ci_message := None |} in
  let* author_info :=
    get_object (ci_author commit_info)
      {| ga_name := None; ga_email := None; ga_date := None |} in
  let author_name := default "Unknown" (ga_name author_info) in
  let author_email := default "" (ga_email author_info) in
  let author_username :=
    match rc_author data with
    | Value user => if user_truthy user then login user else None
    | _ => None
    end in
  let* team_name := get_team (cp_team_mapper self) author_username in
  let commit_date_str := default "" (ga_date author_info) in
  let* commit_date :=
    match date_parser_parse commit_date_str with
    | Some d => ret d
    | None =>
        logger_warning "Could not parse commit date '{commit_date_str}': {e}";;
        gets (fun s => datetime_now (world s))
    end in
  let* stats :=
    get_object (rc_stats data)
      {| st_additions := None; st_deletions := None; st_total := None |} in
  let total_additions := default 0 (st_additions stats) in
  let total_deletions := default 0 (st_deletions stats) in
  let total_changes := default (total_additions + total_deletions) (st_total stats) in
  let* files_data :=
    match rc_files data with
    | Absent => ret []
    | Null => raise TypeError       (* 'NoneType' object is not iterable *)
    | Value files_data => ret files_data
    end in
  let file_changes := _process_file_changes files_data in
  let files_changed_count := Z.of_nat (length file_changes) in
  let commit_obj :=
    {| repository_name := repo_name;
       repository_owner := repo_owner;
       repository_url := repo_url;
       commit_sha := default "" (rc_sha data);
       commit_message := default "" (ci_message commit_info);
       commit_date := commit_date;
       commit_url := default "" (rc_html_url data);
       author_name := author_name;
       author_username := author_username;
       author_email := author_email;
       team_name := team_name;
       total_additions := total_additions;
       total_deletions := total_deletions;
       total_changes := total_changes;
       files_changed_count := files_changed_count;
       branch := branch;
       file_changes := file_changes |} in
  logger_debug
    "Processed commit {commit_obj.commit_sha[:7]} by {commit_obj.author_name} ({commit_obj.team_name})";;
  ret commit_obj.

(** The loop of [process_commits_batch]. *)
Fixpoint process_commits_loop (self : CommitProcessor) (commits_data : list RawCommit)
    (repo_owner repo_name repo_url branch : string)
    (detailed_commits : option (gmap string RawCommit))
    (processed_commits : list CommitData) : M (State W) (list CommitData) :=
  match commits_data with
  | [] => ret processed_commits
  | commit_data :: rest =>
      let sha := rc_sha commit_data in
      let detailed :=
        match detailed_commits with
        | Some d =>
            if bool_decide (size d = 0%nat) then None
            else match sha with Some sha => d !! sha | None => None end
        | None => None
        end in
      let* processed_commits :=
        try_except
          (let* commit_obj := process_commit self commit_data repo_owner repo_name
                                repo_url branch detailed in
           ret (processed_commits ++ [commit_obj])%list)
          (fun e =>
             logger_error "Error processing commit {sha}: {e}";;
             ret processed_commits) in
      process_commits_loop self rest repo_owner repo_name repo_url branch
        detailed_commits processed_commits
  end.

(** [CommitProcessor.process_commits_batch] *)
Definition process_commits_batch (self : CommitProcessor) (commits_data : list RawCommit)
    (repo_owner repo_name repo_url branch : string)
    (detailed_commits : option (gmap string RawCommit)) : M (State W) (list CommitData) :=
  let* processed_commits :=
    process_commits_loop self commits_data repo_owner repo_name repo_url branch
      detailed_commits [] in
  logger_info "Processed {len(processed_commits)} commits for {repo_owner}/{repo_name}";;
  ret processed_commits.
End CommitProcessor.

(** ** data_collector.py *)

(** Whitespace as [str.strip()] sees it, within ASCII. *)
Definition is_space (c : ascii) : bool :=
  let n := nat_of_ascii c in
  ((9 <=? n)%nat && (n <=? 13)%nat) || ((28 <=? n)%nat && (n <=? 32)%nat).

Fixpoint lstrip_space (s : string) : string :=
  match s with
  | EmptyString => EmptyString
  | String a r => if is_space a then lstrip_space r else s
  end.

Fixpoint rstrip_space (s : string) : string :=
  match s with
  | EmptyString => EmptyString
  | String a r =>
      match rstrip_space r with
      | EmptyString => if is_space a then EmptyString else String a EmptyString
      | r' => String a r'
      end
  end.

(** [s.strip()] *)
Definition strip (s : string) : string := rstrip_space (lstrip_space s).

(** [s.split(c)] for a one-character separator *)
Fixpoint split (c : ascii) (s : string) : list string :=
  match s with
  | EmptyString => [EmptyString]
  | String a r =>
      if Ascii.eqb a c then EmptyString :: split c r
      else match split c r with
           | h :: t => String a h :: t
           | [] => [String a EmptyString]
           end
  end.

(** [s.replace(old, "")] for a non-empty [old]; [skip] counts the
    characters of a match that are still to be dropped. *)
Fixpoint remove_all (old : string) (skip : nat) (s : string) : string :=
  match s with
  | EmptyString => EmptyString
  | String a r =>
      match skip with
      | S k => remove_all old k r
      | O =>
          if String.prefix old s then remove_all old (String.length old - 1) r
          else String a (remove_all old 0 r)
      end
  end.

(** One entry of the [repositories] list of repositories.yaml. *)
Record RepoConfig : Type := {
  cfg_url : option string;
  cfg_branch : option string;
  cfg_enabled : field bool;
  cfg_filters : field (gmap string string)
}.

Record DataCollector : Type := {
  team_mapper : TeamMapper;
  commit_processor : CommitProcessor;
  fetch_detailed_commits : bool;
  auto_detect_branch : bool
}.

Section DataCollector.
Context {W : Type} {client : GitHubClient W} {host : Host W}.

(** [DataCollector.__init__]; the [BranchDetector] it creates when
    [auto_detect_branch] is set is the cache of the state. *)
Definition DataCollector_init (team_mapper : TeamMapper)
    (fetch_detailed_commits auto_detect_branch : bool) : M (State W) DataCollector :=
  let* commit_processor := CommitProcessor_init team_mapper in
  (if auto_detect_branch then logger_info "Branch auto-detection enabled" else ret tt);;
  logger_info "Data collector initialized";;
  ret {| team_mapper := team_mapper;
         commit_processor := commit_processor;
         fetch_detailed_commits := fetch_detailed_commits;
         auto_detect_branch := auto_detect_branch |}.

(** [DataCollector.parse_repo_url]; [url] is [None] when the
    configuration has no such key. *)
Definition parse_repo_url (url : option string) : M (State W) (string * string) :=
  match url with
  | None => raise AttributeError
  | Some url =>
      let url := rstrip "/" (strip url) in
      let* path :=
        if String.prefix "http" url then ret (lstrip "/" (rstrip "/" (urlparse_path url)))
        else if str_contains "/" url then ret url
        else raise (ValueError "Invalid repository URL format: {url}") in
      let parts := split "/" path in
      if (2 <=? length parts)%nat then
        let owner := nth (length parts - 2) parts "" in
        let repo := remove_all ".git" 0 (nth (length parts - 1) parts "") in
        ret (owner, repo)
      else raise (ValueError "Could not parse owner/repo from URL: {url}")
  end.

(** Lines 106-116 of [collect_repository_commits]: the branch to read. *)
Definition resolve_branch (self : DataCollector) (owner repo : string)
    (branch : option string) : M (State W) string :=
  match branch with
  | None =>
      if auto_detect_branch self then
        let* branch := detect_default_branch owner repo in
        logger_info "Auto-detected branch '{branch}' for {owner}/{repo}";;
        ret branch
      else
        logger_info "Using default branch 'main' for {owner}/{repo}";;
        ret "main"
  | Some branch =>
      if auto_detect_branch self
      then get_branch_with_fallback owner repo (Some branch)
      else ret branch
  end.

(** Lines 103-128: everything up to and including the listing. *)
Definition list_repository_commits (self : DataCollector) (repo_url : option string)
    (branch date_from date_to author : option string)
    : M (State W) (string * string * string * string * list RawCommit) :=
  let* (owner, repo) := parse_repo_url repo_url in
  let* branch := resolve_branch self owner repo branch in
  logger_info "Collecting commits from {owner}/{repo} (branch: {branch})";;
  let* repo_info := call (get_repository_info owner repo) in
  let full_repo_url := default (default "" repo_url) (html_url repo_info) in
  let* commits := call (get_commits owner repo branch date_from date_to author 100) in
  ret (owner, repo, branch, full_repo_url, commits).

(** Lines 138-148: the loop that fetches the detail of each commit;
    [i] is the counter of [enumerate(commits, 1)]. *)
Fixpoint fetch_details (owner repo : string) (commits : list RawCommit) (i : Z)
    (detailed_commits : gmap string RawCommit) : M (State W) (gmap string RawCommit) :=
  match commits with
  | [] => ret detailed_commits
  | commit :: rest =>
      let* detailed_commits :=
        match rc_sha commit with
        | Some sha =>
            if str_truthy sha then
              try_except
                (let* detailed := call (get_commit_details owner repo sha) in
                 let detailed_commits := <[sha := detailed]> detailed_commits in
                 (if i mod 10 =? 0
                  then logger_debug "Fetched detailed data for {i}/{len(commits)} commits"
                  else ret tt);;
                 ret detailed_commits)
                (fun e =>
                   logger_warning "Could not fetch details for commit {sha}: {e}";;
                   ret detailed_commits)
            else ret detailed_commits
        | None => ret detailed_commits
        end in
      fetch_details owner repo rest (i + 1) detailed_commits
  end.

(** [DataCollector.collect_repository_commits] *)
Definition collect_repository_commits (self : DataCollector) (repo_url : option string)
    (branch date_from date_to author : option string) : M (State W) (list CommitData) :=
  try_except
    (let* (owner, repo, branch, full_repo_url, commits) :=
       list_repository_commits self repo_url branch date_from date_to author in
     match commits with
     | [] =>
         logger_warning "No commits found for {owner}/{repo}";;
         ret []
     | _ =>
         (* Fetch detailed commit data if requested *)
         let* detailed_commits :=
           if fetch_detailed_commits self then
             logger_info "Fetching detailed data for {len(commits)} commits...";;
             fetch_details owner repo commits 1 ∅
           else ret ∅ in
         (* Process commits *)
         let* processed_commits :=
           process_commits_batch (commit_processor self) commits owner repo
             full_repo_url branch (Some detailed_commits) in
         logger_info "Successfully collected {len(processed_commits)} commits from {owner}/{repo}";;
         ret processed_commits
     end)
    (fun e =>
       logger_error "Error collecting commits from {repo_url}: {e}";;
       raise e).

(** The loop of [collect_multiple_repositories]. *)
Fixpoint collect_loop (self : DataCollector) (repos_config : list RepoConfig)
    (global_filters : gmap string string) (all_commits : list CommitData)
    : M (State W) (list CommitData) :=
  match repos_config with
  | [] => ret all_commits
  | repo_config :: rest =>
      let* all_commits :=
        try_except
          (let url := cfg_url repo_config in
           let branch := cfg_branch repo_config in
           (* Merge global and repo-specific filters *)
           let* repo_filters :=
             match cfg_filters repo_config with
             | Absent => ret ∅
             | Null => raise TypeError      (* 'NoneType' object is not a mapping *)
             | Value repo_filters => ret repo_filters
             end in
           let filters := repo_filters ∪ global_filters in
           let* commits :=
             collect_repository_commits self url branch
               (filters !! "date_from") (filters !! "date_to") (filters !! "author") in
           ret (all_commits ++ commits)%list)
          (fun e =>
             logger_error "Failed to collect from repository {repo_config.get('url')}: {e}";;
             ret all_commits) in
      collect_loop self rest global_filters all_commits
  end.

(** [DataCollector.collect_multiple_repositories] *)
Definition collect_multiple_repositories (self : DataCollector)
    (repos_config : list RepoConfig) (global_filters : option (gmap string string))
    : M (State W) (list CommitData) :=
  let global_filters := default ∅ global_filters in
  let* all_commits := collect_loop self repos_config global_filters [] in
  logger_info
    "Collected total of {len(all_commits)} commits from {len(repos_config)} repositories";;
  ret all_commits.
End DataCollector.

(** ** config_manager.py *)

(** The content of repositories.yaml. *)
Record RepositoriesDoc : Type := {
  doc_repositories : field (list RepoConfig);
  doc_filters : field (gmap string string)
}.

(** What the configuration manager finds on the host: the environment
    variables (after [load_dotenv]) and the two YAML files of the
    configuration directory.  A file is [None] when it does not exist, and
    [inl e] when opening or parsing it raises [e]. *)
Record HostFiles : Type := {
  dotenv_loaded : bool;
  getenv : string -> option string;
  repositories_yaml : option (exn + RepositoriesDoc);
  teams_yaml : option (exn + TeamConfig)
}.

Record ApiConfig : Type := {
  ac_api_url : string;
  ac_timeout : Z;
  ac_max_retries : Z;
  ac_rate_limit_buffer : Z;
  ac_max_commits_per_request : Z
}.

Record OutputConfig : Type := {
  oc_format : string;
  oc_directory : string;
  oc_log_level : string;
  oc_log_dir : string
}.

Section ConfigManager.
Context {S : Type} `{Logging S}.
Context (files : HostFiles).
(** Python's [int] on a string; [None] when it raises [ValueError]. *)
Context (int_of_str : string -> option Z).

(** [ConfigManager.load_env] *)
Definition load_env : M S unit :=
  if dotenv_loaded files
  then logger_info "Loaded environment variables from {env_file}"
  else logger_warning "Could not load {env_file}, using existing environment variables".

(** [ConfigManager.get_github_token] *)
Definition get_github_token : M S string :=
  let token := getenv files "GITHUB_TOKEN" in
  match token with
  | Some t =>
      if str_truthy t then ret t
      else raise (ValueError "GITHUB_TOKEN not found in environment variables.")
  | None => raise (ValueError "GITHUB_TOKEN not found in environment variables.")
  end.

(** [int(os.getenv(name, fallback))] *)
Definition getenv_int (name fallback : string) : M S Z :=
  match int_of_str (default fallback (getenv files name)) with
  | Some z => ret z
  | None => raise (ValueError "invalid literal for int()")
  end.

(** [ConfigManager.get_api_config] *)
Definition get_api_config : M S ApiConfig :=
  let api_url := default "https://api.github.com" (getenv files "GITHUB_API_URL") in
  let* timeout := getenv_int "GITHUB_API_TIMEOUT" "30" in
  let* max_retries := getenv_int "MAX_RETRIES" "3" in
  let* rate_limit_buffer := getenv_int "RATE_LIMIT_BUFFER" "10" in
  let* max_commits_per_request := getenv_int "MAX_COMMITS_PER_REQUEST" "100" in
  ret {| ac_api_url := api_url;
         ac_timeout := timeout;
         ac_max_retries := max_retries;
         ac_rate_limit_buffer := rate_limit_buffer;
         ac_max_commits_per_request := max_commits_per_request |}.

(** [ConfigManager.get_output_config] *)
Definition get_output_config : M S OutputConfig :=
  ret {| oc_format := default "json" (getenv files "OUTPUT_FORMAT");
         oc_directory := default "output" (getenv files "OUTPUT_DIR");
         oc_log_level := default "INFO" (getenv files "LOG_LEVEL");
         oc_log_dir := default "logs" (getenv files "LOG_DIR") |}.

(** [ConfigManager.load_yaml_config], applied to the file it names; the
    [{}] of [config or {}] is the document without keys. *)
Definition load_yaml_config {A} (file : option (exn + A)) : M S A :=
  match file with
  | None => raise FileNotFoundError
  | Some (inl e) => raise e
  | Some (inr config) =>
      logger_info "Loaded configuration from {config_path}";;
      ret config
  end.

Definition is_FileNotFoundError (e : exn) : bool :=
  match e with FileNotFoundError => true | _ => false end.

(** [ConfigManager.load_team_mapping] *)
Definition load_team_mapping : M S TeamConfig :=
  try_except_of is_FileNotFoundError
    (load_yaml_config (teams_yaml files))
    (fun _ =>
       logger_warning "teams.yaml not found, using empty team mapping";;
       ret {| cfg_default_team := Some "unassigned"; cfg_teams := Some [] |}).

(** [ConfigManager.load_repositories] *)
Definition load_repositories : M S (list RepoConfig) :=
  try_except_of is_FileNotFoundError
    (let* config := load_yaml_config (repositories_yaml files) in
     let* repos :=
       match doc_repositories config with
       | Absent => ret []
       | Null => raise TypeError            (* 'NoneType' object is not iterable *)
       | Value repos => ret repos
       end in
     (* Filter only enabled repositories *)
     ret (List.filter
            (fun r => match cfg_enabled r with
                      | Absent => true
                      | Null => false
                      | Value enabled => enabled
                      end)
            repos))
    (fun _ =>
       logger_warning "repositories.yaml not found, using empty repository list";;
       ret []).

(** [ConfigManager.get_filter_config]; the result is [None] when the
    key [filters] is null. *)
Definition get_filter_config : M S (option (gmap string string)) :=
  try_except_of is_FileNotFoundError
    (let* config := load_yaml_config (repositories_yaml files) in
     ret (match doc_filters config with
          | Absent => Some ∅
          | Null => None
          | Value filters => Some filters
          end))
    (fun _ => ret (Some ∅)).

Definition is_ValueError (e : exn) : bool :=
  match e with ValueError _ => true | _ => false end.

(** [ConfigManager.validate_config] *)
Definition validate_config : M S bool :=
  (* Check GitHub token *)
  try_except_of is_ValueError
    (get_github_token;; ret tt)
    (fun e => raise (ValueError "Configuration validation failed: {e}"));;
  (* Check if at least one repository is configured *)
  let* repos := load_repositories in
  (match repos with
   | [] => logger_warning "No repositories configured for data collection"
   | _ => ret tt
   end);;
  ret true.
End ConfigManager.

(** ** main.py *)

(** The command-line arguments that [main] reads before the export. *)
Record Args : Type := {
  args_repo : option string;
  args_branch : string;
  args_date_from : option string;
  args_date_to : option string;
  args_author : option string;
  args_no_detailed_commits : bool;
  args_test_connection : bool
}.

Section Main.
Context (env : HttpEnv) (fuel : nat) {host : Host HttpWorld}.
Context (files : HostFiles) (int_of_str : string -> option Z).
(** The rest of [main] after a non-empty collection: team filter,
    statistics and export, ending with the exit status. *)
Context (finish : Args -> list CommitData -> list RepoConfig ->
                  option (gmap string string) -> M (State HttpWorld) Z).

(** [if v: global_filters[key] = v]; the assignment raises when
    [global_filters] is [None]. *)
Definition override (key : string) (v : option string)
    (global_filters : option (gmap string string))
    : M (State HttpWorld) (option (gmap string string)) :=
  match v with
  | Some x =>
      if str_truthy x then
        match global_filters with
        | Some m => ret (Some (<[key := x]> m))
        | None => raise TypeError  (* 'NoneType' does not support item assignment *)
        end
      else ret global_filters
  | None => ret global_filters
  end.

(** [main], from the start of its [try] block; the result is the exit
    status. *)
Definition main (args : Args) : M (State HttpWorld) Z :=
  logger_info "================";;
  logger_info "GitHub Commit Data Collector Starting";;
  logger_info "================";;
  try_except
    (load_env files;;
     (* Validate configuration *)
     validate_config files;;
     (* Get configurations *)
     let* api_config := get_api_config files int_of_str in
     let* output_config := get_output_config files in
     (* Initialize GitHub client *)
     let* token := get_github_token files in
     let* github_client :=
       call (github_client.init token (ac_api_url api_config) (ac_timeout api_config)
               (ac_max_retries api_config) (ac_rate_limit_buffer api_config)) in
     (* Test connection if requested *)
     if args_test_connection args then
       logger_info "Testing GitHub API connection...";;
       let* ok := call (github_client.test_connection env github_client) in
       if ok then logger_info "Connection test successful!";; ret 0
       else logger_error "Connection test failed!";; ret 1
     else
       (* Initialize team mapper *)
       let* team_config := load_team_mapping files in
       let* team_mapper := TeamMapper_init team_config in
       (* Initialize data collector *)
       let* data_collector :=
         DataCollector_init team_mapper (negb (args_no_detailed_commits args)) true in
       (* Determine repositories to collect from *)
       let* repos_config :=
         if truthy (args_repo args) then
           ret (Some [{| cfg_url := args_repo args;
                         cfg_branch := Some (args_branch args);
                         cfg_enabled := Value true;
                         cfg_filters := Absent |}])
         else
           let* repos_config := load_repositories files in
           match repos_config with
           | [] =>
               logger_error
                 "No repositories configured. Use --repo or configure repositories.yaml";;
               ret None
           | _ => ret (Some repos_config)
           end in
       match repos_config with
       | None => ret 1
       | Some repos_config =>
           (* Prepare filters *)
           let* global_filters := get_filter_config files in
           let* global_filters := override "date_from" (args_date_from args) global_filters in
           let* global_filters := override "date_to" (args_date_to args) global_filters in
           let* global_filters := override "author" (args_author args) global_filters in
           logger_info "Collecting commits from {len(repos_config)} repository(ies)";;
           (match global_filters with
            | Some m =>
                if bool_decide (size m = 0%nat) then ret tt
                else logger_info "Active filters: {global_filters}"
            | None => ret tt
            end);;
           (* Collect commits *)
           let* all_commits :=
             collect_multiple_repositories (client := api_client env fuel github_client)
               data_collector repos_config global_filters in
           match all_commits with
           | [] => logger_warning "No commits collected!";; ret 0
           | _ => finish args all_commits repos_config global_filters
           end
       end)
    (fun e => logger_error "Fatal error: {e}";; ret 1).
End Main.

(** *** Vocabulary for the resolver properties *)

(** The methods of a [BranchDetector] other than [clear_cache]. *)
Inductive DetectorCall : Type :=
  | CallDetect (owner repo : string)
  | CallValidate (owner repo branch : string)
  | CallFallback (owner repo : string) (preferred_branch : option string).

Definition run_call {W} {client : GitHubClient W} (c : DetectorCall)
    (s : State W) : State W :=
  match c with
  | CallDetect owner repo => snd (detect_default_branch owner repo s)
  | CallValidate owner repo branch => snd (validate_branch owner repo branch s)
  | CallFallback owner repo preferred =>
      snd (get_branch_with_fallback owner repo preferred s)
  end.

Definition run_calls {W} {client : GitHubClient W} (cs : list DetectorCall)
    (s : State W) : State W :=
  fold_left (fun s c => run_call c s) cs s.

(** A client for tests: it answers from fixed tables and records the
    calls made to it. *)
Inductive MockCall : Type :=
  | MInfo (owner repo : string)
  | MCommits (owner repo branch : string)
  | MDetails (owner repo sha : string).

Record MockTables : Type := {
  mock_info : string -> string -> Outcome RepoInfo;
  mock_commits : string -> string -> string -> Outcome (list RawCommit);
  mock_details : string -> string -> string -> Outcome RawCommit
}.

Definition mock_client (t : MockTables) : GitHubClient (list MockCall) :=
  {| get_repository_info := fun owner repo w =>
       (mock_info t owner repo, (w ++ [MInfo owner repo])%list);
     get_commits := fun owner repo branch _ _ _ _ w =>
       (mock_commits t owner repo branch, (w ++ [MCommits owner repo branch])%list);
     get_commit_details := fun owner repo sha w =>
       (mock_details t owner repo sha, (w ++ [MDetails owner repo sha])%list) |}.

Definition initial_state {W} (w : W) : State W :=
  {| world := w; _branch_cache := ∅; log := [] |}.

(** *** Vocabulary for the transport properties *)

(** The request of [_check_rate_limit]. *)
Definition rate_limit_request (self : GitHubAPIClient) : Request :=
  {| url := api_url self +:+ "/rate_limit"; params := None |}.

(** The rate-limit status as [_check_rate_limit] reads it in world [w]:
    [None] when it cannot be read (transport error, error status, no JSON,
    missing key). *)
Definition rate_limit_status (env : HttpEnv) (self : GitHubAPIClient)
    (w : HttpWorld) : option CoreLimit :=
  match http_get env KRateLimit (trace w) (rate_limit_request self) with
  | inl _ => None
  | inr response =>
      if (400 <=? status_code response) && (status_code response <? 600) then None
      else match json response with
           | Some rate_data => rl_core rate_data
           | None => None
           end
  end.

(** The events a computation adds to the trace. *)
Definition events_of {A} (m : M HttpWorld A) (w : HttpWorld) : list Event :=
  drop (length (trace w)) (trace (snd (m w))).

(** The waiting time of the check at the reading [now] of the clock:
    [reset - now + 1], computed in the floats of the host. *)
Definition wait_seconds_of (env : HttpEnv) (reset : Z) (now : Q) : Q :=
  float_of env (float_of env (float_of env (inject_Z reset) - now) + 1).

(** The check goes to sleep for the status [core] read at [now]: the
    quota is at or below the buffer, the reset time is one that
    [datetime.fromtimestamp] accepts, and the waiting time is positive and
    one that [time.sleep] accepts. *)
Definition must_wait (env : HttpEnv) (self : GitHubAPIClient) (core : CoreLimit)
    (now : Q) : Prop :=
  remaining core <= rate_limit_buffer self /\
  fromtimestamp_accepts env (reset core) = true /\
  (0 < wait_seconds_of env (reset core) now)%Q /\
  sleep_accepts env (wait_seconds_of env (reset core) now) = true.

(** The rule as the specification words it: the check sleeps exactly when
    the remaining quota is at or below the buffer. *)
Definition sleeps_iff_at_or_below_buffer (env : HttpEnv) (self : GitHubAPIClient)
    (w : HttpWorld) (core : CoreLimit) : Prop :=
  (exists q, EvSleep q ∈ events_of (github_client._check_rate_limit env self) w)
  <-> remaining core <= rate_limit_buffer self.

(** A provider that answers the rate-limit endpoint with the given quota
    and nothing else, under a clock that stands still. *)
Definition rate_env (remaining reset : Z) (now : Q) : HttpEnv :=
  {| http_get := fun k _ _ =>
       match k return TransportError + Response (doc k) with
       | KRateLimit =>
           inr {| status_code := 200; text := "";
                  json := Some {| rl_core := Some {| remaining := remaining;
                                                     reset := reset |} |} |}
       | _ => inl TConnectionError
       end;
     time_time := fun _ => now;
     float_of := fun q => q;
     fromtimestamp_accepts := fun t => (0 <=? t) && (t <=? 253402300799);
     sleep_accepts := fun q => Qle_bool q 9223372036 |}.

Definition test_client (max_retries rate_limit_buffer : Z) : GitHubAPIClient :=
  {| token := "t"; api_url := "https://api.github.com"; timeout := 30;
     max_retries := max_retries; rate_limit_buffer := rate_limit_buffer |}.

Definition empty_world : HttpWorld := {| trace := []; http_log := [] |}.

(** The number of requests sent to [u] among the events [evs]. *)
Definition is_get_to (u : string) (e : Event) : bool :=
  match e with
  | EvGet r => String.eqb (url r) u
  | EvSleep _ => false
  end.

Definition attempts (u : string) (evs : list Event) : nat :=
  length (List.filter (is_get_to u) evs).

(** The durations of the sleeps among the events. *)
Definition sleeps (evs : list Event) : list Q :=
  omap (fun e => match e with EvSleep q => Some q | EvGet _ => None end) evs.

(** A document without content, of each kind. *)
Definition empty_doc (k : DocKind) : doc k :=
  match k with
  | KRateLimit => {| rl_core := None |}
  | KRepo => {| default_branch := None; html_url := None |}
  | KCommitList => []
  | KCommit => {| rc_sha := None; rc_html_url := None; rc_commit := Absent;
                  rc_author := Absent; rc_stats := Absent; rc_files := Absent;
                  rc_other_keys := false |}
  | KUser => UserObject {| user_login := None |}
  end.

(** A provider that cannot be reached. *)
Definition failing_env : HttpEnv :=
  {| http_get := fun k _ _ => inl TConnectionError;
     time_time := fun _ => 0%Q;
     float_of := fun q => q;
     fromtimestamp_accepts := fun t => (0 <=? t) && (t <=? 253402300799);
     sleep_accepts := fun q => Qle_bool q 9223372036 |}.

(** A provider whose first [n] answers on any one URL are connection
    errors and whose later answers are empty documents with status 200. *)
Definition flaky_env (n : nat) : HttpEnv :=
  {| http_get := fun k tr r =>
       if (attempts (url r) tr <? n)%nat then inl TConnectionError
       else inr {| status_code := 200; text := ""; json := Some (empty_doc k) |};
     time_time := fun _ => 0%Q;
     float_of := fun q => q;
     fromtimestamp_accepts := fun t => (0 <=? t) && (t <=? 253402300799);
     sleep_accepts := fun q => Qle_bool q 9223372036 |}.

(** The URL and the query of the commit listing, as [get_commits] builds
    them, and the request for page number [i]. *)
Definition listing_url (self : GitHubAPIClient) (owner repo : string) : string :=
  api_url self +:+ "/" +:+ "repos/" +:+ owner +:+ "/" +:+ repo +:+ "/commits".

Definition listing_params (branch : string) (since until author : option string)
    (per_page : Z) : gmap string pval :=
  github_client.set_if_truthy "author" author
    (github_client.set_if_truthy "until" until
       (github_client.set_if_truthy "since" since
          (<["per_page" := PInt (Z.min per_page 100)]> (<["sha" := PStr branch]> ∅)))).

Definition page_request (u : string) (query : gmap string pval) (i : Z) : Request :=
  {| url := u; params := Some (<["page" := PInt i]> query) |}.

(** The provider answers the request for page [i] with the list [page]
    and a status that is no error, whatever happened before. *)
Definition answers_page (env : HttpEnv) (u : string) (query : gmap string pval)
    (i : Z) (page : list RawCommit) : Prop :=
  forall tr, exists response,
    http_get env KCommitList tr (page_request u query i) = inr response /\
    json response = Some page /\
    (400 <=? status_code response) && (status_code response <? 600) = false.

(** A page that makes [get_commits] go on, and one that makes it stop. *)
Definition full_page (per_page : Z) (page : list RawCommit) : Prop :=
  page <> [] /\ per_page <= Z.of_nat (length page).

Definition last_page (per_page : Z) (page : list RawCommit) : Prop :=
  page = [] \/ Z.of_nat (length page) < per_page.

(** The requests sent to [u] among the events, in order. *)
Definition requests_to (u : string) (evs : list Event) : list Event :=
  List.filter (is_get_to u) evs.

(** A commit summary that has nothing but a SHA. *)
Definition commit_with_sha (sha : string) : RawCommit :=
  {| rc_sha := Some sha; rc_html_url := None; rc_commit := Absent;
     rc_author := Absent; rc_stats := Absent; rc_files := Absent;
     rc_other_keys := false |}.

(** A provider that answers the listing request for page [i] with the
    [i]-th list of [pages] (an empty list beyond them) and cannot be
    reached otherwise. *)
Definition paged_env (pages : list (list RawCommit)) : HttpEnv :=
  {| http_get := fun k _ r =>
       match k return TransportError + Response (doc k) with
       | KCommitList =>
           match params r with
           | Some query =>
               match query !! "page" with
               | Some (PInt i) =>
                   inr {| status_code := 200; text := "";
                          json := Some (nth (Z.to_nat (i - 1)) pages []) |}
               | _ => inl TConnectionError
               end
           | None => inl TConnectionError
           end
       | _ => inl TConnectionError
       end;
     time_time := fun _ => 0%Q;
     float_of := fun q => q;
     fromtimestamp_accepts := fun t => (0 <=? t) && (t <=? 253402300799);
     sleep_accepts := fun q => Qle_bool q 9223372036 |}.

Definition pages_100_100_37 : list (list RawCommit) :=
  [repeat (commit_with_sha "a") 100; repeat (commit_with_sha "b") 100;
   repeat (commit_with_sha "c") 37].

(** A repository that cannot be reached, and one whose metadata declare
    the default branch [b] and whose branches [valid] have commits. *)
Definition unreachable_repo : MockTables :=
  {| mock_info := fun _ _ => Raise ConnectionError;
     mock_commits := fun _ _ _ => Raise ConnectionError;
     mock_details := fun _ _ _ => Raise ConnectionError |}.

Definition repo_with_branches (b : option string) (valid : list string) : MockTables :=
  {| mock_info := fun _ _ => Ok {| default_branch := b; html_url := None |};
     mock_commits := fun _ _ branch =>
       if bool_decide (branch ∈ valid) then Ok [commit_with_sha "c0ffee"]
       else Raise (HTTPError 404);
     mock_details := fun _ _ _ => Raise (HTTPError 404) |}.

(** A computation that removes no entry of the branch cache. *)
Definition keeps_cache_keys {W A} (m : M (State W) A) : Prop :=
  forall s k, is_Some (_branch_cache s !! k) -> is_Some (_branch_cache (snd (m s)) !! k).

(** A computation that leaves the branch cache as it is. *)
Definition keeps_cache {W A} (m : M (State W) A) : Prop :=
  forall s, _branch_cache (snd (m s)) = _branch_cache s.

(** [detect_default_branch] finds the default branch in state [s]: from
    the cache or from a metadata request that succeeds. *)
Definition detect_succeeds {W} {client : GitHubClient W} (owner repo : string)
    (s : State W) : Prop :=
  is_Some (_branch_cache s !! (owner +:+ "/" +:+ repo)) \/
  exists info w', get_repository_info owner repo (world s) = (Ok info, w').

(** The priority chain in the words of the specification: the preferred
    branch when given and valid, else the detected default when valid,
    else the first valid common candidate other than the detected default,
    else ["main"]. *)
Definition resolveWithFallback (valid : string -> bool)
    (preferredBranch : option string) (detected : string) : string :=
  let given_and_valid :=
    match preferredBranch with
    | Some p => str_truthy p && valid p
    | None => false
    end in
  if given_and_valid then default "" preferredBranch
  else if valid detected then detected
  else match List.find (fun c => negb (String.eqb c detected) && valid c)
               ["main"; "master"; "develop"; "trunk"] with
       | Some c => c
       | None => "main"
       end.

(** *** Vocabulary for the collection properties *)

(** The outcome of the detail request for each SHA: an exception or the
    detail document. *)
Definition outcome_of {A} (r : exn + A) : Outcome A :=
  match r with inl e => Raise e | inr a => Ok a end.

(** The value of a field, or [d] when the key is absent. *)
Definition field_default {A} (d : A) (f : field A) : A :=
  match f with Value a => a | _ => d end.

#[export] Instance field_eq_dec {A} `{EqDecision A} : EqDecision (field A).
Proof. solve_decision. Defined.
#[export] Instance GitAuthor_eq_dec : EqDecision GitAuthor.
Proof. solve_decision. Defined.
#[export] Instance CommitInfo_eq_dec : EqDecision CommitInfo.
Proof. solve_decision. Defined.
#[export] Instance GitHubUser_eq_dec : EqDecision GitHubUser.
Proof. solve_decision. Defined.
#[export] Instance StatsRaw_eq_dec : EqDecision StatsRaw.
Proof. solve_decision. Defined.
#[export] Instance FileChangeRaw_eq_dec : EqDecision FileChangeRaw.
Proof. solve_decision. Defined.
#[export] Instance RawCommit_eq_dec : EqDecision RawCommit.
Proof. solve_decision. Defined.

(** The object without keys, [{}]. *)
Definition empty_document : RawCommit :=
  {| rc_sha := None; rc_html_url := None; rc_commit := Absent; rc_author := Absent;
     rc_stats := Absent; rc_files := Absent; rc_other_keys := false |}.


(** A document that can be processed: none of its nested objects
    [commit], [commit.author] and [stats], nor its list [files], is null.
    The provider's schema allows a null [commit.author]. *)
Definition processable (data : RawCommit) : bool :=
  match rc_commit data with
  | Absent => true
  | Null => false
  | Value commit_info => negb (is_null (ci_author commit_info))
  end
  && negb (is_null (rc_stats data))
  && negb (is_null (rc_files data)).

(** The record that [process_commit] builds from the document [data],
    given the team and the date it has found. *)
Definition commit_record (repo_owner repo_name repo_url branch : string)
    (data : RawCommit) (team_name : string) (commit_date : datetime) : CommitData :=
  let commit_info :=
    field_default {| ci_author := Absent; ci_message := None |} (rc_commit data) in
  let author_info :=
    field_default {| ga_name := None; ga_email := None; ga_date := None |}
                  (ci_author commit_info) in
  let stats :=
    field_default {| st_additions := None; st_deletions := None; st_total := None |}
                  (rc_stats data) in
  let files :=
    map (fun file_data =>
           {| filename := default "" (fr_filename file_data);
              status := default "modified" (fr_status file_data);
              additions := default 0 (fr_additions file_data);
              deletions := default 0 (fr_deletions file_data);
              changes := default 0 (fr_changes file_data);
              patch := fr_patch file_data |})
        (field_default [] (rc_files data)) in
  {| repository_name := repo_name;
     repository_owner := repo_owner;
     repository_url := repo_url;
     commit_sha := default "" (rc_sha data);
     commit_message := default "" (ci_message commit_info);
     commit_date := commit_date;
     commit_url := default "" (rc_html_url data);
     author_name := default "Unknown" (ga_name author_info);
     author_username :=
       match rc_author data with
       | Value user => login user
       | _ => None
       end;
     author_email := default "" (ga_email author_info);
     team_name := team_name;
     total_additions := default 0 (st_additions stats);
     total_deletions := default 0 (st_deletions stats);
     total_changes :=
       default (default 0 (st_additions stats) + default 0 (st_deletions stats))
               (st_total stats);
     files_changed_count := Z.of_nat (length files);
     branch := branch;
     file_changes := files |}.

(** [record] is a record of the commit document [data]. *)
Definition built_from (repo_owner repo_name repo_url branch : string)
    (data : RawCommit) (record : CommitData) : Prop :=
  exists team_name commit_date,
    record = commit_record repo_owner repo_name repo_url branch data team_name commit_date.



(** A state that is nothing but a log. *)
#[export] Instance list_Logging : Logging (list LogRecord) :=
  {| log_record := fun r l => (l ++ [r])%list |}.

(** [a] and [b] are the same character, or the capital and the small form
    of one of the letters A to Z. *)
Definition same_char_ignoring_case (a b : ascii) : bool :=
  let m := nat_of_ascii a in
  let n := nat_of_ascii b in
  ((m =? n)
   || ((65 <=? m) && (m <=? 90) && (n =? m + 32))
   || ((65 <=? n) && (n <=? 90) && (m =? n + 32)))%nat.

(** Two usernames are the same up to letter case. *)
Fixpoint same_ignoring_case (u v : string) : bool :=
  match u, v with
  | EmptyString, EmptyString => true
  | String a u, String b v => same_char_ignoring_case a b && same_ignoring_case u v
  | _, _ => false
  end.

(** [u] is listed as a member of [team] in the [teams] mapping. *)
Definition listed (teams : list (string * option (list string)))
    (team u : string) : Prop :=
  exists members, (team, Some members) ∈ teams /\ u ∈ members.

(** Every member listed in [teams] is written in ASCII. *)
Definition ascii_members (teams : list (string * option (list string))) : Prop :=
  forall team u, listed teams team u -> is_ascii u = true.

(** The mapper built by [TeamMapper.__init__] (the value it returns). *)
Definition new_TeamMapper (cfg : TeamConfig) : TeamMapper :=
  {| team_config := cfg;
     default_team := default "unassigned" (cfg_default_team cfg);
     username_to_team := add_teams (default [] (cfg_teams cfg)) ∅ |}.

(** The configuration of the unit tests. *)
Definition test_team_config : TeamConfig :=
  {| cfg_default_team := Some "unassigned";
     cfg_teams := Some [("backend", Some ["alice"; "bob"]);
                        ("frontend", Some ["charlie"])] |}.

(** A host for tests: the clock stands at 0 and every date string parses
    to 1. *)
Definition test_host {W} : Host W :=
  {| datetime_now := fun _ => 0;
     date_parser_parse := fun _ => Some 1;
     urlparse_path := fun u => u |}.

(** A commit detail with one changed file. *)
Definition detail_with_sha (sha : string) : RawCommit :=
  {| rc_sha := Some sha; rc_html_url := None; rc_commit := Absent;
     rc_author := Absent;
     rc_stats := Value {| st_additions := Some 3; st_deletions := Some 1;
                          st_total := Some 4 |};
     rc_files := Value [{| fr_filename := Some "README.md"; fr_status := Some "modified";
                           fr_additions := Some 3; fr_deletions := Some 1;
                           fr_changes := Some 4; fr_patch := None |}];
     rc_other_keys := false |}.

(** A repository with five commits on [main]; the detail request fails
    for the SHA ["c3"] only. *)
Definition five_commits : list RawCommit :=
  [commit_with_sha "c1"; commit_with_sha "c2"; commit_with_sha "c3";
   commit_with_sha "c4"; commit_with_sha "c5"].

Definition five_commit_details (sha : string) : exn + RawCommit :=
  if String.eqb sha "c3" then inl (HTTPError 500) else inr (detail_with_sha sha).

Definition five_commit_repo : MockTables :=
  {| mock_info := fun _ _ => Ok {| default_branch := Some "main"; html_url := None |};
     mock_commits := fun _ _ _ => Ok five_commits;
     mock_details := fun _ _ sha => outcome_of (five_commit_details sha) |}.

Definition test_collector (fetch_detailed_commits : bool) : DataCollector :=
  {| team_mapper := new_TeamMapper test_team_config;
     commit_processor := {| cp_team_mapper := new_TeamMapper test_team_config |};
     fetch_detailed_commits := fetch_detailed_commits;
     auto_detect_branch := true |}.

(** The collection of one configured repository inside
    [collect_multiple_repositories]: the call of
    [collect_repository_commits] with the merged filters. *)
Definition collect_one {W} {client : GitHubClient W} {host : Host W}
    (self : DataCollector) (global_filters : gmap string string)
    (repo_config : RepoConfig) : M (State W) (list CommitData) :=
  match cfg_filters repo_config with
  | Null => raise TypeError
  | repo_filters =>
      let filters := field_default ∅ repo_filters ∪ global_filters in
      collect_repository_commits self (cfg_url repo_config) (cfg_branch repo_config)
        (filters !! "date_from") (filters !! "date_to") (filters !! "author")
  end.

(** [Collected self filters repos s out s']: going through [repos] from
    state [s], the repositories whose collection succeeds contribute their
    commits to [out], in order, and those whose collection raises
    contribute nothing and leave an error record. *)
Inductive Collected {W} {client : GitHubClient W} {host : Host W}
    (self : DataCollector) (global_filters : gmap string string)
    : list RepoConfig -> State W -> list CommitData -> State W -> Prop :=
  | Collected_nil s :
      Collected self global_filters [] s [] s
  | Collected_ok repo_config rest s commits s1 out s' :
      collect_one self global_filters repo_config s = (Ok commits, s1) ->
      Collected self global_filters rest s1 out s' ->
      Collected self global_filters (repo_config :: rest) s (commits ++ out)%list s'
  | Collected_skip repo_config rest s e s1 out s' :
      collect_one self global_filters repo_config s = (Raise e, s1) ->
      Collected self global_filters rest
        (log_record
           (ERROR, "Failed to collect from repository {repo_config.get('url')}: {e}") s1)
        out s' ->
      Collected self global_filters (repo_config :: rest) s out s'.

(** Three repositories; the metadata request of the second fails. *)
Definition three_repos : MockTables :=
  {| mock_info := fun _ repo =>
       if String.eqb repo "second" then Raise (HTTPError 404)
       else Ok {| default_branch := Some "main"; html_url := None |};
     mock_commits := fun _ repo _ => Ok [commit_with_sha (repo +:+ "-1");
                                         commit_with_sha (repo +:+ "-2")];
     mock_details := fun _ _ sha => Ok (detail_with_sha sha) |}.

Definition repo_config_of (url : string) : RepoConfig :=
  {| cfg_url := Some url; cfg_branch := None; cfg_enabled := Absent;
     cfg_filters := Absent |}.

Definition three_repo_configs : list RepoConfig :=
  [repo_config_of "o/first"; repo_config_of "o/second"; repo_config_of "o/third"].

(** *** Vocabulary for the start-up properties *)

(** No repository is configured: [load_repositories] yields the empty
    list. *)
Definition no_repositories (files : HostFiles) : Prop :=
  forall s : State HttpWorld, fst (load_repositories files s) = Ok [].

(** The run [run] from state [s] is aborted before any network activity:
    it ends with exit status 1 and has added no event to the trace. *)
Definition aborted_before_network (run : Outcome Z * State HttpWorld)
    (s : State HttpWorld) : Prop :=
  fst run = Ok 1 /\ trace (world (snd run)) = trace (world s).

(** The last record of the log is the error record with which [main]
    gives up: the one for an empty configuration, or the one of its
    handler of exceptions. *)
Definition error_logged (s : State HttpWorld) : Prop :=
  exists records msg,
    log s = (records ++ [(ERROR, msg)])%list /\
    (msg = "No repositories configured. Use --repo or configure repositories.yaml" \/
     msg = "Fatal error: {e}").

(** A computation that adds no event to the trace and ends, with a value
    and a state in [P] or with an exception. *)
Definition quiet_to {A} (P : A -> State HttpWorld -> Prop)
    (m : M (State HttpWorld) A) : Prop :=
  forall s,
    trace (world (snd (m s))) = trace (world s) /\
    match fst (m s) with
    | Ok a => P a (snd (m s))
    | Raise _ => True
    | Diverge => False
    end.

(** A computation that adds no event to the trace and ends, with a value
    in [P] or with an exception. *)
Definition quiet {A} (P : A -> Prop) (m : M (State HttpWorld) A) : Prop :=
  forall s,
    trace (world (snd (m s))) = trace (world s) /\
    match fst (m s) with
    | Ok a => P a
    | Raise _ => True
    | Diverge => False
    end.

(** A computation that adds no event to the trace and ends with a value
    in [P]. *)
Definition quiet_ok {A} (P : A -> Prop) (m : M (State HttpWorld) A) : Prop :=
  forall s,
    trace (world (snd (m s))) = trace (world s) /\
    exists a, fst (m s) = Ok a /\ P a.

(** A provider that answers [GET /user] and nothing else. *)
Definition user_env : HttpEnv :=
  {| http_get := fun k _ _ =>
       match k return TransportError + Response (doc k) with
       | KUser => inr {| status_code := 200; text := "";
                         json := Some (UserObject {| user_login := Some "octocat" |}) |}
       | _ => inl TConnectionError
       end;
     time_time := fun _ => 0%Q;
     float_of := fun q => q;
     fromtimestamp_accepts := fun t => (0 <=? t) && (t <=? 253402300799);
     sleep_accepts := fun q => Qle_bool q 9223372036 |}.

(** A host with a token and a repositories.yaml that lists no repository. *)
Definition files_without_repositories : HostFiles :=
  {| dotenv_loaded := true;
     getenv := fun name => if String.eqb name "GITHUB_TOKEN" then Some "t0ken" else None;
     repositories_yaml :=
       Some (inr {| doc_repositories := Value []; doc_filters := Absent |});
     teams_yaml := None |}.

(** A stand-in for [int] that reads the defaults of [get_api_config]. *)
Definition test_int_of_str (s : string) : option Z :=
  if String.eqb s "30" then Some 30
  else if String.eqb s "3" then Some 3
  else if String.eqb s "10" then Some 10
  else if String.eqb s "100" then Some 100
  else None.

Definition test_args (test_connection : bool) : Args :=
  {| args_repo := None; args_branch := "main"; args_date_from := None;
     args_date_to := None; args_author := None;
     args_no_detailed_commits := false; args_test_connection := test_connection |}.

Definition test_finish : Args -> list CommitData -> list RepoConfig ->
    option (gmap string string) -> M (State HttpWorld) Z :=
  fun _ _ _ _ => ret 0.

(** ** team_mapper.py: the other methods *)

(** [TeamMapper.get_all_teams] *)
Definition get_all_teams (self : TeamMapper) : gset string :=
  map_img (username_to_team self) ∪ {[default_team self]}.

(** *** Vocabulary for the further properties *)

(** A computation that comes to an end, with a value or an exception, in
    every state. *)
Definition returns {S A} (m : M S A) : Prop :=
  forall s, fst (m s) <> Diverge.

(** A client every call of which comes to an end. *)
Definition client_returns {W} (client : GitHubClient W) : Prop :=
  (forall owner repo, returns (get_repository_info owner repo)) /\
  (forall owner repo branch since until author per_page,
      returns (get_commits owner repo branch since until author per_page)) /\
  (forall owner repo sha, returns (get_commit_details owner repo sha)).

(** A computation that never ends with an exception. *)
Definition never_raises {S A} (m : M S A) : Prop :=
  forall s e, fst (m s) <> Raise e.

(** The exceptions that the decorator of [_make_request] retries. *)
Definition retried (e : exn) : bool :=
  is_RequestException e || match e with RateLimitError => true | _ => false end.

(** The number of requests among the events. *)
Definition requests_in (evs : list Event) : nat :=
  length (List.filter is_get evs).

(** The string of [n] characters [c]. *)
Fixpoint repeat_char (c : ascii) (n : nat) : string :=
  match n with
  | O => EmptyString
  | S n => String c (repeat_char c n)
  end.

(** A commit passes the criteria of [filter_commits]. *)
Definition passes (date_from date_to : option datetime) (authors teams : option (list string))
    (c : CommitData) : Prop :=
  (forall d, date_from = Some d -> d <= commit_date c) /\
  (forall d, date_to = Some d -> commit_date c <= d) /\
  (forall l, authors = Some l -> l <> [] ->
     exists u a, author_username c = Some u /\ u <> "" /\ a ∈ l /\
                 same_ignoring_case a u = true) /\
  (forall l, teams = Some l -> l <> [] -> team_name c ∈ l).

(** The same, as a test. *)
Definition keeps (date_from date_to : option datetime) (authors teams : option (list string))
    (c : CommitData) : bool :=
  match date_from with Some d => d <=? commit_date c | None => true end
  && match date_to with Some d => commit_date c <=? d | None => true end
  && match authors with
     | Some ((_ :: _) as l) =>
         match author_username c with
         | Some u => str_truthy u && bool_decide (lower u ∈ map lower l)
         | None => false
         end
     | _ => true
     end
  && match teams with
     | Some ((_ :: _) as l) => bool_decide (team_name c ∈ l)
     | _ => true
     end.

(** A record with the given date, author and team, for tests. *)
Definition test_commit (sha : string) (date : datetime) (username : option string)
    (team : string) : CommitData :=
  {| repository_name := "r"; repository_owner := "o"; repository_url := "o/r";
     commit_sha := sha; commit_message := ""; commit_date := date; commit_url := "";
     author_name := ""; author_username := username; author_email := "";
     team_name := team; total_additions := 1; total_deletions := 2; total_changes := 3;
     files_changed_count := 1; branch := "main"; file_changes := [] |}.

(** Every character of [s] satisfies [p]. *)
Fixpoint all_chars (p : ascii -> bool) (s : string) : bool :=
  match s with
  | EmptyString => true
  | String a r => p a && all_chars p r
  end.

(** A character of an owner or repository name: an ASCII character that
    is neither white space nor a slash. *)
Definition name_char (a : ascii) : bool :=
  (nat_of_ascii a <? 128)%nat && (negb (is_space a) && negb (Ascii.eqb a "/")).

(** ** Comparisons of datetimes

    Python orders two [datetime]s only when both carry a time zone or
    neither does, and raises [TypeError] otherwise.  A [datetime] of the
    model is the code of a Python one: [aware d] tells whether [d] carries a
    time zone, and the order of the codes is the order in time between two
    datetimes of one kind. *)
Section Datetime.
Context {S : Type} (aware : datetime -> bool).

(** [a op b] for [op] one of [<], [<=], [>], [>=] *)
Definition datetime_cmp (op : Z -> Z -> bool) (a b : datetime) : M S bool :=
  if Bool.eqb (aware a) (aware b) then ret (op a b) else raise TypeError.
End Datetime.

(** [[x for x in l if test(x)]] *)
Fixpoint comprehension_if {S A} (test : A -> M S bool) (l : list A) : M S (list A) :=
  match l with
  | [] => ret []
  | x :: rest =>
      let* keep := test x in
      let* kept := comprehension_if test rest in
      ret (if keep then x :: kept else kept)
  end.

(** ** commit_processor.py: the filter *)

Section FilterCommits.
Context {W : Type} (aware : datetime -> bool).

(** [CommitProcessor.filter_commits]; an argument that is [None] or an
    empty list is no criterion. *)
Definition filter_commits (self : CommitProcessor) (commits : list CommitData)
    (date_from date_to : option datetime) (authors teams : option (list string))
    : M (State W) (list CommitData) :=
  let filtered := commits in
  (* Date filtering *)
  let* filtered :=
    match date_from with
    | Some date_from =>
        let* filtered :=
          comprehension_if (fun c => datetime_cmp aware Z.geb (commit_date c) date_from)
            filtered in
        logger_debug "Filtered to commits after {date_from}: {len(filtered)} remaining";;
        ret filtered
    | None => ret filtered
    end in
  let* filtered :=
    match date_to with
    | Some date_to =>
        let* filtered :=
          comprehension_if (fun c => datetime_cmp aware Z.leb (commit_date c) date_to)
            filtered in
        logger_debug "Filtered to commits before {date_to}: {len(filtered)} remaining";;
        ret filtered
    | None => ret filtered
    end in
  (* Author filtering *)
  let* filtered :=
    match authors with
    | Some ((_ :: _) as authors) =>
        let authors_lower := map lower authors in
        let filtered :=
          List.filter
            (fun c => match author_username c with
                      | Some u => str_truthy u && bool_decide (lower u ∈ authors_lower)
                      | None => false
                      end)
            filtered in
        logger_debug "Filtered to authors {authors}: {len(filtered)} remaining";;
        ret filtered
    | _ => ret filtered
    end in
  (* Team filtering *)
  let* filtered :=
    match teams with
    | Some ((_ :: _) as teams) =>
        let filtered := List.filter (fun c => bool_decide (team_name c ∈ teams)) filtered in
        logger_debug "Filtered to teams {teams}: {len(filtered)} remaining";;
        ret filtered
    | _ => ret filtered
    end in
  logger_info "Filtering complete: {len(filtered)} commits out of {len(commits)}";;
  ret filtered.
End FilterCommits.

(** The dates given to [filter_commits] can be compared with the date of
    every commit. *)
Definition comparable (aware : datetime -> bool) (date_from date_to : option datetime)
    (commits : list CommitData) : Prop :=
  forall d c, date_from = Some d \/ date_to = Some d -> c ∈ commits ->
              aware (commit_date c) = aware d.

(** Datetimes with an even code carry a time zone, for tests. *)
Definition test_aware (d : datetime) : bool := Z.even d.

(** ** models.py: statistics and metadata *)

Record RepositoryStats : Type := {
  rs_repository_name : string;
  rs_repository_owner : string;
  rs_total_commits : Z;
  rs_total_additions : Z;
  rs_total_deletions : Z;
  rs_total_files_changed : Z;
  rs_unique_authors : Z;
  rs_date_range_start : option datetime;
  rs_date_range_end : option datetime;
  rs_teams_involved : list string
}.

Record CollectionMetadata : Type := {
  cm_collection_date : datetime;
  cm_total_repositories : Z;
  cm_total_commits_collected : Z;
  cm_repositories_processed : list string;
  cm_filters_applied : gmap string string
}.

(** ** Built-in functions on lists *)

(** [sum(l)] *)
Definition sum_of (l : list Z) : Z := fold_left Z.add l 0.

(** [sorted(l)] on strings: the order is that of the character codes. *)
Fixpoint insert_sorted (x : string) (l : list string) : list string :=
  match l with
  | [] => [x]
  | y :: rest => if String.leb x y then x :: l else y :: insert_sorted x rest
  end.

Definition sorted (l : list string) : list string := foldr insert_sorted [] l.

Section MinMax.
Context {S : Type} (aware : datetime -> bool).

(** The loop of [min(l)] and [max(l)]: [op item current] tells whether
    [item] takes the place of [current]. *)
Fixpoint datetime_best (op : Z -> Z -> bool) (current : datetime) (rest : list datetime)
    : M S datetime :=
  match rest with
  | [] => ret current
  | item :: rest =>
      let* better := datetime_cmp aware op item current in
      datetime_best op (if better then item else current) rest
  end.

(** [min(l) if l else None] and [max(l) if l else None] *)
Definition min_or_None (l : list datetime) : M S (option datetime) :=
  match l with
  | [] => ret None
  | first :: rest => let* m := datetime_best Z.ltb first rest in ret (Some m)
  end.

Definition max_or_None (l : list datetime) : M S (option datetime) :=
  match l with
  | [] => ret None
  | first :: rest => let* m := datetime_best Z.gtb first rest in ret (Some m)
  end.
End MinMax.

(** ** data_collector.py: statistics and metadata *)

Section Statistics.
Context {W : Type} {host : Host W} (aware : datetime -> bool).

(** [repo_commits[repo_key].append(commit)], after the key has been added
    with an empty list when it was not there; a [dict] keeps its keys in
    the order of their insertion. *)
Fixpoint append_commit (repo_key : string) (commit : CommitData)
    (repo_commits : list (string * list CommitData)) : list (string * list CommitData) :=
  match repo_commits with
  | [] => [(repo_key, [commit])]
  | (key, l) :: rest =>
      if String.eqb key repo_key then (key, (l ++ [commit])%list) :: rest
      else (key, l) :: append_commit repo_key commit rest
  end.

(** The first loop of [calculate_repository_stats]. *)
Definition group_by_repository (commits : list CommitData)
    : list (string * list CommitData) :=
  fold_left
    (fun repo_commits commit =>
       let repo_key := repository_owner commit +:+ "/" +:+ repository_name commit in
       append_commit repo_key commit repo_commits)
    commits [].

(** The second loop of [calculate_repository_stats]. *)
Fixpoint stats_loop (items : list (string * list CommitData))
    (stats_list : list RepositoryStats) : M (State W) (list RepositoryStats) :=
  match items with
  | [] => ret stats_list
  | (repo_key, repo_commit_list) :: rest =>
      let* (owner, name) :=
        match split "/" repo_key with
        | [owner; name] => ret (owner, name)
        | [] | [_] => raise (ValueError "not enough values to unpack (expected 2, got 1)")
        | _ => raise (ValueError "too many values to unpack (expected 2)")
        end in
      (* Get unique authors and teams *)
      let authors :=
        remove_dups
          (omap (fun c => match author_username c with
                          | Some u => if str_truthy u then Some u else None
                          | None => None
                          end)
                repo_commit_list) in
      let teams := remove_dups (map team_name repo_commit_list) in
      (* Get date range *)
      let dates := map commit_date repo_commit_list in
      let* date_start := min_or_None aware dates in
      let* date_end := max_or_None aware dates in
      let stats :=
        {| rs_repository_name := name;
           rs_repository_owner := owner;
           rs_total_commits := Z.of_nat (length repo_commit_list);
           rs_total_additions := sum_of (map total_additions repo_commit_list);
           rs_total_deletions := sum_of (map total_deletions repo_commit_list);
           rs_total_files_changed := sum_of (map files_changed_count repo_commit_list);
           rs_unique_authors := Z.of_nat (length authors);
           rs_date_range_start := date_start;
           rs_date_range_end := date_end;
           rs_teams_involved := sorted teams |} in
      stats_loop rest (stats_list ++ [stats])%list
  end.

(** [DataCollector.calculate_repository_stats] *)
Definition calculate_repository_stats (self : DataCollector) (commits : list CommitData)
    : M (State W) (list RepositoryStats) :=
  (* Group commits by repository *)
  let repo_commits := group_by_repository commits in
  (* Calculate stats for each repository *)
  let* stats_list := stats_loop repo_commits [] in
  logger_info "Calculated statistics for {len(stats_list)} repositories";;
  ret stats_list.

(** The list comprehension of [create_collection_metadata]. *)
Fixpoint repo_names_of (repos_config : list RepoConfig) : M (State W) (list string) :=
  match repos_config with
  | [] => ret []
  | r :: rest =>
      let* url :=
        match cfg_url r with
        | Some url => ret url
        | None => raise (KeyError "url")
        end in
      let* (owner, _) := parse_repo_url (Some url) in
      let* (_, repo) := parse_repo_url (Some url) in
      let* names := repo_names_of rest in
      ret ((owner +:+ "/" +:+ repo) :: names)
  end.

(** [DataCollector.create_collection_metadata] *)
Definition create_collection_metadata (self : DataCollector) (commits : list CommitData)
    (repos_config : list RepoConfig) (filters : gmap string string)
    : M (State W) CollectionMetadata :=
  let* repo_names := repo_names_of repos_config in
  let* now := gets (fun s => datetime_now (world s)) in
  ret {| cm_collection_date := now;
         cm_total_repositories := Z.of_nat (length repos_config);
         cm_total_commits_collected := Z.of_nat (length commits);
         cm_repositories_processed := repo_names;
         cm_filters_applied := filters |}.
End Statistics.

(** The commits of a repository. *)
Definition in_repository (owner name : string) (c : CommitData) : bool :=
  String.eqb (repository_owner c) owner && String.eqb (repository_name c) name.

(** A name without slash. *)
Definition slash_free (s : string) : bool :=
  all_chars (fun a => negb (Ascii.eqb a "/")) s.

(** The names of the repositories of the commits hold no slash, and the
    dates of the commits of one repository can be compared. *)
Definition well_formed (aware : datetime -> bool) (commits : list CommitData) : Prop :=
  (forall c, c ∈ commits ->
     slash_free (repository_owner c) = true /\ slash_free (repository_name c) = true) /\
  (forall c c', c ∈ commits -> c' ∈ commits ->
     repository_owner c = repository_owner c' ->
     repository_name c = repository_name c' ->
     aware (commit_date c) = aware (commit_date c')).

(** A commit of a repository, for tests. *)
Definition commit_in (owner name : string) (date : datetime) (adds dels files : Z)
    : CommitData :=
  {| repository_name := name; repository_owner := owner; repository_url := "";
     commit_sha := ""; commit_message := ""; commit_date := date; commit_url := "";
     author_name := ""; author_username := None; author_email := "";
     team_name := "unassigned"; total_additions := adds; total_deletions := dels;
     total_changes := adds + dels; files_changed_count := files; branch := "main";
     file_changes := [] |}.

(** The key under which [calculate_repository_stats] groups a commit. *)
Definition key_of (c : CommitData) : string :=
  repository_owner c +:+ "/" +:+ repository_name c.

(** The statistics [st] are those of the commits [l]. *)
Definition stats_of_commits (l : list CommitData) (st : RepositoryStats) : Prop :=
  rs_total_commits st = Z.of_nat (length l) /\
  rs_total_additions st = sum_of (map total_additions l) /\
  rs_total_deletions st = sum_of (map total_deletions l) /\
  rs_total_files_changed st = sum_of (map files_changed_count l) /\
  (exists first last,
     rs_date_range_start st = Some first /\ rs_date_range_end st = Some last /\
     first ∈ map commit_date l /\ last ∈ map commit_date l /\
     forall c, c ∈ l -> first <= commit_date c <= last) /\
  (forall t, t ∈ rs_teams_involved st <-> exists c, c ∈ l /\ team_name c = t).

(** [parse_repo_url] reads the URL of the entry [r] as [owner] and [repo]. *)
Definition reads_as {W} {host : Host W} (r : RepoConfig) (owner repo : string) : Prop :=
  exists url, cfg_url r = Some url /\
              forall s : State W, fst (parse_repo_url (Some url) s) = Ok (owner, repo).

(** Files with a token, and with the given content of repositories.yaml
    and teams.yaml, for tests. *)
Definition files_with (repositories : option (exn + RepositoriesDoc))
    (teams : option (exn + TeamConfig)) : HostFiles :=
  {| dotenv_loaded := true;
     getenv := fun name => if String.eqb name "GITHUB_TOKEN" then Some "t0ken" else None;
     repositories_yaml := repositories;
     teams_yaml := teams |}.

(** The request of the connection test for the files of a host:
    [GET /user] at the API URL of the environment, https://api.github.com
    by default, without its trailing slashes. *)
Definition user_request (files : HostFiles) : Request :=
  {| url := rstrip "/" (default "https://api.github.com" (getenv files "GITHUB_API_URL"))
            +:+ "/user";
     params := None |}.

(** A run of [main] in the mode of the connection test: it ends with the
    status 0 or 1 or with an exception, and it has added to the trace
    nothing or the request [request]; it does not end with the status 0
    unless the request has been sent. *)
Definition connection_tested (request : Request) (m : M (State HttpWorld) Z) : Prop :=
  forall s,
    exists evs,
      trace (world (snd (m s))) = (trace (world s) ++ evs)%list /\
      (evs = [] \/ evs = [EvGet request]) /\
      match fst (m s) with
      | Ok status => (status = 0 /\ evs <> []) \/ status = 1
      | Raise _ => True
      | Diverge => False
      end.

(** Files without a token. *)
Definition files_without_token : HostFiles :=
  {| dotenv_loaded := false;
     getenv := fun _ => None;
     repositories_yaml := None;
     teams_yaml := None |}.

(** ** models.py: the dictionaries of the export

    A value of a dictionary that goes to [json.dump]; a [dict] keeps its
    keys in the order of their insertion. *)
#[local] Unset Elimination Schemes.
Inductive pyval : Type :=
  | VNone
  | VStr (s : string)
  | VInt (z : Z)
  | VList (l : list pyval)
  | VDict (items : list (string * pyval)).
#[local] Set Elimination Schemes.

Definition of_optional (o : option string) : pyval :=
  match o with Some s => VStr s | None => VNone end.

(** [d.get(key)] *)
Fixpoint dict_get (key : string) (items : list (string * pyval)) : option pyval :=
  match items with
  | [] => None
  | (k, v) :: rest => if String.eqb k key then Some v else dict_get key rest
  end.

(** [d.pop(key, None)], for the dictionary that is left *)
Definition dict_pop (key : string) (items : list (string * pyval))
    : list (string * pyval) :=
  List.filter (fun kv => negb (String.eqb (fst kv) key)) items.

(** [FileChange.to_dict], that is [asdict(self)] *)
Definition FileChange_to_dict (self : FileChange) : list (string * pyval) :=
  [("filename", VStr (filename self));
   ("status", VStr (status self));
   ("additions", VInt (additions self));
   ("deletions", VInt (deletions self));
   ("changes", VInt (changes self));
   ("patch", of_optional (patch self))].

Section ToDict.
(** [datetime.isoformat] *)
Context (isoformat : datetime -> string).

(** [CommitData.to_dict] *)
Definition CommitData_to_dict (self : CommitData) (include_patch : bool)
    : list (string * pyval) :=
  (* Add file changes *)
  let file_changes :=
    fold_left
      (fun data_file_changes fc =>
         let fc_dict := FileChange_to_dict fc in
         let fc_dict := if negb include_patch then dict_pop "patch" fc_dict else fc_dict in
         (data_file_changes ++ [VDict fc_dict])%list)
      (file_changes self) [] in
  [("repository",
    VDict [("name", VStr (repository_name self));
           ("owner", VStr (repository_owner self));
           ("url", VStr (repository_url self))]);
   ("commit",
    VDict [("sha", VStr (commit_sha self));
           ("message", VStr (commit_message self));
           ("date", VStr (isoformat (commit_date self)));
           ("url", VStr (commit_url self));
           ("branch", VStr (branch self))]);
   ("author",
    VDict [("name", VStr (author_name self));
           ("username", of_optional (author_username self));
           ("email", VStr (author_email self));
           ("team", VStr (team_name self))]);
   ("statistics",
    VDict [("total_additions", VInt (total_additions self));
           ("total_deletions", VInt (total_deletions self));
           ("total_changes", VInt (total_changes self));
           ("files_changed", VInt (files_changed_count self))]);
   ("file_changes", VList file_changes)].

(** [CommitData.to_flat_dict] *)
Definition CommitData_to_flat_dict (self : CommitData) : list (string * pyval) :=
  [("repository_name", VStr (repository_name self));
   ("repository_owner", VStr (repository_owner self));
   ("repository_url", VStr (repository_url self));
   ("commit_sha", VStr (commit_sha self));
   ("commit_message", VStr (commit_message self));
   ("commit_date", VStr (isoformat (commit_date self)));
   ("commit_url", VStr (commit_url self));
   ("branch", VStr (branch self));
   ("author_name", VStr (author_name self));
   ("author_username", of_optional (author_username self));
   ("author_email", VStr (author_email self));
   ("team_name", VStr (team_name self));
   ("total_additions", VInt (total_additions self));
   ("total_deletions", VInt (total_deletions self));
   ("total_changes", VInt (total_changes self));
   ("files_changed_count", VInt (files_changed_count self))].
End ToDict.

(** [d[outer][inner]] *)
Definition dict_get2 (outer inner : string) (items : list (string * pyval))
    : option pyval :=
  match dict_get outer items with
  | Some (VDict d) => dict_get inner d
  | _ => None
  end.

(** The provider cannot be reached with the request [r]. *)
Definition unreachable (env : HttpEnv) (k : DocKind) (r : Request) : Prop :=
  forall tr, exists e, http_get env k tr r = inl e.

(** A provider that answers the listing request for the pages of [pages]
    and cannot be reached for the page after them. *)
Definition truncated_env (pages : list (list RawCommit)) : HttpEnv :=
  {| http_get := fun k _ r =>
       match k return TransportError + Response (doc k) with
       | KCommitList =>
           match params r with
           | Some query =>
               match query !! "page" with
               | Some (PInt i) =>
                   match pages !! Z.to_nat (i - 1) with
                   | Some page => inr {| status_code := 200; text := ""; json := Some page |}
                   | None => inl TTimeout
                   end
               | _ => inl TConnectionError
               end
           | None => inl TConnectionError
           end
       | _ => inl TConnectionError
       end;
     time_time := fun _ => 0%Q;
     float_of := fun q => q;
     fromtimestamp_accepts := fun t => (0 <=? t) && (t <=? 253402300799);
     sleep_accepts := fun q => Qle_bool q 9223372036 |}.

(* ================================================================== *)
(** * Properties *)
(* ================================================================== *)

(** Unfolding of the monad operations, to run a computation on a state. *)
Ltac run_monad :=
  cbv [bind ret gets modify raise try_except try_except_of
       logger_debug logger_info logger_warning logger_error].

Ltac run_monad_in H :=
  cbv [bind ret gets modify raise try_except try_except_of
       logger_debug logger_info logger_warning logger_error] in H.

Lemma run_fst {S A} (m : M S A) (s : S) (a : A) :
  fst (m s) = Ok a -> exists s', m s = (Ok a, s').
Proof. destruct (m s) as [r s']. simpl. intros ->. eauto. Qed.

Lemma bind_ok {S A B} (m : M S A) (k : A -> M S B) (s s' : S) (a : A) :
  m s = (Ok a, s') -> bind m k s = k a s'.
Proof. unfold bind. by intros ->. Qed.

(** ** Team attribution *)

Section TeamMapperFacts.
Context {S : Type} `{Logging S}.

Lemma add_members_is_Some team members (m : gmap string string) k :
  is_Some (m !! k) -> is_Some (add_members team members m !! k).
Proof.
  revert m. induction members as [|u members IH]; intros m Hm; simpl; [done|].
  apply IH. destruct (decide (lower u = k)) as [->|Hne].
  - rewrite lookup_insert_eq. eauto.
  - by rewrite lookup_insert_ne.
Qed.

Lemma add_members_snoc team members u (m : gmap string string) :
  add_members team (members ++ [u]) m
  = <[lower u := team]> (add_members team members m).
Proof. unfold add_members. by rewrite fold_left_app. Qed.

Lemma add_members_lookup_in team members (m : gmap string string) k :
  (exists u, u ∈ members /\ lower u = k) ->
  add_members team members m !! k = Some team.
Proof.
  induction members as [|u members IH] using rev_ind; intros [v [Hv Hk]].
  - by apply elem_of_nil in Hv.
  - rewrite add_members_snoc.
    destruct (decide (lower u = k)) as [->|Hne]; [apply lookup_insert_eq|].
    rewrite lookup_insert_ne by done. apply IH.
    apply elem_of_app in Hv as [Hv|Hv]; [by exists v|].
    apply list_elem_of_singleton in Hv. congruence.
Qed.

Lemma add_members_lookup_notin team members (m : gmap string string) k :
  (forall u, u ∈ members -> lower u <> k) ->
  add_members team members m !! k = m !! k.
Proof.
  revert m. induction members as [|u members IH]; intros m Hall; simpl; [done|].
  rewrite IH.
  - apply lookup_insert_ne, Hall. by left.
  - intros w Hw. apply Hall. by right.
Qed.

Lemma add_teams_snoc teams team members (m : gmap string string) :
  add_teams (teams ++ [(team, members)]) m
  = match members with
    | Some members => add_members team members (add_teams teams m)
    | None => add_teams teams m
    end.
Proof. unfold add_teams. by rewrite fold_left_app. Qed.

Lemma listed_snoc teams team members t u :
  listed (teams ++ [(team, members)]) t u <->
  listed teams t u \/ (t = team /\ exists ms, members = Some ms /\ u ∈ ms).
Proof.
  unfold listed. split.
  - intros [ms [Hin Hu]]. apply elem_of_app in Hin as [Hin|Hin]; [left; eauto|].
    apply list_elem_of_singleton in Hin. inversion Hin; subst. right. eauto.
  - intros [[ms [Hin Hu]]|[-> [ms [-> Hu]]]]; exists ms; split; try done.
    + apply elem_of_app. by left.
    + apply elem_of_app. right. by apply list_elem_of_singleton.
Qed.

Lemma add_teams_lookup_notin teams (m : gmap string string) k :
  (forall t u, listed teams t u -> lower u <> k) ->
  add_teams teams m !! k = m !! k.
Proof.
  induction teams as [|[team members] teams IH] using rev_ind; intros Hall; [done|].
  rewrite add_teams_snoc.
  assert (add_teams teams m !! k = m !! k) as Hrec.
  { apply IH. intros t u Hl. apply (Hall t u), listed_snoc. by left. }
  destruct members as [ms|]; [|done].
  rewrite add_members_lookup_notin; [done|].
  intros u Hu. apply (Hall team u), listed_snoc. right. eauto.
Qed.

Lemma add_teams_lookup_Some teams (m : gmap string string) k t :
  add_teams teams m !! k = Some t ->
  m !! k = Some t \/ exists u, listed teams t u /\ lower u = k.
Proof.
  induction teams as [|[team members] teams IH] using rev_ind; intros Hk; [by left|].
  rewrite add_teams_snoc in Hk.
  assert (forall u, listed teams t u -> listed (teams ++ [(team, members)]) t u) as Hmono.
  { intros u Hl. apply listed_snoc. by left. }
  destruct members as [ms|].
  - destruct (decide (k ∈ lower <$> ms)) as [Hin|Hout].
    + apply list_elem_of_fmap in Hin as [u [-> Hu]].
      rewrite add_members_lookup_in in Hk by eauto. inversion Hk; subst.
      right. exists u. split; [|done]. apply listed_snoc. right. eauto.
    + rewrite add_members_lookup_notin in Hk.
      * destruct (IH Hk) as [?|[u [? ?]]]; [by left|right; eauto].
      * intros u Hu Hl. apply Hout, list_elem_of_fmap. eauto.
  - destruct (IH Hk) as [?|[u [? ?]]]; [by left|right; eauto].
Qed.

Lemma add_teams_is_Some teams (m : gmap string string) k :
  (exists t u, listed teams t u /\ lower u = k) ->
  is_Some (add_teams teams m !! k).
Proof.
  induction teams as [|[team members] teams IH] using rev_ind;
    intros [t [u [Hl Hk]]].
  - destruct Hl as [ms [Hin _]]. by apply elem_of_nil in Hin.
  - rewrite add_teams_snoc. apply listed_snoc in Hl as [Hl|[-> [ms [-> Hu]]]].
    + destruct members as [ms|]; [apply add_members_is_Some|]; apply IH; eauto.
    + rewrite add_members_lookup_in by eauto. eauto.
Qed.

Lemma TeamMapper_init_value cfg (s : S) :
  fst (TeamMapper_init cfg s) = Ok (new_TeamMapper cfg).
Proof. reflexivity. Qed.
End TeamMapperFacts.

(** *** Letter case *)

Lemma lower_ascii_code (c : ascii) :
  lower_ascii c
  = ascii_of_nat (let n := nat_of_ascii c in
                  if ((65 <=? n) && (n <=? 90))%nat then n + 32 else n)%nat.
Proof.
  unfold lower_ascii. cbv zeta.
  destruct ((65 <=? nat_of_ascii c) && (nat_of_ascii c <=? 90))%nat; [done|].
  by rewrite ascii_nat_embedding.
Qed.

Lemma ascii_of_nat_inj (m n : nat) :
  (m < 256)%nat -> (n < 256)%nat -> ascii_of_nat m = ascii_of_nat n -> m = n.
Proof.
  intros Hm Hn Heq. apply (f_equal nat_of_ascii) in Heq.
  by rewrite !nat_ascii_embedding in Heq.
Qed.

Lemma nat_of_ascii_inj (a b : ascii) : nat_of_ascii a = nat_of_ascii b -> a = b.
Proof.
  intros Heq. apply (f_equal ascii_of_nat) in Heq.
  by rewrite !ascii_nat_embedding in Heq.
Qed.

(** The lower-case forms of two characters are equal exactly when the
    characters are the same up to letter case. *)
Lemma same_char_ignoring_case_lower (a b : ascii) :
  same_char_ignoring_case a b = true <-> lower_ascii a = lower_ascii b.
Proof.
  rewrite !lower_ascii_code. unfold same_char_ignoring_case. cbv zeta.
  pose proof (nat_ascii_bounded a) as Ha. pose proof (nat_ascii_bounded b) as Hb.
  set (m := nat_of_ascii a) in *. set (n := nat_of_ascii b) in *.
  assert (a = b <-> m = n) as Hab.
  { split; [by intros ->|apply nat_of_ascii_inj]. }
  rewrite !orb_true_iff, !andb_true_iff, !Nat.eqb_eq, !Nat.leb_le.
  split.
  - intros Hsame.
    destruct (Nat.leb_spec 65 m), (Nat.leb_spec m 90), (Nat.leb_spec 65 n),
      (Nat.leb_spec n 90); cbn [andb]; f_equal; lia.
  - intros Heq.
    destruct (Nat.leb_spec 65 m), (Nat.leb_spec m 90), (Nat.leb_spec 65 n),
      (Nat.leb_spec n 90); cbn [andb] in Heq;
      apply ascii_of_nat_inj in Heq; lia.
Qed.

Lemma same_ignoring_case_lower (u v : string) :
  same_ignoring_case u v = true <-> lower u = lower v.
Proof.
  revert v. induction u as [|a u IH]; intros [|b v]; cbn [same_ignoring_case lower];
    try done.
  rewrite andb_true_iff, same_char_ignoring_case_lower, IH.
  split; [by intros [-> ->]|by intros [= -> ->]].
Qed.

Lemma not_same_ignoring_case_lower (u v : string) :
  same_ignoring_case u v = false <-> lower u <> lower v.
Proof.
  rewrite <- same_ignoring_case_lower. by destruct (same_ignoring_case u v).
Qed.

Lemma same_ignoring_case_nonempty (u v : string) :
  same_ignoring_case u v = true -> u <> "" -> v <> "".
Proof. by destruct u, v. Qed.

(** C10.  [get_team] never raises; the empty string is treated exactly like
    an absent username and yields the default team.  For usernames written
    in ASCII the lookup ignores letter case: two spellings of a username
    that differ in letter case only receive the same team; a non-empty
    username receives a team that lists a member equal to it up to letter
    case, and the default team when no team lists such a member. *)
Theorem get_team_default_and_case_insensitive :
  forall (S : Type) (L : Logging S) (s : S),
    (forall self username, exists t s', get_team self username s = (Ok t, s')) /\
    (forall self,
        get_team self (Some "") s = get_team self None s /\
        get_team self None s = (Ok (default_team self), s)) /\
    (forall self u v,
        is_ascii u = true -> is_ascii v = true -> same_ignoring_case u v = true ->
        fst (get_team self (Some u) s) = fst (get_team self (Some v) s)) /\
    (forall cfg u,
        u <> "" -> is_ascii u = true -> ascii_members (default [] (cfg_teams cfg)) ->
        (exists t m, listed (default [] (cfg_teams cfg)) t m /\
                     same_ignoring_case m u = true) ->
        exists t m, listed (default [] (cfg_teams cfg)) t m /\
                    same_ignoring_case m u = true /\
                    fst (get_team (new_TeamMapper cfg) (Some u) s) = Ok t) /\
    (forall cfg u,
        u <> "" -> is_ascii u = true -> ascii_members (default [] (cfg_teams cfg)) ->
        (forall t m, listed (default [] (cfg_teams cfg)) t m ->
                     same_ignoring_case m u = false) ->
        fst (get_team (new_TeamMapper cfg) (Some u) s)
        = Ok (default "unassigned" (cfg_default_team cfg))).
Proof.
  intros S L s.
  assert (forall self u, u <> "" ->
     fst (get_team self (Some u) s)
     = Ok (default (default_team self) (username_to_team self !! lower u))) as Hnonempty.
  { intros self [|c u] Hu; [done|]. reflexivity. }
  split; [|split; [|split; [|split]]].
  - intros self [[|c u]|]; simpl; eauto.
  - intros self. split; reflexivity.
  - intros self u v _ _ Hsame.
    destruct (decide (u = "")) as [->|Hu]; [by destruct v|].
    rewrite !Hnonempty by eauto using same_ignoring_case_nonempty.
    apply same_ignoring_case_lower in Hsame. by rewrite Hsame.
  - intros cfg u Hu _ _ (t0 & m0 & Hl0 & Hsame0). rewrite Hnonempty by done. simpl.
    apply same_ignoring_case_lower in Hsame0.
    destruct (add_teams_is_Some (default [] (cfg_teams cfg)) ∅ (lower u)) as [t Ht];
      [by eauto|].
    rewrite Ht. simpl.
    apply add_teams_lookup_Some in Ht as [Ht|[m [Hl Hm]]]; [by rewrite lookup_empty in Ht|].
    exists t, m. split; [done|]. split; [by apply same_ignoring_case_lower|done].
  - intros cfg u Hu _ _ Hnone. rewrite Hnonempty by done. simpl.
    rewrite add_teams_lookup_notin; [by rewrite lookup_empty|].
    intros t m Hl. by apply not_same_ignoring_case_lower, (Hnone t).
Qed.

Lemma test_team_config_ascii :
  ascii_members (default [] (cfg_teams test_team_config)).
Proof.
  intros t m [ms [Hin Hm]]. simpl in Hin.
  repeat (apply elem_of_cons in Hin as [Hin|Hin];
          [inversion Hin; subst; clear Hin;
           repeat (apply elem_of_cons in Hm as [->|Hm]; [reflexivity|]);
           by apply elem_of_nil in Hm|]).
  by apply elem_of_nil in Hin.
Qed.

Lemma get_team_default_and_case_insensitive_witness :
  fst (get_team (new_TeamMapper test_team_config) (Some "ALICE") ([] : list LogRecord))
  = Ok "backend" /\
  fst (get_team (new_TeamMapper test_team_config) (Some "Zed") ([] : list LogRecord))
  = Ok "unassigned".
Proof.
  split.
  - destruct (get_team_default_and_case_insensitive _ _ ([] : list LogRecord))
      as (_ & _ & _ & Hlisted & _).
    destruct (Hlisted test_team_config "ALICE") as (t & m & Hl & Hsame & ->).
    + discriminate.
    + reflexivity.
    + exact test_team_config_ascii.
    + exists "backend", "alice". split; [|reflexivity].
      exists ["alice"; "bob"]. split; [by left|by left].
    + f_equal. destruct Hl as [ms [Hin Hm]]. simpl in Hin.
      repeat (apply elem_of_cons in Hin as [Hin|Hin];
              [inversion Hin; subst; clear Hin;
               repeat (apply elem_of_cons in Hm as [->|Hm];
                       [first [reflexivity|discriminate Hsame]|]);
               by apply elem_of_nil in Hm|]).
      by apply elem_of_nil in Hin.
  - apply (get_team_default_and_case_insensitive _ _ ([] : list LogRecord)).
    + discriminate.
    + reflexivity.
    + exact test_team_config_ascii.
    + intros t m [ms [Hin Hm]]. simpl in Hin.
      repeat (apply elem_of_cons in Hin as [Hin|Hin];
              [inversion Hin; subst; clear Hin;
               repeat (apply elem_of_cons in Hm as [->|Hm]; [reflexivity|]);
               by apply elem_of_nil in Hm|]).
      by apply elem_of_nil in Hin.
Defined.

Example get_team_test_cases :
  fst (get_team (new_TeamMapper test_team_config) (Some "ALICE") ([] : list LogRecord))
    = Ok "backend" /\
  fst (get_team (new_TeamMapper test_team_config) (Some "unknown") ([] : list LogRecord))
    = Ok "unassigned" /\
  fst (get_team (new_TeamMapper test_team_config) None ([] : list LogRecord))
    = Ok "unassigned".
Proof. vm_compute. auto. Qed.

(** ** Transport: rate-limit check *)

Section RateLimit.
Context (env : HttpEnv) (self : GitHubAPIClient).

Lemma check_rate_limit_unreadable (w : HttpWorld) :
  rate_limit_status env self w = None ->
  fst (github_client._check_rate_limit env self w) = Ok tt /\
  trace (snd (github_client._check_rate_limit env self w))
  = (trace w ++ [EvGet (rate_limit_request self)])%list.
Proof.
  unfold rate_limit_status, github_client._check_rate_limit, try_except, bind,
    github_client.session_get, rate_limit_request.
  destruct (http_get env KRateLimit (trace w) _) as [e|response]; [done|].
  cbn [doc] in *. unfold github_client.raise_for_status.
  destruct ((400 <=? status_code response) && (status_code response <? 600)); [done|].
  unfold github_client.response_json. simpl.
  destruct (json response) as [rate_data|]; simpl; [|done].
  intros ->. done.
Qed.

Lemma check_rate_limit_readable (w : HttpWorld) (core : CoreLimit) :
  rate_limit_status env self w = Some core ->
  let now := time_time env (trace w ++ [EvGet (rate_limit_request self)]) in
  let wait_seconds := wait_seconds_of env (reset core) now in
  fst (github_client._check_rate_limit env self w) = Ok tt /\
  trace (snd (github_client._check_rate_limit env self w))
  = (trace w ++ EvGet (rate_limit_request self) ::
       (if (remaining core <=? rate_limit_buffer self)
           && fromtimestamp_accepts env (reset core) then
          if Qlt_le_dec 0 wait_seconds then
            if sleep_accepts env wait_seconds then [EvSleep wait_seconds] else []
          else []
        else []))%list.
Proof.
  unfold rate_limit_status, github_client._check_rate_limit, try_except, bind,
    github_client.session_get, rate_limit_request, wait_seconds_of.
  destruct (http_get env KRateLimit (trace w) _) as [e|response]; [discriminate|].
  cbn [doc] in *. unfold github_client.raise_for_status.
  destruct ((400 <=? status_code response) && (status_code response <? 600));
    [discriminate|].
  unfold github_client.response_json. simpl.
  destruct (json response) as [rate_data|]; [|discriminate]. simpl.
  intros ->. simpl.
  destruct (remaining core <=? rate_limit_buffer self); simpl; [|done].
  unfold github_client.datetime_fromtimestamp.
  destruct (fromtimestamp_accepts env (reset core)); simpl; [|done].
  destruct (Qlt_le_dec _ _); simpl; [|done].
  unfold github_client.time_sleep_checked.
  destruct (sleep_accepts env _); simpl; [|done].
  split; [done|]. by rewrite <- app_assoc.
Qed.

Lemma check_rate_limit_never_raises (w : HttpWorld) :
  fst (github_client._check_rate_limit env self w) = Ok tt.
Proof.
  destruct (rate_limit_status env self w) as [core|] eqn:Hs.
  - by apply check_rate_limit_readable in Hs as [? _].
  - by apply check_rate_limit_unreadable in Hs as [? _].
Qed.

Lemma check_rate_limit_trace_extends (w : HttpWorld) :
  exists evs, trace (snd (github_client._check_rate_limit env self w))
              = (trace w ++ evs)%list.
Proof.
  destruct (rate_limit_status env self w) as [core|] eqn:Hs.
  - apply check_rate_limit_readable in Hs as [_ ->]. eauto.
  - apply check_rate_limit_unreadable in Hs as [_ ->]. eauto.
Qed.

Lemma events_of_trace {A} (m : M HttpWorld A) (w : HttpWorld) evs :
  trace (snd (m w)) = (trace w ++ evs)%list -> events_of m w = evs.
Proof. unfold events_of. intros ->. apply drop_app_length. Qed.

(** The request of [_make_request] is issued right after the check,
    whatever the check found. *)
Lemma make_request_body_trace (k : DocKind) endpoint params (w : HttpWorld) :
  trace (snd (github_client._make_request_body env k self endpoint params w))
  = (trace (snd (github_client._check_rate_limit env self w))
     ++ [EvGet {| url := api_url self +:+ "/" +:+ lstrip "/" endpoint;
                  params := params |}])%list.
Proof.
  unfold github_client._make_request_body, bind at 1.
  pose proof (check_rate_limit_never_raises w) as Hok.
  destruct (github_client._check_rate_limit env self w) as [r w1].
  simpl in Hok. subst r. simpl.
  unfold try_except_of, try_except, bind, github_client.session_get.
  destruct (http_get env k (trace w1) _) as [e|response]; simpl.
  - by destruct e.
  - destruct ((status_code response =? 403) && _); simpl; [done|].
    unfold github_client.raise_for_status.
    destruct ((400 <=? status_code response) && _); simpl; [done|].
    unfold github_client.response_json.
    by destruct (json response).
Qed.
End RateLimit.

(** C8 (as amended).  The check never fails.  When the rate-limit status
    is read, it sleeps, for [reset - now + 1] seconds in the floats of the
    host, if and only if the remaining quota is at or below the buffer,
    the reset time is one that [datetime.fromtimestamp] accepts, and that
    duration is positive and one that [time.sleep] accepts; when the
    status cannot be read the check still ends normally without sleeping;
    in every case the request itself is issued next. *)
Theorem check_rate_limit_sleeps_iff_low_and_reset_ahead :
  forall (env : HttpEnv) (self : GitHubAPIClient) (w : HttpWorld),
    (forall core,
        rate_limit_status env self w = Some core ->
        let now := time_time env (trace w ++ [EvGet (rate_limit_request self)]) in
        fst (github_client._check_rate_limit env self w) = Ok tt /\
        ((exists q, EvSleep q ∈ events_of (github_client._check_rate_limit env self) w)
         <-> must_wait env self core now) /\
        (must_wait env self core now ->
         events_of (github_client._check_rate_limit env self) w
         = [EvGet (rate_limit_request self);
            EvSleep (wait_seconds_of env (reset core) now)]) /\
        (~ must_wait env self core now ->
         events_of (github_client._check_rate_limit env self) w
         = [EvGet (rate_limit_request self)])) /\
    (rate_limit_status env self w = None ->
        fst (github_client._check_rate_limit env self w) = Ok tt /\
        events_of (github_client._check_rate_limit env self) w
        = [EvGet (rate_limit_request self)]) /\
    (forall k endpoint params,
        events_of (github_client._make_request_body env k self endpoint params) w
        = (events_of (github_client._check_rate_limit env self) w
           ++ [EvGet {| url := api_url self +:+ "/" +:+ lstrip "/" endpoint;
                        params := params |}])%list).
Proof.
  intros env self w. split; [|split].
  - intros core Hs now.
    destruct (check_rate_limit_readable env self w core Hs) as [Hok Htr].
    fold now in Htr. apply events_of_trace in Htr.
    split; [done|]. rewrite Htr. unfold must_wait.
    set (wait_seconds := wait_seconds_of env (reset core) now).
    assert (forall P : Prop,
              ~ P ->
              ((exists q, EvSleep q ∈ [EvGet (rate_limit_request self)]) <-> P) /\
              (P -> [EvGet (rate_limit_request self)]
                    = [EvGet (rate_limit_request self); EvSleep wait_seconds]) /\
              (~ P -> [EvGet (rate_limit_request self)]
                      = [EvGet (rate_limit_request self)])) as Hno.
    { intros P HP. split; [|split; [done|done]]. split; [|done].
      intros [q Hq]. apply list_elem_of_singleton in Hq. discriminate. }
    destruct (Z.leb_spec (remaining core) (rate_limit_buffer self)) as [Hle|Hgt];
      [|apply Hno; intros [Hle _]; lia].
    destruct (fromtimestamp_accepts env (reset core)) eqn:Hfrom; cbn [andb];
      [|apply Hno; by intros (_ & ? & _)].
    destruct (Qlt_le_dec 0 wait_seconds) as [Hpos|Hneg];
      [|apply Hno; intros (_ & _ & Hpos & _); by apply (Qlt_not_le _ _ Hpos)].
    destruct (sleep_accepts env wait_seconds) eqn:Hsleep;
      [|apply Hno; by intros (_ & _ & _ & ?)].
    split; [|split; [done|]].
    + split; [done|]. intros _. exists wait_seconds.
      apply elem_of_cons. right. apply list_elem_of_singleton. reflexivity.
    + intros Hnot. by destruct Hnot.
  - intros Hs. destruct (check_rate_limit_unreadable env self w Hs) as [Hok Htr].
    split; [done|]. by apply events_of_trace.
  - intros k endpoint params.
    destruct (check_rate_limit_trace_extends env self w) as [evs Hevs].
    rewrite (events_of_trace _ _ _ Hevs).
    apply events_of_trace. rewrite make_request_body_trace, Hevs.
    by rewrite <- app_assoc.
Qed.

Lemma check_rate_limit_sleeps_iff_low_and_reset_ahead_witness :
  rate_limit_status (rate_env 5 2000 1000) (test_client 3 10) empty_world
  = Some {| remaining := 5; reset := 2000 |} /\
  events_of (github_client._check_rate_limit (rate_env 5 2000 1000) (test_client 3 10))
    empty_world
  = [EvGet (rate_limit_request (test_client 3 10));
     EvSleep (inject_Z 2000 - 1000 + 1)%Q].
Proof.
  split; [reflexivity|].
  destruct (check_rate_limit_sleeps_iff_low_and_reset_ahead
              (rate_env 5 2000 1000) (test_client 3 10) empty_world) as [Hread _].
  destruct (Hread {| remaining := 5; reset := 2000 |} eq_refl) as (_ & _ & Hsleep & _).
  apply Hsleep. split; [simpl; lia|]. split; [reflexivity|]. split; reflexivity.
Defined.

(** The two cases of the specification, with a reset time that lies ahead:
    remaining 5 under buffer 10 sleeps, remaining 50 does not. *)
Example check_rate_limit_examples :
  filter (fun e => is_sleep e = true)
    (events_of (github_client._check_rate_limit (rate_env 5 2000 1000) (test_client 3 10))
       empty_world)
  = [EvSleep (inject_Z 2000 - 1000 + 1)%Q] /\
  filter (fun e => is_sleep e = true)
    (events_of (github_client._check_rate_limit (rate_env 50 2000 1000) (test_client 3 10))
       empty_world)
  = [].
Proof. split; reflexivity. Qed.

(** A reset time beyond the year 9999, which [datetime.fromtimestamp]
    refuses: the error is swallowed and no sleep takes place. *)
Example check_rate_limit_reset_out_of_range :
  let run := github_client._check_rate_limit (rate_env 5 999999999999 1000)
               (test_client 3 10) empty_world in
  fst run = Ok tt /\
  trace (snd run) = [EvGet (rate_limit_request (test_client 3 10))] /\
  http_log (snd run)
  = [(DEBUG, "Rate limit: {remaining} requests remaining");
     (WARNING, "Could not check rate limit: {e}")].
Proof. repeat split. Qed.

(** C8 as worded fails when the reported reset time has passed: with
    remaining 5 and buffer 10 but a reset time of 100 read at time 200, the
    status is read and no sleep takes place. *)
Lemma check_rate_limit_reset_passed_no_sleep :
  rate_limit_status (rate_env 5 100 200) (test_client 3 10) empty_world
  = Some {| remaining := 5; reset := 100 |} /\
  ~ sleeps_iff_at_or_below_buffer (rate_env 5 100 200) (test_client 3 10) empty_world
      {| remaining := 5; reset := 100 |}.
Proof.
  split; [reflexivity|].
  unfold sleeps_iff_at_or_below_buffer. intros [_ Hsleep].
  destruct Hsleep as [q Hq]; [simpl; lia|].
  change (EvSleep q ∈ [EvGet (rate_limit_request (test_client 3 10))]) in Hq.
  apply list_elem_of_singleton in Hq. discriminate.
Qed.

(** ** Transport: retries *)

(** C3.  The number of attempts of [_make_request] is the constant of its
    decorator and not the [max_retries] the client was constructed with:
    against a provider that cannot be reached, a client constructed with
    any [max_retries] (5, say) gives up with [RetryError] after exactly 3
    attempts, having slept 2 seconds after the first and after the second;
    and after two failures followed by a success the call succeeds with
    exactly 3 attempts also for a client constructed with [max_retries = 1]. *)
Theorem make_request_ignores_max_retries :
  forall max_retries rate_limit_buffer : Z,
    let self := test_client max_retries rate_limit_buffer in
    let target := "https://api.github.com/repos/o/r" in
    let permanent :=
      github_client._make_request failing_env KRepo self "repos/o/r" None empty_world in
    let transient :=
      github_client._make_request (flaky_env 2) KRepo self "repos/o/r" None empty_world in
    fst permanent = Raise (RetryError ConnectionError) /\
    attempts target (trace (snd permanent)) = 3%nat /\
    sleeps (trace (snd permanent)) = [inject_Z 2; inject_Z 2] /\
    fst transient = Ok (empty_doc KRepo) /\
    attempts target (trace (snd transient)) = 3%nat.
Proof. intros max_retries rate_limit_buffer. vm_compute. auto. Qed.

Lemma make_request_max_retries_irrelevant (env : HttpEnv) (k : DocKind)
    (self : GitHubAPIClient) (n : Z) endpoint params :
  github_client._make_request env k
    {| token := token self; api_url := api_url self; timeout := timeout self;
       max_retries := n; rate_limit_buffer := rate_limit_buffer self |}
    endpoint params
  = github_client._make_request env k self endpoint params.
Proof. reflexivity. Qed.

(** ** Transport: pagination *)

Section Pagination.
Context (env : HttpEnv) (self : GitHubAPIClient).

Lemma append_inj_l (a x y : string) : a +:+ x = a +:+ y -> x = y.
Proof. induction a as [|c a IH]; simpl; [done|]. intros [= Heq]. auto. Qed.

Lemma rate_limit_url_not_listing owner repo :
  is_get_to (listing_url self owner repo) (EvGet (rate_limit_request self)) = false.
Proof.
  unfold is_get_to, listing_url, rate_limit_request. simpl.
  apply String.eqb_neq. intros Heq. apply append_inj_l in Heq. discriminate.
Qed.

Lemma requests_to_app u evs1 evs2 :
  requests_to u (evs1 ++ evs2) = (requests_to u evs1 ++ requests_to u evs2)%list.
Proof. apply List.filter_app. Qed.

Lemma requests_to_cons u e evs :
  requests_to u (e :: evs)
  = if is_get_to u e then e :: requests_to u evs else requests_to u evs.
Proof. reflexivity. Qed.

(** The check adds no request to the listing URL. *)
Lemma check_rate_limit_requests owner repo (w : HttpWorld) :
  requests_to (listing_url self owner repo)
    (trace (snd (github_client._check_rate_limit env self w)))
  = requests_to (listing_url self owner repo) (trace w).
Proof.
  destruct (rate_limit_status env self w) as [core|] eqn:Hs.
  - apply check_rate_limit_readable in Hs as [_ ->].
    rewrite requests_to_app, requests_to_cons, rate_limit_url_not_listing.
    destruct (remaining core <=? _), (fromtimestamp_accepts env _); cbn [andb];
      try (by rewrite app_nil_r);
      destruct (Qlt_le_dec _ _); [destruct (sleep_accepts env _)|];
      by rewrite app_nil_r.
  - apply check_rate_limit_unreadable in Hs as [_ ->].
    rewrite requests_to_app, requests_to_cons, rate_limit_url_not_listing.
    by rewrite app_nil_r.
Qed.

(** A request that is answered well at the first attempt. *)
Lemma make_request_first_attempt (k : DocKind) endpoint params (d : doc k)
    (w : HttpWorld) :
  (forall tr, exists response,
      http_get env k tr {| url := api_url self +:+ "/" +:+ lstrip "/" endpoint;
                           params := params |} = inr response /\
      json response = Some d /\
      (400 <=? status_code response) && (status_code response <? 600) = false) ->
  fst (github_client._make_request env k self endpoint params w) = Ok d /\
  trace (snd (github_client._make_request env k self endpoint params w))
  = (trace (snd (github_client._check_rate_limit env self w))
     ++ [EvGet {| url := api_url self +:+ "/" +:+ lstrip "/" endpoint;
                  params := params |}])%list.
Proof.
  intros Hans.
  unfold github_client._make_request, github_client.retry. simpl.
  pose proof (make_request_body_trace env self k endpoint params w) as Htr.
  assert (fst (github_client._make_request_body env k self endpoint params w) = Ok d)
    as Hfst.
  { unfold github_client._make_request_body, bind at 1.
    pose proof (check_rate_limit_never_raises env self w) as Hok.
    destruct (github_client._check_rate_limit env self w) as [r w1].
    simpl in Hok. subst r. simpl.
    unfold try_except_of, try_except, bind, github_client.session_get.
    destruct (Hans (trace w1)) as (response & -> & Hjson & Hstatus). simpl.
    assert ((status_code response =? 403) = false) as ->.
    { apply Z.eqb_neq. intros Heq. rewrite Heq in Hstatus. discriminate. }
    simpl. unfold github_client.raise_for_status. rewrite Hstatus. simpl.
    unfold github_client.response_json. by rewrite Hjson. }
  destruct (github_client._make_request_body env k self endpoint params w) as [r w2].
  simpl in *. subst r. done.
Qed.

Lemma make_request_page owner repo query (i : Z) (page : list RawCommit)
    (w : HttpWorld) :
  answers_page env (listing_url self owner repo) query i page ->
  exists w',
    github_client._make_request env KCommitList self
      ("repos/" +:+ owner +:+ "/" +:+ repo +:+ "/commits")
      (Some (<["page" := PInt i]> query)) w = (Ok page, w') /\
    requests_to (listing_url self owner repo) (trace w')
    = (requests_to (listing_url self owner repo) (trace w)
       ++ [EvGet (page_request (listing_url self owner repo) query i)])%list.
Proof.
  intros Hans.
  destruct (make_request_first_attempt KCommitList
              ("repos/" +:+ owner +:+ "/" +:+ repo +:+ "/commits")
              (Some (<["page" := PInt i]> query)) page w Hans) as [Hfst Htr].
  destruct (github_client._make_request env KCommitList self _ _ w) as [r w'].
  simpl in Hfst, Htr. subst r. exists w'. split; [done|].
  rewrite Htr, requests_to_app, check_rate_limit_requests.
  f_equal. unfold requests_to. simpl.
  by rewrite String.eqb_refl.
Qed.

Lemma get_commits_loop_pages owner repo query per_page
    (full_pages : list (list RawCommit)) (last : list RawCommit) :
  Forall (full_page per_page) full_pages ->
  last_page per_page last ->
  forall (fuel : nat) (cur : gmap string pval) (acc : list RawCommit) (page : Z)
         (w : HttpWorld),
    (length full_pages < fuel)%nat ->
    (forall j, <["page" := PInt j]> cur = <["page" := PInt j]> query) ->
    (forall (i : nat) p, (full_pages ++ [last])%list !! i = Some p ->
       answers_page env (listing_url self owner repo) query (page + Z.of_nat i) p) ->
    exists w',
      github_client.get_commits_loop env fuel self
        ("repos/" +:+ owner +:+ "/" +:+ repo +:+ "/commits")
        cur per_page acc page w
      = (Ok (acc ++ concat full_pages ++ last)%list, w') /\
      requests_to (listing_url self owner repo) (trace w')
      = (requests_to (listing_url self owner repo) (trace w)
         ++ map (fun i : nat =>
                   EvGet (page_request (listing_url self owner repo) query
                            (page + Z.of_nat i)))
              (seq 0 (S (length full_pages))))%list.
Proof.
  intros Hfull Hlast. induction Hfull as [|p ps Hp Hps IH];
    intros fuel cur acc page w Hfuel Hcur Hans;
    (destruct fuel as [|fuel]; [simpl in Hfuel; lia|]).
  - assert (answers_page env (listing_url self owner repo) query page last) as Ha.
    { specialize (Hans 0%nat last eq_refl). by rewrite Z.add_0_r in Hans. }
    destruct (make_request_page owner repo query page last w Ha) as (w1 & Hrun & Hreq).
    cbn [github_client.get_commits_loop]. rewrite Hcur. unfold bind at 1.
    rewrite Hrun. simpl concat. simpl length. simpl seq. simpl map.
    rewrite Z.add_0_r.
    destruct Hlast as [->|Hshort].
    + exists w1. rewrite !app_nil_r. done.
    + destruct last as [|c last]; [exists w1; by rewrite !app_nil_r|].
      unfold bind, logger_debug, modify.
      apply Z.ltb_lt in Hshort. rewrite Hshort. eexists. split; [reflexivity|].
      exact Hreq.
  - destruct Hp as [Hne Hlen].
    assert (answers_page env (listing_url self owner repo) query page p) as Ha.
    { specialize (Hans 0%nat p eq_refl). by rewrite Z.add_0_r in Hans. }
    destruct (make_request_page owner repo query page p w Ha) as (w1 & Hrun & Hreq).
    cbn [github_client.get_commits_loop]. rewrite Hcur. unfold bind at 1.
    rewrite Hrun.
    destruct p as [|c p]; [done|].
    unfold bind at 1, logger_debug, modify.
    assert ((Z.of_nat (length (c :: p)) <? per_page) = false) as ->
      by (by apply Z.ltb_ge).
    edestruct (IH fuel (<["page" := PInt page]> query) (acc ++ c :: p)%list (page + 1)
                 (log_record (DEBUG, "Fetched page {page}: {len(commits)} commits") w1))
      as (w2 & Hrun2 & Hreq2).
    + simpl in Hfuel. lia.
    + intros j. by rewrite insert_insert_eq.
    + intros i q Hi. specialize (Hans (S i) q Hi).
      by replace (page + 1 + Z.of_nat i) with (page + Z.of_nat (S i)) by lia.
    + exists w2. split.
      * rewrite Hrun2. f_equal. f_equal. simpl. by rewrite <- !app_assoc.
      * rewrite Hreq2. change (trace (log_record _ w1)) with (trace w1).
        rewrite Hreq, <- app_assoc. f_equal.
        simpl length.
        rewrite <- (cons_seq (S (length ps)) 0), <- seq_shift, map_cons, map_map.
        rewrite Z.add_0_r. cbn [app]. f_equal.
        apply map_ext. intros i.
        by replace (page + 1 + Z.of_nat i) with (page + Z.of_nat (S i)) by lia.
Qed.
End Pagination.

(** The pagination as the code has it, with the length of a page compared
    with the argument [per_page]: when the provider answers with the pages
    [full_pages], all non-empty and not shorter than [per_page], followed
    by a page [last] that is empty or shorter, the call returns the pages
    joined in order and the requests sent to the listing are exactly those
    for the pages [1 .. length full_pages + 1]. *)
Lemma get_commits_pages (env : HttpEnv) (self : GitHubAPIClient)
    (owner repo branch : string) (since until author : option string) (per_page : Z)
    (full_pages : list (list RawCommit)) (last : list RawCommit)
    (fuel : nat) (w : HttpWorld) :
  Forall (full_page per_page) full_pages ->
  last_page per_page last ->
  (length full_pages < fuel)%nat ->
  (forall (i : nat) p, (full_pages ++ [last])%list !! i = Some p ->
     answers_page env (listing_url self owner repo)
       (listing_params branch since until author per_page) (1 + Z.of_nat i) p) ->
  let run := github_client.get_commits env fuel self owner repo branch
               since until author per_page w in
  fst run = Ok (concat full_pages ++ last)%list /\
  requests_to (listing_url self owner repo) (trace (snd run))
  = (requests_to (listing_url self owner repo) (trace w)
     ++ map (fun i : nat =>
               EvGet (page_request (listing_url self owner repo)
                        (listing_params branch since until author per_page)
                        (1 + Z.of_nat i)))
          (seq 0 (S (length full_pages))))%list.
Proof.
  intros Hfull Hlast Hfuel Hans run. subst run.
  edestruct (get_commits_loop_pages env self owner repo
               (listing_params branch since until author per_page) per_page
               full_pages last Hfull Hlast fuel
               (listing_params branch since until author per_page) [] 1
               (log_record (INFO, "Fetching commits from {owner}/{repo} (branch: {branch})") w))
    as (w' & Hrun & Hreq); [done|done|done|].
  assert (github_client.get_commits env fuel self owner repo branch
            since until author per_page w
          = (Ok (concat full_pages ++ last)%list,
             log_record (INFO, "Total commits fetched: {len(all_commits)}") w')) as ->.
  { unfold github_client.get_commits, listing_params in *.
    unfold bind, logger_info, modify. cbv beta iota. by rewrite Hrun. }
  split; [reflexivity|]. exact Hreq.
Qed.

(** With a page size of at most 100, the size asked for and the size
    compared with are the same, and the pages 100, 100, 37 give 237
    commits after 3 requests. *)
Example get_commits_pages_100_100_37 :
  let run := github_client.get_commits (paged_env pages_100_100_37) 3
               (test_client 3 10) "o" "r" "main" None None None 100 empty_world in
  (exists commits, fst run = Ok commits /\ length commits = 237%nat) /\
  length (requests_to (listing_url (test_client 3 10) "o" "r") (trace (snd run))) = 3%nat.
Proof.
  destruct (get_commits_pages (paged_env pages_100_100_37) (test_client 3 10)
              "o" "r" "main" None None None 100
              [repeat (commit_with_sha "a") 100; repeat (commit_with_sha "b") 100]
              (repeat (commit_with_sha "c") 37) 3 empty_world) as [Hfst Hreq].
  - repeat constructor; try discriminate; simpl; lia.
  - right. simpl. lia.
  - simpl. lia.
  - intros i p Hi tr.
    destruct i as [|[|[|i]]]; simpl in Hi; inversion Hi; subst;
      eexists; (split; [reflexivity|split; reflexivity]).
  - split.
    + eexists. split; [exact Hfst|]. reflexivity.
    + rewrite Hreq. reflexivity.
Qed.

(** C2.  [get_commits] asks the provider for pages of [min(per_page, 100)]
    commits but takes a page for the last one when it is shorter than
    [per_page] itself.  So for a [per_page] above 100 it does not go on
    until a page is shorter than the page size: a first page that is not
    empty and has no more than 100 commits, full or not, ends the listing;
    the call returns that page alone after one request to the listing,
    whatever the later pages hold. *)
Theorem get_commits_stops_after_full_page_above_100 :
  forall (env : HttpEnv) (self : GitHubAPIClient) (owner repo branch : string)
         (since until author : option string) (per_page : Z)
         (first : list RawCommit) (fuel : nat) (w : HttpWorld),
    100 < per_page ->
    first <> [] ->
    (length first <= 100)%nat ->
    (0 < fuel)%nat ->
    answers_page env (listing_url self owner repo)
      (listing_params branch since until author per_page) 1 first ->
    let run := github_client.get_commits env fuel self owner repo branch
                 since until author per_page w in
    listing_params branch since until author per_page !! "per_page" = Some (PInt 100) /\
    fst run = Ok first /\
    requests_to (listing_url self owner repo) (trace (snd run))
    = (requests_to (listing_url self owner repo) (trace w)
       ++ [EvGet (page_request (listing_url self owner repo)
                    (listing_params branch since until author per_page) 1)])%list.
Proof.
  intros env self owner repo branch since until author per_page first fuel w
    Hper Hne Hlen Hfuel Hans run.
  split.
  { unfold listing_params, github_client.set_if_truthy.
    repeat match goal with
           | |- context [match ?o with Some _ => _ | None => _ end] =>
               destruct o as [[|? ?]|]; cbn [str_truthy]
           end;
      repeat (rewrite lookup_insert_ne by done);
      rewrite lookup_insert_eq; do 2 f_equal; lia. }
  destruct (get_commits_pages env self owner repo branch since until author per_page
              [] first fuel w) as [Hfst Hreq].
  - constructor.
  - right. lia.
  - exact Hfuel.
  - intros [|i] p Hi; [|destruct i; discriminate]. injection Hi as <-. exact Hans.
  - split; [exact Hfst|exact Hreq].
Qed.

(** The failing input: [per_page = 150] and pages of sizes 100, 100 and
    37.  The provider is asked for pages of 100; the call returns the 100
    commits of the first page after one request, and not the 237 commits
    after three requests. *)
Lemma get_commits_stops_after_full_page_above_100_witness :
  let run := github_client.get_commits (paged_env pages_100_100_37) 10
               (test_client 3 10) "o" "r" "main" None None None 150 empty_world in
  listing_params "main" None None None 150 !! "per_page" = Some (PInt 100) /\
  fst run = Ok (repeat (commit_with_sha "a") 100) /\
  requests_to (listing_url (test_client 3 10) "o" "r") (trace (snd run))
  = [EvGet (page_request (listing_url (test_client 3 10) "o" "r")
              (listing_params "main" None None None 150) 1)].
Proof.
  apply (get_commits_stops_after_full_page_above_100 (paged_env pages_100_100_37)
           (test_client 3 10) "o" "r" "main" None None None 150
           (repeat (commit_with_sha "a") 100) 10 empty_world).
  - lia.
  - discriminate.
  - simpl. lia.
  - lia.
  - intros tr. eexists. split; [reflexivity|]. split; reflexivity.
Defined.

(** The two cases of the specification, with the default [per_page] of
    100: pages of sizes 100, 100 and 37 give 237 commits after 3 page
    requests; an empty first page gives no commit after 1 page request.
    With [per_page = 150] the same pages give 100 commits after 1 page
    request. *)
Example get_commits_examples :
  let run1 := github_client.get_commits (paged_env pages_100_100_37) 10
                (test_client 3 10) "o" "r" "main" None None None 100 empty_world in
  let run2 := github_client.get_commits (paged_env []) 10
                (test_client 3 10) "o" "r" "main" None None None 100 empty_world in
  fst run1 = Ok (concat pages_100_100_37) /\
  length (concat pages_100_100_37) = 237%nat /\
  attempts (listing_url (test_client 3 10) "o" "r") (trace (snd run1)) = 3%nat /\
  fst run2 = Ok [] /\
  attempts (listing_url (test_client 3 10) "o" "r") (trace (snd run2)) = 1%nat /\
  let run3 := github_client.get_commits (paged_env pages_100_100_37) 10
                (test_client 3 10) "o" "r" "main" None None None 150 empty_world in
  option_map (@length RawCommit) (match fst run3 with Ok l => Some l | _ => None end)
  = Some 100%nat /\
  attempts (listing_url (test_client 3 10) "o" "r") (trace (snd run3)) = 1%nat.
Proof. vm_compute. auto 8. Qed.

(** ** Branch resolution *)

(** C6.  [detect_default_branch] never raises.  With no cached entry for
    the repository: when the metadata request fails it returns ["main"]
    after logging a warning; when it succeeds it returns the
    [default_branch] field of the metadata, or ["main"] when the field is
    absent.  (With a cached entry it returns the entry.) *)
Theorem detect_default_branch_never_raises :
  forall (W : Type) (client : GitHubClient W) (owner repo : string) (s : State W),
    let cache_key := owner +:+ "/" +:+ repo in
    let run := detect_default_branch owner repo s in
    (forall e, fst run <> Raise e) /\
    (forall b, _branch_cache s !! cache_key = Some b -> fst run = Ok b) /\
    (_branch_cache s !! cache_key = None ->
       (forall e w', get_repository_info owner repo (world s) = (Raise e, w') ->
          fst run = Ok "main" /\
          log (snd run)
          = (log s ++ [(WARNING, "Could not detect default branch for {owner}/{repo}: {e}");
                       (INFO, "Falling back to 'main' branch")])%list) /\
       (forall info w', get_repository_info owner repo (world s) = (Ok info, w') ->
          fst run = Ok (default "main" (default_branch info)))).
Proof.
  intros W client owner repo s cache_key run. subst run.
  unfold detect_default_branch. run_monad. fold cache_key.
  destruct (_branch_cache s !! cache_key) as [b|] eqn:Hc.
  - split; [|split]; [done| |done]. intros b' [= <-]. reflexivity.
  - unfold call, set_branch_cache. run_monad.
    destruct (get_repository_info owner repo (world s)) as [[info|e|] w'] eqn:Hinfo;
      (split; [|split]); try done; intros _; split; try done.
    + by intros info' w'' [= <- <-].
    + intros e' w'' [= <- <-]. simpl. split; [done|]. by rewrite <- app_assoc.
Qed.

Lemma detect_default_branch_never_raises_witness :
  let run := detect_default_branch (client := mock_client unreachable_repo)
               "o" "r" (initial_state []) in
  fst run = Ok "main" /\
  log (snd run)
  = [(WARNING, "Could not detect default branch for {owner}/{repo}: {e}");
     (INFO, "Falling back to 'main' branch")].
Proof.
  destruct (detect_default_branch_never_raises _ (mock_client unreachable_repo)
              "o" "r" (initial_state [])) as (_ & _ & Hmiss).
  destruct (Hmiss eq_refl) as [Hfail _].
  exact (Hfail ConnectionError [MInfo "o" "r"] eq_refl).
Defined.

Section Cache.
Context {W : Type} {client : GitHubClient W}.

Lemma keeps_cache_keys_of_keeps_cache {A} (m : M (State W) A) :
  keeps_cache m -> keeps_cache_keys m.
Proof. intros Hm s k Hk. by rewrite Hm. Qed.

Lemma keeps_cache_ret {A} (a : A) : keeps_cache (ret a : M (State W) A).
Proof. done. Qed.

Lemma keeps_cache_log (r : LogRecord) :
  keeps_cache (modify (log_record r) : M (State W) unit).
Proof. done. Qed.

Lemma keeps_cache_call {A} (m : M W A) : keeps_cache (call m).
Proof. intros s. unfold call. by destruct (m (world s)). Qed.

Lemma keeps_cache_bind {A B} (m : M (State W) A) (k : A -> M (State W) B) :
  keeps_cache m -> (forall a, keeps_cache (k a)) -> keeps_cache (bind m k).
Proof.
  intros Hm Hk s. unfold bind. specialize (Hm s).
  destruct (m s) as [[a|e|] s']; simpl in *; [|done..].
  by rewrite Hk.
Qed.

Lemma keeps_cache_try_except {A} (m : M (State W) A) (h : exn -> M (State W) A) :
  keeps_cache m -> (forall e, keeps_cache (h e)) -> keeps_cache (try_except m h).
Proof.
  intros Hm Hh s. unfold try_except. specialize (Hm s).
  destruct (m s) as [[a|e|] s']; simpl in *; [done| |done].
  by rewrite Hh.
Qed.

Lemma keeps_cache_keys_bind {A B} (m : M (State W) A) (k : A -> M (State W) B) :
  keeps_cache_keys m -> (forall a, keeps_cache_keys (k a)) ->
  keeps_cache_keys (bind m k).
Proof.
  intros Hm Hk s key Hs. unfold bind. specialize (Hm s key Hs).
  destruct (m s) as [[a|e|] s']; simpl in *; [|done..].
  by apply Hk.
Qed.

Lemma keeps_cache_keys_try_except {A} (m : M (State W) A) (h : exn -> M (State W) A) :
  keeps_cache_keys m -> (forall e, keeps_cache_keys (h e)) ->
  keeps_cache_keys (try_except m h).
Proof.
  intros Hm Hh s key Hs. unfold try_except. specialize (Hm s key Hs).
  destruct (m s) as [[a|e|] s']; simpl in *; [done| |done].
  by apply Hh.
Qed.

Lemma keeps_cache_keys_insert (k v : string) :
  keeps_cache_keys (set_branch_cache (insert k v) : M (State W) unit).
Proof.
  intros s key Hs. simpl. destruct (decide (k = key)) as [->|Hne].
  - rewrite lookup_insert_eq. eauto.
  - by rewrite lookup_insert_ne.
Qed.

Lemma validate_branch_keeps_cache owner repo branch :
  keeps_cache (validate_branch owner repo branch).
Proof.
  apply keeps_cache_try_except.
  - apply keeps_cache_bind; [apply keeps_cache_call|intros; apply keeps_cache_ret].
  - intros e. apply keeps_cache_bind; [apply keeps_cache_log|intros; apply keeps_cache_ret].
Qed.

Ltac keeps_keys :=
  repeat first
    [ apply keeps_cache_keys_bind; [|intros ?]
    | apply keeps_cache_keys_try_except; [|intros ?]
    | apply keeps_cache_keys_insert
    | apply keeps_cache_keys_of_keeps_cache;
      first [ apply keeps_cache_ret | apply keeps_cache_log | apply keeps_cache_call
            | apply validate_branch_keeps_cache ] ].

Lemma detect_default_branch_keeps_keys owner repo :
  keeps_cache_keys (detect_default_branch owner repo).
Proof.
  unfold detect_default_branch.
  apply keeps_cache_keys_bind; [by apply keeps_cache_keys_of_keeps_cache|].
  intros cache. destruct (cache !! _); keeps_keys.
Qed.

Lemma try_common_branches_keeps_keys owner repo default_branch branches :
  keeps_cache_keys (try_common_branches owner repo default_branch branches).
Proof.
  induction branches as [|branch rest IH]; simpl; [keeps_keys|].
  destruct (String.eqb branch default_branch); [done|].
  keeps_keys. destruct a0; [keeps_keys|done].
Qed.

Lemma get_branch_with_fallback_keeps_keys owner repo preferred :
  keeps_cache_keys (get_branch_with_fallback owner repo preferred).
Proof.
  unfold get_branch_with_fallback. apply keeps_cache_keys_bind.
  - destruct preferred as [p|]; [|keeps_keys].
    destruct (str_truthy p); keeps_keys. destruct a0; keeps_keys.
  - intros [b|]; [keeps_keys|].
    apply keeps_cache_keys_bind; [keeps_keys|intros _].
    apply keeps_cache_keys_bind; [apply detect_default_branch_keeps_keys|intros d].
    apply keeps_cache_keys_bind; [keeps_keys|intros ok].
    destruct ok; [keeps_keys|].
    apply keeps_cache_keys_bind; [apply try_common_branches_keeps_keys|].
    intros [b|]; keeps_keys.
Qed.

Lemma run_calls_keeps_keys (calls : list DetectorCall) (s : State W) k :
  is_Some (_branch_cache s !! k) ->
  is_Some (_branch_cache (run_calls calls s) !! k).
Proof.
  revert s. induction calls as [|c calls IH]; intros s Hs; [done|].
  simpl. apply IH. destruct c; simpl.
  - by apply detect_default_branch_keeps_keys.
  - by apply keeps_cache_keys_of_keeps_cache; [apply validate_branch_keeps_cache|].
  - by apply get_branch_with_fallback_keeps_keys.
Qed.

(** A cached entry answers [detect_default_branch] without a call into
    the client. *)
Lemma detect_default_branch_cached owner repo (s : State W) b :
  _branch_cache s !! (owner +:+ "/" +:+ repo) = Some b ->
  fst (detect_default_branch owner repo s) = Ok b /\
  world (snd (detect_default_branch owner repo s)) = world s /\
  _branch_cache (snd (detect_default_branch owner repo s)) = _branch_cache s.
Proof. intros Hb. unfold detect_default_branch. run_monad. by rewrite Hb. Qed.

Lemma detect_default_branch_caches owner repo (s : State W) :
  detect_succeeds owner repo s ->
  is_Some (_branch_cache (snd (detect_default_branch owner repo s))
             !! (owner +:+ "/" +:+ repo)).
Proof.
  intros [Hhit|(info & w' & Hinfo)].
  - by apply detect_default_branch_keeps_keys.
  - unfold detect_default_branch. run_monad.
    destruct (_branch_cache s !! _) as [b|] eqn:Hb; [simpl; rewrite Hb; eauto|].
    unfold call, set_branch_cache. run_monad. rewrite Hinfo. simpl.
    rewrite lookup_insert_eq. eauto.
Qed.
End Cache.

(** C7.  Once [detect_default_branch] has found the default branch of a
    repository, every later [detect_default_branch] for the same owner and
    repository, after any calls of the detector's methods other than
    [clear_cache], returns the cached name and leaves the world of the
    client untouched: no second request is made. *)
Theorem detect_default_branch_cache_hit :
  forall (W : Type) (client : GitHubClient W) (owner repo : string)
         (s : State W) (calls : list DetectorCall),
    detect_succeeds owner repo s ->
    let s' := run_calls calls (snd (detect_default_branch owner repo s)) in
    exists b,
      _branch_cache s' !! (owner +:+ "/" +:+ repo) = Some b /\
      fst (detect_default_branch owner repo s') = Ok b /\
      world (snd (detect_default_branch owner repo s')) = world s'.
Proof.
  intros W client owner repo s calls Hok s'.
  destruct (run_calls_keeps_keys calls _ _ (detect_default_branch_caches owner repo s Hok))
    as [b Hb].
  fold s' in Hb. exists b. split; [done|].
  by destruct (detect_default_branch_cached owner repo s' b Hb) as (? & ? & _).
Qed.

Lemma detect_default_branch_cache_hit_witness :
  let client := mock_client (repo_with_branches (Some "develop") ["develop"]) in
  let s' := run_calls [CallValidate "o" "r" "main"; CallFallback "o" "r" (Some "topic");
                       CallDetect "o" "other"]
              (snd (detect_default_branch "o" "r" (initial_state []))) in
  exists b,
    _branch_cache s' !! "o/r" = Some b /\
    fst (detect_default_branch "o" "r" s') = Ok b /\
    world (snd (detect_default_branch "o" "r" s')) = world s'.
Proof.
  intros client s'.
  apply (detect_default_branch_cache_hit _ client "o" "r" (initial_state [])).
  right. by eexists _, _.
Defined.

Example detect_default_branch_second_call :
  let client := mock_client (repo_with_branches (Some "develop") ["develop"]) in
  let s1 := snd (detect_default_branch "o" "r" (initial_state [])) in
  world s1 = [MInfo "o" "r"] /\
  fst (detect_default_branch "o" "r" s1) = Ok "develop" /\
  world (snd (detect_default_branch "o" "r" s1)) = [MInfo "o" "r"].
Proof. vm_compute. auto. Qed.

Section Fallback.
Context {W : Type} {client : GitHubClient W}.
Context (owner repo : string) (valid : string -> bool).
Hypothesis validation_stable :
  forall branch (s : State W), fst (validate_branch owner repo branch s) = Ok (valid branch).

Lemma validate_branch_run branch (s : State W) :
  exists s', validate_branch owner repo branch s = (Ok (valid branch), s') /\
             _branch_cache s' = _branch_cache s.
Proof.
  pose proof (validation_stable branch s) as Hv.
  pose proof (validate_branch_keeps_cache owner repo branch s) as Hc.
  destruct (validate_branch owner repo branch s) as [r s'].
  simpl in *. subst r. eauto.
Qed.

Lemma try_common_branches_find detected branches (s : State W) :
  fst (try_common_branches owner repo detected branches s)
  = Ok (List.find (fun c => negb (String.eqb c detected) && valid c) branches).
Proof.
  revert s. induction branches as [|branch rest IH]; intros s; [done|].
  simpl. destruct (String.eqb branch detected); simpl; [apply IH|].
  run_monad. destruct (validate_branch_run branch (log_record
    (DEBUG, "Trying common branch: {branch}") s)) as (s' & -> & _).
  destruct (valid branch); [done|apply IH].
Qed.

Lemma get_branch_with_fallback_resolves preferred detected (s : State W) :
  (forall s', _branch_cache s' = _branch_cache s ->
              fst (detect_default_branch owner repo s') = Ok detected) ->
  fst (get_branch_with_fallback owner repo preferred s)
  = Ok (resolveWithFallback valid preferred detected).
Proof.
  intros Hdetect.
  assert (forall s1 : State W, _branch_cache s1 = _branch_cache s ->
    fst ((logger_debug "Detecting default branch for {owner}/{repo}";;
          let* default_branch := detect_default_branch owner repo in
          let* ok := validate_branch owner repo default_branch in
          if ok then
            logger_info "Using default branch '{default_branch}' for {owner}/{repo}";;
            ret default_branch
          else
            let* found := try_common_branches owner repo default_branch common_branches in
            match found with
            | Some branch => ret branch
            | None =>
                logger_warning "Could not find valid branch for {owner}/{repo}, using 'main'";;
                ret "main"
            end) s1)
    = Ok (if valid detected then detected
          else match List.find (fun c => negb (String.eqb c detected) && valid c)
                       common_branches with
               | Some c => c
               | None => "main"
               end)) as Htail.
  { intros s1 Hs1. run_monad.
    pose proof (Hdetect (log_record
      (DEBUG, "Detecting default branch for {owner}/{repo}") s1) Hs1) as Hd.
    apply run_fst in Hd as [s2 Hd]. rewrite Hd.
    destruct (validate_branch_run detected s2) as (s3 & -> & _).
    destruct (valid detected); [done|]. cbv beta iota.
    destruct (run_fst _ _ _ (try_common_branches_find detected common_branches s3))
      as [s4 ->].
    by destruct (List.find _ _). }
  unfold get_branch_with_fallback, resolveWithFallback.
  destruct preferred as [p|]; [destruct (str_truthy p) eqn:Hp|].
  - destruct (validate_branch_run p (log_record
      (DEBUG, "Trying preferred branch: {preferred_branch}") s)) as (s1 & Hrun & Hs1).
    destruct (valid p) eqn:Hvalid.
    + rewrite (bind_ok _ _ s
        (log_record (INFO, "Using preferred branch '{preferred_branch}' for {owner}/{repo}") s1)
        (Some p)); [reflexivity|].
      run_monad. by rewrite Hrun.
    + rewrite (bind_ok _ _ s
        (log_record (WARNING, "Preferred branch '{preferred_branch}' not found for {owner}/{repo}") s1)
        None).
      * apply Htail. simpl. by rewrite Hs1.
      * run_monad. by rewrite Hrun.
  - rewrite (bind_ok _ _ s s None); [by apply Htail|reflexivity].
  - rewrite (bind_ok _ _ s s None); [by apply Htail|reflexivity].
Qed.

(** An empty preferred name is no preferred branch: the test
    [if preferred_branch:] skips it as it skips [None]. *)
Lemma get_branch_with_fallback_empty_preferred (s : State W) :
  get_branch_with_fallback owner repo (Some "") s
  = get_branch_with_fallback owner repo None s.
Proof. reflexivity. Qed.

Lemma find_first {A} (f : A -> bool) (pre : list A) c post :
  f c = true -> (forall x, x ∈ pre -> f x = false) ->
  List.find f (pre ++ c :: post) = Some c.
Proof.
  intros Hc. induction pre as [|x pre IH]; intros Hpre; simpl; [by rewrite Hc|].
  rewrite Hpre by (by left). apply IH. intros y Hy. apply Hpre. by right.
Qed.
End Fallback.

(** C1.  For a repository whose branches validate or not independently of
    when they are tried ([valid]) and whose detected default branch is
    [detected], [get_branch_with_fallback] returns the branch that the
    priority chain of the specification names: the preferred branch when
    one is given (a non-empty name) and validates; else the detected
    default when it validates; else the first name of
    ["main"; "master"; "develop"; "trunk"], other than the detected
    default, that validates; else ["main"].  No option is returned while a
    higher one validates. *)
Theorem get_branch_with_fallback_priority :
  forall (W : Type) (client : GitHubClient W) (owner repo : string)
         (valid : string -> bool) (preferred : option string) (detected : string)
         (s : State W),
    (forall branch s', fst (validate_branch owner repo branch s') = Ok (valid branch)) ->
    (forall s', _branch_cache s' = _branch_cache s ->
                fst (detect_default_branch owner repo s') = Ok detected) ->
    exists result,
      fst (get_branch_with_fallback owner repo preferred s) = Ok result /\
      result = resolveWithFallback valid preferred detected /\
      let preferred_validates :=
        exists p, preferred = Some p /\ p <> "" /\ valid p = true in
      (forall p, preferred = Some p -> p <> "" -> valid p = true -> result = p) /\
      (~ preferred_validates -> valid detected = true -> result = detected) /\
      (~ preferred_validates -> valid detected = false ->
       forall pre c post,
         common_branches = (pre ++ c :: post)%list ->
         c <> detected -> valid c = true ->
         (forall x, x ∈ pre -> x = detected \/ valid x = false) ->
         result = c) /\
      (~ preferred_validates -> valid detected = false ->
       (forall c, c ∈ common_branches -> c = detected \/ valid c = false) ->
       result = "main").
Proof.
  intros W client owner repo valid preferred detected s Hvalid Hdetect.
  exists (resolveWithFallback valid preferred detected).
  split; [by apply get_branch_with_fallback_resolves|]. split; [done|].
  assert (forall p, p <> "" -> str_truthy p = true) as Htruthy by (by intros [|? ?]).
  assert ((~ exists p, preferred = Some p /\ p <> "" /\ valid p = true) ->
          match preferred with Some p => str_truthy p && valid p | None => false end = false)
    as Hnot.
  { intros Hno. destruct preferred as [p|]; [|done].
    destruct p as [|a p]; [done|]. simpl.
    destruct (valid (String a p)) eqn:Hv; [|done]. exfalso. apply Hno. by eexists. }
  unfold resolveWithFallback. cbv zeta. repeat split.
  - intros p -> Hp Hv. by rewrite (Htruthy p Hp), Hv.
  - intros Hno Hd. by rewrite (Hnot Hno), Hd.
  - intros Hno Hd pre c post Hcommon Hc Hv Hpre. rewrite (Hnot Hno), Hd.
    change ["main"; "master"; "develop"; "trunk"] with common_branches.
    rewrite Hcommon, (find_first _ pre c post); [done| |].
    + rewrite Hv. by apply String.eqb_neq in Hc as ->.
    + intros x Hx. destruct (Hpre x Hx) as [->|Hx'].
      * by rewrite String.eqb_refl.
      * rewrite Hx'. apply andb_false_r.
  - intros Hno Hd Hall. rewrite (Hnot Hno), Hd.
    destruct (List.find _ _) as [c|] eqn:Hfind; [|done].
    apply List.find_some in Hfind as [Hin Hc]. exfalso.
    apply andb_true_iff in Hc as [Hne Hv]. apply negb_true_iff, String.eqb_neq in Hne.
    apply list_elem_of_In in Hin. destruct (Hall c Hin) as [?|Hv']; [done|congruence].
Qed.

Lemma get_branch_with_fallback_priority_witness :
  exists result,
    fst (get_branch_with_fallback
           (client := mock_client (repo_with_branches (Some "dev") ["master"; "trunk"]))
           "o" "r" (Some "topic") (initial_state [])) = Ok result /\
    result = "master".
Proof.
  destruct (get_branch_with_fallback_priority _
              (mock_client (repo_with_branches (Some "dev") ["master"; "trunk"]))
              "o" "r" (fun b => bool_decide (b ∈ ["master"; "trunk"]))
              (Some "topic") "dev" (initial_state []))
    as (result & Hrun & Hres & _).
  - intros branch s'. unfold validate_branch, call. run_monad. simpl.
    by destruct (bool_decide _).
  - intros s' Hs'. unfold detect_default_branch. run_monad. rewrite Hs'. simpl.
    by rewrite lookup_empty.
  - exists result. split; [exact Hrun|]. rewrite Hres. reflexivity.
Defined.

Example get_branch_with_fallback_examples :
  let run valid preferred :=
    fst (get_branch_with_fallback
           (client := mock_client (repo_with_branches (Some "dev") valid))
           "o" "r" preferred (initial_state [])) in
  run ["topic"; "dev"; "main"] (Some "topic") = Ok "topic" /\
  run ["dev"; "main"] (Some "topic") = Ok "dev" /\
  run ["master"; "trunk"] None = Ok "master" /\
  run [] (Some "topic") = Ok "main".
Proof. vm_compute. auto. Qed.

(** ** Collection of one repository *)

Section Collect.
Context {W : Type} {client : GitHubClient W} {host : Host W}.

Lemma get_team_run (tm : TeamMapper) (username : option string) (s : State W) :
  exists t s', get_team tm username s = (Ok t, s') /\ world s' = world s.
Proof. destruct username as [[|a u]|]; simpl; eauto. Qed.

(** A dictionary is falsy exactly when it is [{}]. *)
Lemma commit_truthy_empty (d : RawCommit) :
  commit_truthy d = false <-> d = empty_document.
Proof.
  split; [|by intros ->].
  destruct d as [[sha|] [u|] [| |ci] [| |a] [| |st] [| |fs] [|]]; by cbn.
Qed.

Lemma user_login_truthy (user : GitHubUser) :
  (if user_truthy user then login user else None) = login user.
Proof. by destruct user as [[l|] [|]]. Qed.

(** The document [process_commit] reads. *)
Lemma process_commit_data (commit : RawCommit) (detailed : option RawCommit) :
  match detailed with
  | Some d => if commit_truthy d then d else commit
  | None => commit
  end
  = match detailed with
    | Some d => if decide (d = empty_document) then commit else d
    | None => commit
    end.
Proof.
  destruct detailed as [d|]; [|done].
  destruct (decide (d = empty_document)) as [->|Hne]; [done|].
  destruct (commit_truthy d) eqn:Ht; [done|]. by apply commit_truthy_empty in Ht.
Qed.

(** [process_commit] builds the record of a document that can be
    processed and raises on one that cannot; it leaves the client alone. *)
Lemma process_commit_run (self : CommitProcessor) commit owner repo repo_url br
    (detailed : option RawCommit) (s : State W) :
  let data := match detailed with
              | Some d => if decide (d = empty_document) then commit else d
              | None => commit
              end in
  if processable data then
    exists record s',
      process_commit self commit owner repo repo_url br detailed s = (Ok record, s') /\
      built_from owner repo repo_url br data record /\
      world s' = world s
  else
    exists e s',
      process_commit self commit owner repo repo_url br detailed s = (Raise e, s') /\
      world s' = world s.
Proof.
  intros data. unfold process_commit.
  rewrite (process_commit_data commit detailed). fold data.
  set (username := match rc_author data with
                   | Value user => if user_truthy user then login user else None
                   | _ => None
                   end).
  assert (username = match rc_author data with Value user => login user | _ => None end)
    as Husername.
  { unfold username. destruct (rc_author data); by rewrite ?user_login_truthy. }
  destruct (get_team_run (cp_team_mapper self) username s) as (t & s1 & Hteam & Hw1).
  unfold processable, built_from, commit_record. rewrite <- Husername.
  destruct (rc_stats data) as [| |stats]; destruct (rc_files data) as [| |files];
    (destruct (rc_commit data) as [| |commit_info];
     repeat (progress (cbn [get_object field_default ci_author is_null negb andb];
                       run_monad; cbv beta iota));
     [| |destruct (ci_author commit_info) as [| |author_info]]);
    repeat (progress (cbn [get_object field_default ci_author is_null negb andb];
                      run_monad; cbv beta iota; rewrite ?Hteam));
    try (destruct (date_parser_parse _) as [d|]);
    repeat (progress (cbn [get_object field_default ci_author is_null negb andb];
                      run_monad; cbv beta iota));
    (eexists _, _; split; [reflexivity|]);
    try split; try (by eexists _, _); cbn [world log_record State_Logging];
    first [exact Hw1|reflexivity].
Qed.


Section Details.
Context (owner repo : string) (details : string -> exn + RawCommit).
Hypothesis details_stable :
  forall sha (w : W),
    fst (get_commit_details owner repo sha w) = outcome_of (details sha).





End Details.
End Collect.






(** The case of the specification: five listed commits, the detail
    request fails for one SHA; five records come back, four with their
    file changes and one without. *)
Example collect_repository_commits_five_commits :
  let run := collect_repository_commits (client := mock_client five_commit_repo)
               (host := test_host) (test_collector true)
               (Some "o/r") None None None None (initial_state []) in
  exists records,
    fst run = Ok records /\
    map commit_sha records = ["c1"; "c2"; "c3"; "c4"; "c5"] /\
    map files_changed_count records = [1; 1; 0; 1; 1].
Proof. eexists. vm_compute. auto. Qed.

(** ** Collection of several repositories *)

Section Returns.
Context {S : Type}.

Lemma returns_ret {A} (a : A) : returns (ret a : M S A).
Proof. by intros s. Qed.

Lemma returns_raise {A} (e : exn) : returns (raise e : M S A).
Proof. by intros s. Qed.

Lemma returns_modify (f : S -> S) : returns (modify f).
Proof. by intros s. Qed.

Lemma returns_gets {A} (f : S -> A) : returns (gets f).
Proof. by intros s. Qed.

Lemma returns_bind {A B} (m : M S A) (k : A -> M S B) :
  returns m -> (forall a, returns (k a)) -> returns (bind m k).
Proof.
  intros Hm Hk s. unfold bind. specialize (Hm s).
  destruct (m s) as [[a|e|] s1]; simpl in *; [apply Hk|done|done].
Qed.

Lemma returns_try_except {A} (m : M S A) (h : exn -> M S A) :
  returns m -> (forall e, returns (h e)) -> returns (try_except m h).
Proof.
  intros Hm Hh s. unfold try_except. specialize (Hm s).
  destruct (m s) as [[a|e|] s1]; simpl in *; [done|apply Hh|done].
Qed.
End Returns.

Lemma returns_call {W A} (m : M W A) : returns m -> returns (call m).
Proof.
  intros Hm s. unfold call. specialize (Hm (world s)).
  by destruct (m (world s)) as [r w'].
Qed.

Ltac returns_step :=
  first
    [ apply returns_ret
    | apply returns_raise
    | apply returns_modify
    | apply returns_gets
    | apply returns_try_except; [|intros ?]
    | apply returns_bind; [|intros ?] ].

Section CollectReturns.
Context {W : Type} {client : GitHubClient W} {host : Host W}.
Hypothesis client_ends : client_returns client.

Lemma detect_default_branch_returns owner repo :
  returns (detect_default_branch owner repo).
Proof.
  unfold detect_default_branch. apply returns_bind; [apply returns_gets|intros cache].
  destruct (cache !! _); [repeat returns_step|].
  apply returns_try_except; [|intros e; repeat returns_step].
  apply returns_bind; [apply returns_call, client_ends|intros repo_info].
  repeat returns_step.
Qed.

Lemma validate_branch_returns owner repo br :
  returns (validate_branch owner repo br).
Proof.
  unfold validate_branch. apply returns_try_except; [|intros e; repeat returns_step].
  apply returns_bind; [apply returns_call, client_ends|intros commits].
  apply returns_ret.
Qed.

Lemma try_common_branches_returns owner repo default_branch names :
  returns (try_common_branches owner repo default_branch names).
Proof.
  induction names as [|name rest IH]; cbn [try_common_branches]; [apply returns_ret|].
  destruct (String.eqb name default_branch); [exact IH|].
  apply returns_bind; [apply returns_modify|intros _].
  apply returns_bind; [apply validate_branch_returns|intros [|]];
    [repeat returns_step|exact IH].
Qed.

Lemma get_branch_with_fallback_returns owner repo preferred :
  returns (get_branch_with_fallback owner repo preferred).
Proof.
  unfold get_branch_with_fallback. apply returns_bind.
  - destruct preferred as [preferred|]; [|apply returns_ret].
    destruct (str_truthy preferred); [|apply returns_ret].
    apply returns_bind; [apply returns_modify|intros _].
    apply returns_bind; [apply validate_branch_returns|intros [|]]; repeat returns_step.
  - intros [found|]; [apply returns_ret|].
    apply returns_bind; [apply returns_modify|intros _].
    apply returns_bind; [apply detect_default_branch_returns|intros default_branch].
    apply returns_bind; [apply validate_branch_returns|intros [|]];
      [repeat returns_step|].
    apply returns_bind; [apply try_common_branches_returns|intros [found|]];
      repeat returns_step.
Qed.

Lemma parse_repo_url_returns url : returns (parse_repo_url url).
Proof.
  unfold parse_repo_url. destruct url as [url|]; [|apply returns_raise].
  apply returns_bind.
  - destruct (String.prefix _ _); [apply returns_ret|].
    destruct (str_contains _ _); [apply returns_ret|apply returns_raise].
  - intros path. destruct (_ <=? _)%nat; [apply returns_ret|apply returns_raise].
Qed.

Lemma resolve_branch_returns self owner repo br :
  returns (resolve_branch self owner repo br).
Proof.
  unfold resolve_branch. destruct br as [br|], (auto_detect_branch self).
  - apply get_branch_with_fallback_returns.
  - apply returns_ret.
  - apply returns_bind; [apply detect_default_branch_returns|intros b].
    repeat returns_step.
  - repeat returns_step.
Qed.

Lemma list_repository_commits_returns self repo_url br date_from date_to author :
  returns (list_repository_commits self repo_url br date_from date_to author).
Proof.
  unfold list_repository_commits.
  apply returns_bind; [apply parse_repo_url_returns|intros [owner repo]].
  apply returns_bind; [apply resolve_branch_returns|intros b].
  apply returns_bind; [apply returns_modify|intros _].
  apply returns_bind; [apply returns_call, client_ends|intros repo_info].
  apply returns_bind; [apply returns_call, client_ends|intros commits].
  apply returns_ret.
Qed.

Lemma fetch_details_returns owner repo (commits : list RawCommit) :
  forall i m, returns (fetch_details owner repo commits i m).
Proof.
  induction commits as [|commit rest IH]; intros i m; cbn [fetch_details];
    [apply returns_ret|].
  apply returns_bind; [|intros m'; apply IH].
  destruct (rc_sha commit) as [sha|]; [destruct (str_truthy sha)|];
    try apply returns_ret.
  apply returns_try_except; [|intros e; repeat returns_step].
  apply returns_bind; [apply returns_call, client_ends|intros detailed].
  apply returns_bind; [destruct (_ =? _); repeat returns_step|intros _].
  apply returns_ret.
Qed.

Lemma get_team_returns (tm : TeamMapper) username :
  returns (get_team tm username : M (State W) string).
Proof. intros s. by destruct username as [[|a u]|]. Qed.

Lemma process_commit_returns self commit owner repo repo_url br detailed :
  returns (process_commit self commit owner repo repo_url br detailed).
Proof.
  intros s.
  pose proof (process_commit_run self commit owner repo repo_url br detailed s) as Hrun.
  cbv zeta in Hrun.
  destruct (processable _); [destruct Hrun as (r & s' & -> & _)
                            |destruct Hrun as (e & s' & -> & _)]; done.
Qed.

Lemma process_commits_loop_returns self owner repo repo_url br detailed_commits
    (commits : list RawCommit) :
  forall processed,
    returns (process_commits_loop self commits owner repo repo_url br
               detailed_commits processed).
Proof.
  induction commits as [|commit rest IH]; intros processed; cbn [process_commits_loop];
    [apply returns_ret|].
  apply returns_bind; [|intros p; apply IH].
  apply returns_try_except; [|intros e; repeat returns_step].
  apply returns_bind; [apply process_commit_returns|intros r; apply returns_ret].
Qed.

Lemma collect_repository_commits_returns self repo_url br date_from date_to author :
  returns (collect_repository_commits self repo_url br date_from date_to author).
Proof.
  unfold collect_repository_commits.
  apply returns_try_except; [|intros e; repeat returns_step].
  apply returns_bind; [apply list_repository_commits_returns|].
  intros [[[[owner repo] b] full_repo_url] commits].
  destruct commits as [|commit rest]; [repeat returns_step|].
  apply returns_bind.
  - destruct (fetch_detailed_commits self); [|apply returns_ret].
    apply returns_bind; [apply returns_modify|intros _]. apply fetch_details_returns.
  - intros detailed_commits. apply returns_bind; [|intros p; repeat returns_step].
    unfold process_commits_batch.
    apply returns_bind; [apply process_commits_loop_returns|intros p].
    repeat returns_step.
Qed.

Lemma collect_one_returns self global_filters repo_config :
  returns (collect_one self global_filters repo_config).
Proof.
  unfold collect_one. destruct (cfg_filters repo_config);
    [apply collect_repository_commits_returns|apply returns_raise
    |apply collect_repository_commits_returns].
Qed.
End CollectReturns.

Section CollectMultiple.
Context {W : Type} {client : GitHubClient W} {host : Host W}.
Context (self : DataCollector) (global_filters : gmap string string).

Lemma collect_loop_cons repo_config rest (all_commits : list CommitData) (s : State W) :
  collect_loop self (repo_config :: rest) global_filters all_commits s
  = (let* all_commits :=
       try_except
         (let* commits := collect_one self global_filters repo_config in
          ret (all_commits ++ commits)%list)
         (fun e =>
            logger_error
              "Failed to collect from repository {repo_config.get('url')}: {e}";;
            ret all_commits) in
     collect_loop self rest global_filters all_commits) s.
Proof.
  cbn [collect_loop]. unfold collect_one.
  destruct (cfg_filters repo_config); reflexivity.
Qed.

(** The loop raises nothing; when it ends, it has gone through every
    repository. *)
Lemma collect_loop_run (repos_config : list RepoConfig) :
  forall (all_commits : list CommitData) (s : State W),
    fst (collect_loop self repos_config global_filters all_commits s) = Diverge \/
    exists out s',
      collect_loop self repos_config global_filters all_commits s
      = (Ok (all_commits ++ out)%list, s') /\
      Collected self global_filters repos_config s out s'.
Proof.
  induction repos_config as [|repo_config rest IH]; intros all_commits s.
  - right. exists [], s. rewrite app_nil_r. split; [done|constructor].
  - rewrite collect_loop_cons. run_monad.
    destruct (collect_one self global_filters repo_config s) as [[commits|e|] s1] eqn:Hone.
    + destruct (IH (all_commits ++ commits)%list s1) as [Hdiv|(out & s' & Hrun & Hcol)];
        [by left|right].
      exists (commits ++ out)%list, s'. split.
      * rewrite Hrun. by rewrite <- app_assoc.
      * by apply (Collected_ok _ _ _ _ _ _ s1).
    + destruct (IH all_commits
                  (log_record
                     (ERROR, "Failed to collect from repository {repo_config.get('url')}: {e}")
                     s1)) as [Hdiv|(out & s' & Hrun & Hcol)]; [by left|right].
      exists out, s'. split; [done|]. by apply (Collected_skip _ _ _ _ _ e s1).
    + by left.
Qed.

(** With a client whose calls end, the loop ends. *)
Lemma collect_loop_returns (repos_config : list RepoConfig) :
  client_returns client ->
  forall all_commits, returns (collect_loop self repos_config global_filters all_commits).
Proof.
  intros Hclient.
  induction repos_config as [|repo_config rest IH]; intros all_commits s; [done|].
  rewrite collect_loop_cons. revert s.
  apply returns_bind; [|intros a; apply IH].
  apply returns_try_except; [|intros e; repeat returns_step].
  apply returns_bind; [by apply collect_one_returns|intros commits; apply returns_ret].
Qed.
End CollectMultiple.

(** C4.  [collect_multiple_repositories] never raises.  With a client
    whose calls come to an end, it returns: a repository whose collection
    raises is skipped, contributes nothing and leaves an error record, and
    the result is the commits of the repositories that succeeded, joined
    in the order of the configuration. *)
Theorem collect_multiple_repositories_skips_failures :
  forall (W : Type) (client : GitHubClient W) (host : Host W) (self : DataCollector)
         (repos_config : list RepoConfig) (global_filters : option (gmap string string))
         (s : State W),
    let run := collect_multiple_repositories self repos_config global_filters s in
    (forall e, fst run <> Raise e) /\
    (client_returns client ->
     exists out s',
       fst run = Ok out /\
       Collected self (default ∅ global_filters) repos_config s out s').
Proof.
  intros W client host self repos_config global_filters s run. subst run.
  unfold collect_multiple_repositories. run_monad.
  pose proof (fun Hclient =>
                collect_loop_returns self (default ∅ global_filters) repos_config
                  Hclient [] s) as Hreturns.
  destruct (collect_loop_run self (default ∅ global_filters) repos_config [] s)
    as [Hdiv|(out & s' & Hrun & Hcol)].
  - split.
    + destruct (collect_loop _ _ _ _ s) as [r s']. simpl in Hdiv. by subst r.
    + intros Hclient. by destruct (Hreturns Hclient).
  - rewrite Hrun. split; [done|]. intros _. eauto.
Qed.

Lemma mock_client_returns (t : MockTables) :
  (forall owner repo, mock_info t owner repo <> Diverge) ->
  (forall owner repo br, mock_commits t owner repo br <> Diverge) ->
  (forall owner repo sha, mock_details t owner repo sha <> Diverge) ->
  client_returns (mock_client t).
Proof.
  intros Hinfo Hcommits Hdetails. split; [|split].
  - intros owner repo w. apply Hinfo.
  - intros owner repo br since until author per_page w. apply Hcommits.
  - intros owner repo sha w. apply Hdetails.
Qed.

Lemma collect_multiple_repositories_skips_failures_witness :
  let run := collect_multiple_repositories (client := mock_client three_repos)
               (host := test_host) (test_collector false) three_repo_configs None
               (initial_state []) in
  exists out s',
    fst run = Ok out /\
    Collected (client := mock_client three_repos) (host := test_host)
      (test_collector false) ∅ three_repo_configs (initial_state []) out s'.
Proof.
  apply (collect_multiple_repositories_skips_failures _ (mock_client three_repos)
           test_host (test_collector false) three_repo_configs None (initial_state [])).
  apply mock_client_returns.
  - intros owner repo. cbn. by destruct (String.eqb repo "second").
  - done.
  - done.
Defined.

(** The case of the specification: of three repositories the second
    raises; the result holds the commits of the first and of the third. *)
Example collect_multiple_repositories_three_repos :
  let run := collect_multiple_repositories (client := mock_client three_repos)
               (host := test_host) (test_collector false) three_repo_configs None
               (initial_state []) in
  exists out,
    fst run = Ok out /\
    map (fun c => (repository_name c, commit_sha c)) out
    = [("first", "first-1"); ("first", "first-2"); ("third", "third-1"); ("third", "third-2")].
Proof. eexists. vm_compute. auto. Qed.

(** ** Start-up *)

Section Quiet.
Lemma quiet_ret {A} (P : A -> Prop) (a : A) : P a -> quiet P (ret a).
Proof. by intros Ha s. Qed.

Lemma quiet_raise {A} (P : A -> Prop) (e : exn) : quiet P (raise e).
Proof. by intros s. Qed.

Lemma quiet_log (r : LogRecord) : quiet (fun _ => True) (modify (log_record r)).
Proof. by intros s. Qed.

Lemma quiet_weaken {A} (P Q : A -> Prop) (m : M (State HttpWorld) A) :
  quiet P m -> (forall a, P a -> Q a) -> quiet Q m.
Proof.
  intros Hm HPQ s. destruct (Hm s) as [Htr Hres]. split; [done|].
  destruct (fst (m s)); auto.
Qed.

Lemma quiet_bind {A B} (Q : A -> Prop) (P : B -> Prop)
    (m : M (State HttpWorld) A) (k : A -> M (State HttpWorld) B) :
  quiet Q m -> (forall a, Q a -> quiet P (k a)) -> quiet P (bind m k).
Proof.
  intros Hm Hk s. unfold bind. destruct (Hm s) as [Htr Hres].
  destruct (m s) as [[a|e|] s1]; simpl in *; [|done..].
  destruct (Hk a Hres s1) as [Htr' Hres']. split; [congruence|done].
Qed.

Lemma quiet_try_except {A} (P : A -> Prop)
    (m : M (State HttpWorld) A) (h : exn -> M (State HttpWorld) A) :
  quiet P m -> (forall e, quiet P (h e)) -> quiet P (try_except m h).
Proof.
  intros Hm Hh s. unfold try_except. destruct (Hm s) as [Htr Hres].
  destruct (m s) as [[a|e|] s1]; simpl in *; [done| |done].
  destruct (Hh e s1) as [Htr' Hres']. split; [congruence|done].
Qed.

Lemma quiet_try_except_of {A} (P : A -> Prop) (cls : exn -> bool)
    (m : M (State HttpWorld) A) (h : exn -> M (State HttpWorld) A) :
  quiet P m -> (forall e, quiet P (h e)) -> quiet P (try_except_of cls m h).
Proof.
  intros Hm Hh. apply quiet_try_except; [done|].
  intros e. destruct (cls e); [apply Hh|apply quiet_raise].
Qed.

(** A handler that always ends with a value turns exceptions into
    values. *)
Lemma quiet_ok_try_except {A} (P : A -> Prop)
    (m : M (State HttpWorld) A) (h : exn -> M (State HttpWorld) A) :
  quiet P m -> (forall e, quiet_ok P (h e)) -> quiet_ok P (try_except m h).
Proof.
  intros Hm Hh s. unfold try_except. destruct (Hm s) as [Htr Hres].
  destruct (m s) as [[a|e|] s1]; simpl in *; [eauto| |done].
  destruct (Hh e s1) as [Htr' Hres']. split; [congruence|done].
Qed.

Lemma quiet_ok_bind_log {A} (P : A -> Prop) (r : LogRecord)
    (k : M (State HttpWorld) A) :
  quiet_ok P k -> quiet_ok P (modify (log_record r);; k).
Proof.
  intros Hk s. unfold bind, modify.
  destruct (Hk (log_record r s)) as [Htr Hres]. split; [exact Htr|exact Hres].
Qed.

Lemma quiet_init token api_url timeout max_retries rate_limit_buffer :
  quiet (fun _ => True)
    (call (github_client.init token api_url timeout max_retries rate_limit_buffer)).
Proof. by intros s. Qed.
End Quiet.

Ltac quiet_step :=
  first
    [ apply quiet_log
    | apply quiet_raise
    | apply quiet_init
    | apply quiet_ret; done
    | apply quiet_try_except_of; [|intros ?]
    | apply quiet_try_except; [|intros ?]
    | eapply quiet_bind; [|intros ? ?] ].

Section Startup.
Context (env : HttpEnv) (fuel : nat) {host : Host HttpWorld}.
Context (files : HostFiles) (int_of_str : string -> option Z).

Lemma load_yaml_config_quiet {A} (file : option (exn + A)) :
  quiet (fun _ => True) (load_yaml_config (S := State HttpWorld) file).
Proof.
  unfold load_yaml_config. destruct file as [[e|config]|]; repeat quiet_step.
Qed.

Lemma load_repositories_quiet :
  quiet (fun _ => True) (load_repositories (S := State HttpWorld) files).
Proof.
  unfold load_repositories. quiet_step.
  - eapply quiet_bind; [apply load_yaml_config_quiet|]. intros config _.
    apply (quiet_bind (fun _ => True)); [|intros; by apply quiet_ret].
    destruct (doc_repositories config); quiet_step.
  - repeat quiet_step.
Qed.

Lemma load_team_mapping_quiet :
  quiet (fun _ => True) (load_team_mapping (S := State HttpWorld) files).
Proof.
  unfold load_team_mapping. quiet_step; [apply load_yaml_config_quiet|].
  repeat quiet_step.
Qed.

Lemma get_github_token_quiet :
  quiet (fun _ => True) (get_github_token (S := State HttpWorld) files).
Proof.
  unfold get_github_token. destruct (getenv files _) as [t|]; [|quiet_step].
  destruct (str_truthy t); quiet_step.
Qed.

Lemma validate_config_quiet :
  quiet (fun _ => True) (validate_config (S := State HttpWorld) files).
Proof.
  unfold validate_config. apply (quiet_bind (fun _ => True)); [|intros ? _].
  - quiet_step; [|quiet_step].
    eapply quiet_bind; [apply get_github_token_quiet|]. intros; by apply quiet_ret.
  - eapply quiet_bind; [apply load_repositories_quiet|]. intros repos _.
    apply (quiet_bind (fun _ => True)); [|intros; by apply quiet_ret].
    destruct repos; [apply quiet_log|by apply quiet_ret].
Qed.

Lemma getenv_int_quiet name fallback :
  quiet (fun _ => True) (getenv_int (S := State HttpWorld) files int_of_str name fallback).
Proof. unfold getenv_int. destruct (int_of_str _); quiet_step. Qed.

Lemma get_api_config_quiet :
  quiet (fun _ => True) (get_api_config (S := State HttpWorld) files int_of_str).
Proof.
  unfold get_api_config.
  repeat (eapply quiet_bind; [apply getenv_int_quiet|intros ? _]).
  by apply quiet_ret.
Qed.

Lemma load_repositories_none :
  no_repositories files ->
  quiet (fun repos => repos = []) (load_repositories (S := State HttpWorld) files).
Proof.
  intros Hnone s. destruct (load_repositories_quiet s) as [Htr _].
  split; [done|]. by rewrite Hnone.
Qed.

Lemma TeamMapper_init_quiet cfg :
  quiet (fun _ => True) (TeamMapper_init (S := State HttpWorld) cfg).
Proof. by intros s. Qed.

Lemma DataCollector_init_quiet tm fetch auto :
  quiet (fun _ => True) (DataCollector_init (W := HttpWorld) tm fetch auto).
Proof. intros s. by destruct auto. Qed.

Lemma quiet_to_bind {A B} (Q : A -> Prop) (P : B -> State HttpWorld -> Prop)
    (m : M (State HttpWorld) A) (k : A -> M (State HttpWorld) B) :
  quiet Q m -> (forall a, Q a -> quiet_to P (k a)) -> quiet_to P (bind m k).
Proof.
  intros Hm Hk s. unfold bind. destruct (Hm s) as [Htr Hres].
  destruct (m s) as [[a|e|] s1]; simpl in *; [|done..].
  destruct (Hk a Hres s1) as [Htr' Hres']. split; [congruence|done].
Qed.

Lemma error_logged_log_record (msg : string) (s : State HttpWorld) :
  msg = "No repositories configured. Use --repo or configure repositories.yaml" \/
  msg = "Fatal error: {e}" ->
  error_logged (log_record (ERROR, msg) s).
Proof. intros Hmsg. by exists (log s), msg. Qed.

(** Without a repository [main] gives up: exit status 1, nothing on the
    trace, and an error record at the end of the log. *)
Lemma main_without_repositories finish (args : Args) (s : State HttpWorld) :
  truthy (args_repo args) = false ->
  args_test_connection args = false ->
  no_repositories files ->
  let run := main env fuel files int_of_str finish args s in
  fst run = Ok 1 /\
  trace (world (snd run)) = trace (world s) /\
  error_logged (snd run).
Proof.
  intros Hrepo Htest Hnone.
  assert (quiet_to (fun status s' => status = 1 /\ error_logged s')
            (load_env files;;
             validate_config files;;
             let* api_config := get_api_config files int_of_str in
             let* output_config := get_output_config files in
             let* token := get_github_token files in
             let* github_client :=
               call (github_client.init token (ac_api_url api_config)
                       (ac_timeout api_config) (ac_max_retries api_config)
                       (ac_rate_limit_buffer api_config)) in
             let* team_config := load_team_mapping files in
             let* team_mapper := TeamMapper_init team_config in
             let* data_collector :=
               DataCollector_init team_mapper (negb (args_no_detailed_commits args))
                 true in
             let* repos_config := load_repositories files in
             logger_error
               "No repositories configured. Use --repo or configure repositories.yaml";;
             ret 1)) as Hbody.
  { apply (quiet_to_bind (fun _ => True)).
    { unfold load_env. destruct (dotenv_loaded files); apply quiet_log. }
    intros _ _.
    apply (quiet_to_bind (fun _ => True)); [apply validate_config_quiet|intros _ _].
    apply (quiet_to_bind (fun _ => True)); [apply get_api_config_quiet|intros api_config _].
    apply (quiet_to_bind (fun _ => True)); [by apply quiet_ret|intros output_config _].
    apply (quiet_to_bind (fun _ => True)); [apply get_github_token_quiet|intros token _].
    apply (quiet_to_bind (fun _ => True)); [apply quiet_init|intros github_client _].
    apply (quiet_to_bind (fun _ => True));
      [apply load_team_mapping_quiet|intros team_config _].
    apply (quiet_to_bind (fun _ => True));
      [apply TeamMapper_init_quiet|intros team_mapper _].
    apply (quiet_to_bind (fun _ => True));
      [apply DataCollector_init_quiet|intros data_collector _].
    apply (quiet_to_bind (fun _ => True));
      [apply load_repositories_quiet|intros repos_config _].
    intros s1. split; [done|]. split; [done|].
    apply error_logged_log_record. by left. }
  intros run. subst run. unfold main. rewrite Htest, Hrepo.
  run_monad.
  set (s0 := log_record (INFO, "================")
               (log_record (INFO, "GitHub Commit Data Collector Starting")
                  (log_record (INFO, "================") s))).
  specialize (Hbody s0). run_monad_in Hbody. fold s0 in Hbody.
  revert Hbody.
  destruct (load_env files s0) as [[[]|e|] s1]; cbn [fst snd];
    [|intros [Htr _]; split; [done|]; split; [exact Htr|];
      apply error_logged_log_record; by right
     |by intros [_ []]].
  destruct (validate_config files s1) as [[b|e|] s2]; cbn [fst snd];
    [|intros [Htr _]; split; [done|]; split; [exact Htr|];
      apply error_logged_log_record; by right
     |by intros [_ []]].
  destruct (get_api_config files int_of_str s2) as [[api_config|e|] s3]; cbn [fst snd];
    [|intros [Htr _]; split; [done|]; split; [exact Htr|];
      apply error_logged_log_record; by right
     |by intros [_ []]].
  destruct (get_output_config files s3) as [[output_config|e|] s4]; cbn [fst snd];
    [|intros [Htr _]; split; [done|]; split; [exact Htr|];
      apply error_logged_log_record; by right
     |by intros [_ []]].
  destruct (get_github_token files s4) as [[token|e|] s5]; cbn [fst snd];
    [|intros [Htr _]; split; [done|]; split; [exact Htr|];
      apply error_logged_log_record; by right
     |by intros [_ []]].
  destruct (call _ s5) as [[github_client|e|] s6]; cbn [fst snd];
    [|intros [Htr _]; split; [done|]; split; [exact Htr|];
      apply error_logged_log_record; by right
     |by intros [_ []]].
  destruct (load_team_mapping files s6) as [[team_config|e|] s7]; cbn [fst snd];
    [|intros [Htr _]; split; [done|]; split; [exact Htr|];
      apply error_logged_log_record; by right
     |by intros [_ []]].
  destruct (TeamMapper_init team_config s7) as [[team_mapper|e|] s8]; cbn [fst snd];
    [|intros [Htr _]; split; [done|]; split; [exact Htr|];
      apply error_logged_log_record; by right
     |by intros [_ []]].
  destruct (DataCollector_init _ _ _ s8) as [[data_collector|e|] s9]; cbn [fst snd];
    [|intros [Htr _]; split; [done|]; split; [exact Htr|];
      apply error_logged_log_record; by right
     |by intros [_ []]].
  pose proof (Hnone s9) as Hrepos.
  destruct (load_repositories files s9) as [[repos|e|] s10]; cbn [fst snd] in *;
    [|discriminate..].
  injection Hrepos as ->. cbn [fst snd]. intros [Htr [_ Hlog]]. done.
Qed.
End Startup.

(** C9 (as amended).  When no repository is configured, none is named on
    the command line and the connection test is not requested, [main]
    gives up with exit status 1 after logging an error, without any
    network activity: no request is sent and no sleep takes place, and
    the last record of the log is the error record. *)
Theorem main_aborts_without_repositories :
  forall (env : HttpEnv) (fuel : nat) (host : Host HttpWorld) (files : HostFiles)
         (int_of_str : string -> option Z)
         (finish : Args -> list CommitData -> list RepoConfig ->
                   option (gmap string string) -> M (State HttpWorld) Z)
         (args : Args) (s : State HttpWorld),
    truthy (args_repo args) = false ->
    args_test_connection args = false ->
    no_repositories files ->
    let run := main env fuel files int_of_str finish args s in
    aborted_before_network run s /\ error_logged (snd run).
Proof.
  intros env fuel host files int_of_str finish args s Hrepo Htest Hnone.
  destruct (main_without_repositories env fuel files int_of_str finish args s
              Hrepo Htest Hnone) as (Hstatus & Htr & Hlog).
  by repeat split.
Qed.

Lemma files_without_repositories_none : no_repositories files_without_repositories.
Proof. intros s. reflexivity. Qed.

Lemma main_aborts_without_repositories_witness :
  let run := main user_env 10 (host := test_host) files_without_repositories
               test_int_of_str test_finish (test_args false)
               (initial_state empty_world) in
  aborted_before_network run (initial_state empty_world) /\
  log (snd run)
  = [(INFO, "================");
     (INFO, "GitHub Commit Data Collector Starting");
     (INFO, "================");
     (INFO, "Loaded environment variables from {env_file}");
     (INFO, "Loaded configuration from {config_path}");
     (WARNING, "No repositories configured for data collection");
     (WARNING, "teams.yaml not found, using empty team mapping");
     (INFO, "Team mapper initialized with {len(self.username_to_team)} user mappings");
     (INFO, "Commit processor initialized");
     (INFO, "Branch auto-detection enabled");
     (INFO, "Data collector initialized");
     (INFO, "Loaded configuration from {config_path}");
     (ERROR, "No repositories configured. Use --repo or configure repositories.yaml")].
Proof.
  split.
  - apply main_aborts_without_repositories.
    + reflexivity.
    + reflexivity.
    + intros s. reflexivity.
  - vm_compute. reflexivity.
Defined.

(** C9 as worded fails when the connection test is requested: with no
    repository configured, [main --test-connection] sends a request to the
    provider and, when it is answered, ends with exit status 0. *)
Lemma main_test_connection_reaches_network :
  no_repositories files_without_repositories /\
  let run := main user_env 10 (host := test_host) files_without_repositories
               test_int_of_str test_finish (test_args true)
               (initial_state empty_world) in
  fst run = Ok 0 /\
  trace (world (snd run))
  = [EvGet {| url := "https://api.github.com/user"; params := None |}] /\
  ~ aborted_before_network run (initial_state empty_world).
Proof.
  split; [exact files_without_repositories_none|].
  cbv zeta. split; [|split].
  - vm_compute. reflexivity.
  - vm_compute. reflexivity.
  - intros [Hstatus _]. vm_compute in Hstatus. discriminate.
Qed.

(* ================================================================== *)
(** * Further properties of the sources *)
(* ================================================================== *)

(** ** team_mapper.py *)

Lemma get_team_nonempty {S} `{Logging S} (self : TeamMapper) (u : string) (s : S) :
  u <> "" ->
  fst (get_team self (Some u) s)
  = Ok (default (default_team self) (username_to_team self !! lower u)).
Proof. destruct u; [done|reflexivity]. Qed.

Lemma get_team_empty {S} `{Logging S} (self : TeamMapper) (s : S) :
  fst (get_team self (Some "") s) = Ok (default_team self).
Proof. reflexivity. Qed.

(** X1.  A mapping added with [add_mapping] for a username written in
    ASCII is found by [get_team] under any spelling of the username that
    differs in letter case only, and the team of every other username
    written in ASCII is as before. *)
Theorem add_mapping_get_team :
  forall (S : Type) (L : Logging S) (self : TeamMapper) (username team_name : string)
         (s : S),
    is_ascii username = true ->
    exists self' s',
      add_mapping self username team_name s = (Ok self', s') /\
      (forall u s1, u <> "" -> is_ascii u = true ->
         same_ignoring_case u username = true ->
         fst (get_team self' (Some u) s1) = Ok team_name) /\
      (forall u s1, is_ascii u = true -> same_ignoring_case u username = false ->
         fst (get_team self' (Some u) s1) = fst (get_team self (Some u) s1)) /\
      (forall s1, fst (get_team self' None s1) = fst (get_team self None s1)).
Proof.
  intros S L self username team_name s _. eexists _, _. split; [reflexivity|].
  split; [|split].
  - intros u s1 Hu _ Hlow%same_ignoring_case_lower.
    rewrite get_team_nonempty by done. cbn [username_to_team].
    rewrite Hlow. by rewrite lookup_insert_eq.
  - intros u s1 _ Hlow%not_same_ignoring_case_lower.
    destruct (decide (u = "")) as [->|Hu]; [done|].
    rewrite !get_team_nonempty by done. cbn [username_to_team default_team].
    by rewrite lookup_insert_ne.
  - done.
Qed.

Lemma add_mapping_get_team_witness :
  exists self' s',
    add_mapping (new_TeamMapper test_team_config) "Diana" "frontend" ([] : list LogRecord)
    = (Ok self', s') /\
    fst (get_team self' (Some "DIANA") ([] : list LogRecord)) = Ok "frontend" /\
    fst (get_team self' (Some "alice") ([] : list LogRecord)) = Ok "backend".
Proof.
  destruct (add_mapping_get_team _ _ (new_TeamMapper test_team_config) "Diana" "frontend"
              ([] : list LogRecord) eq_refl) as (self' & s' & Hrun & Hhit & Hother & _).
  exists self', s'. split; [exact Hrun|]. split.
  - apply Hhit; [discriminate|reflexivity|reflexivity].
  - rewrite Hother; reflexivity.
Defined.

(** X2.  Every team that [get_team] returns is one of [get_all_teams]. *)
Theorem get_team_in_all_teams :
  forall (S : Type) (L : Logging S) (self : TeamMapper) (username : option string)
         (s : S) (team : string),
    fst (get_team self username s) = Ok team -> team ∈ get_all_teams self.
Proof.
  intros S L self username s team. unfold get_all_teams.
  destruct username as [u|]; [destruct (decide (u = "")) as [->|Hu]|].
  - intros [= <-]. set_solver.
  - rewrite get_team_nonempty by done. intros [= <-].
    destruct (username_to_team self !! lower u) as [t|] eqn:Ht; simpl; [|set_solver].
    apply elem_of_union_l, elem_of_map_img. eauto.
  - intros [= <-]. set_solver.
Qed.

Lemma get_team_in_all_teams_witness :
  "backend" ∈ get_all_teams (new_TeamMapper test_team_config).
Proof.
  apply (get_team_in_all_teams _ _ (new_TeamMapper test_team_config) (Some "Alice")
           ([] : list LogRecord)).
  reflexivity.
Defined.

(** ** branch_detector.py *)

Section NeverRaises.
Context {S : Type}.

Lemma never_raises_ret {A} (a : A) : never_raises (ret a : M S A).
Proof. by intros s e. Qed.

Lemma never_raises_modify (f : S -> S) : never_raises (modify f).
Proof. by intros s e. Qed.

Lemma never_raises_gets {A} (f : S -> A) : never_raises (gets f).
Proof. by intros s e. Qed.

Lemma never_raises_bind {A B} (m : M S A) (k : A -> M S B) :
  never_raises m -> (forall a, never_raises (k a)) -> never_raises (bind m k).
Proof.
  intros Hm Hk s e. unfold bind. specialize (Hm s).
  destruct (m s) as [[a|e'|] s']; simpl in *; [apply Hk|by destruct (Hm e')|done].
Qed.

(** A handler that never raises makes the whole [try] never raise. *)
Lemma never_raises_try_except {A} (m : M S A) (h : exn -> M S A) :
  (forall e, never_raises (h e)) -> never_raises (try_except m h).
Proof.
  intros Hh s e. unfold try_except.
  destruct (m s) as [[a|e'|] s']; simpl; [done|apply Hh|done].
Qed.
End NeverRaises.

Ltac never_raises_step :=
  first
    [ apply never_raises_ret
    | apply never_raises_modify
    | apply never_raises_gets
    | apply never_raises_try_except; intros ?
    | apply never_raises_bind; [|intros ?] ].

Section BranchDetectorFacts.
Context {W : Type} {client : GitHubClient W}.

Lemma validate_branch_never_raises_aux owner repo branch :
  never_raises (validate_branch owner repo branch).
Proof. unfold validate_branch. repeat never_raises_step. Qed.

Lemma detect_default_branch_never_raises_aux owner repo :
  never_raises (detect_default_branch owner repo).
Proof.
  unfold detect_default_branch.
  apply never_raises_bind; [never_raises_step|intros cache].
  destruct (cache !! _); repeat never_raises_step.
Qed.

Lemma try_common_branches_never_raises owner repo detected branches :
  never_raises (try_common_branches owner repo detected branches).
Proof.
  induction branches as [|branch rest IH]; simpl; [never_raises_step|].
  destruct (String.eqb branch detected); [done|].
  apply never_raises_bind; [never_raises_step|intros _].
  apply never_raises_bind; [apply validate_branch_never_raises_aux|intros ok].
  destruct ok; [repeat never_raises_step|done].
Qed.

(** If the loop over the common names returns a name, the cache holds it
    for the repository. *)
Lemma try_common_branches_caches owner repo detected branches :
  forall (s s' : State W) b,
    try_common_branches owner repo detected branches s = (Ok (Some b), s') ->
    _branch_cache s' !! (owner +:+ "/" +:+ repo) = Some b.
Proof.
  induction branches as [|branch rest IH]; intros s s' b; simpl; [done|].
  destruct (String.eqb branch detected); [apply IH|].
  run_monad.
  destruct (validate_branch owner repo branch _) as [[[|]|e|] s1] eqn:Hv;
    try done.
  - intros [= <- <-]. unfold set_branch_cache. simpl. apply lookup_insert_eq.
  - apply IH.
Qed.
End BranchDetectorFacts.

(** X4.  [validate_branch] never raises and leaves the branch cache as it
    is: it returns [True] when the listing of the branch (one commit per
    page) returns at least one commit, and [False] when the listing is
    empty or raises. *)
Theorem validate_branch_swallows_errors :
  forall (W : Type) (client : GitHubClient W) (owner repo branch : string) (s : State W),
    let run := validate_branch owner repo branch s in
    (forall e, fst run <> Raise e) /\
    _branch_cache (snd run) = _branch_cache s /\
    (forall commits w',
       get_commits owner repo branch None None None 1 (world s) = (Ok commits, w') ->
       fst run = Ok (bool_decide (commits <> [])) /\ world (snd run) = w') /\
    (forall e w',
       get_commits owner repo branch None None None 1 (world s) = (Raise e, w') ->
       fst run = Ok false /\ world (snd run) = w').
Proof.
  intros W client owner repo branch s run. subst run.
  split; [apply validate_branch_never_raises_aux|].
  split; [apply validate_branch_keeps_cache|].
  unfold validate_branch, call. run_monad.
  split.
  - intros commits w' ->. simpl. split; [|done]. by destruct commits.
  - by intros e w' ->.
Qed.

Lemma validate_branch_swallows_errors_witness :
  fst (validate_branch (client := mock_client (repo_with_branches None ["main"]))
         "o" "r" "gone" (initial_state [])) = Ok false.
Proof.
  destruct (validate_branch_swallows_errors _
              (mock_client (repo_with_branches None ["main"])) "o" "r" "gone"
              (initial_state [])) as (_ & _ & _ & Hraise).
  apply (Hraise (HTTPError 404) [MCommits "o" "r" "gone"]). reflexivity.
Defined.

(** X5.  [clear_cache] makes the detector forget: the next
    [detect_default_branch] asks the client again and returns what the
    metadata declare, whatever branch was cached before. *)
Theorem clear_cache_forgets :
  forall (W : Type) (client : GitHubClient W) (owner repo : string) (s : State W)
         (info : RepoInfo) (w' : W),
    get_repository_info owner repo (world s) = (Ok info, w') ->
    let s1 := snd (clear_cache s) in
    _branch_cache s1 = ∅ /\
    world s1 = world s /\
    fst (detect_default_branch owner repo s1) = Ok (default "main" (default_branch info)) /\
    world (snd (detect_default_branch owner repo s1)) = w'.
Proof.
  intros W client owner repo s info w' Hinfo s1. subst s1.
  split; [done|]. split; [done|].
  unfold detect_default_branch, clear_cache, set_branch_cache, call. run_monad.
  cbn [world _branch_cache log log_record State_Logging snd fst].
  rewrite lookup_empty. cbn [world]. by rewrite Hinfo.
Qed.

Lemma clear_cache_forgets_witness :
  let client := mock_client (repo_with_branches (Some "develop") ["develop"]) in
  let s := snd (get_branch_with_fallback "o" "r" (Some "develop") (initial_state [])) in
  let s1 := snd (clear_cache s) in
  fst (detect_default_branch "o" "r" s1) = Ok "develop" /\
  world (snd (detect_default_branch "o" "r" s1)) = (world s ++ [MInfo "o" "r"])%list.
Proof.
  intros client s s1.
  destruct (clear_cache_forgets _ client "o" "r" s
              {| default_branch := Some "develop"; html_url := None |}
              (world s ++ [MInfo "o" "r"])%list eq_refl) as (_ & _ & Hres & Hworld).
  split; [exact Hres|exact Hworld].
Defined.

(** X6.  [get_branch_with_fallback] never raises: whatever the client
    does, a failure of validation or detection is no exception of the
    caller. *)
Theorem get_branch_with_fallback_never_raises :
  forall (W : Type) (client : GitHubClient W) (owner repo : string)
         (preferred : option string) (s : State W) (e : exn),
    fst (get_branch_with_fallback owner repo preferred s) <> Raise e.
Proof.
  intros W client owner repo preferred s e. revert s e.
  change (never_raises (get_branch_with_fallback owner repo preferred)).
  unfold get_branch_with_fallback. apply never_raises_bind.
  - destruct preferred as [p|]; [|never_raises_step].
    destruct (str_truthy p); [|never_raises_step].
    apply never_raises_bind; [never_raises_step|intros _].
    apply never_raises_bind; [apply validate_branch_never_raises_aux|intros ok].
    destruct ok; repeat never_raises_step.
  - intros [b|]; [never_raises_step|].
    apply never_raises_bind; [never_raises_step|intros _].
    apply never_raises_bind; [apply detect_default_branch_never_raises_aux|intros d].
    apply never_raises_bind; [apply validate_branch_never_raises_aux|intros ok].
    destruct ok; [repeat never_raises_step|].
    apply never_raises_bind; [apply try_common_branches_never_raises|intros found].
    destruct found; repeat never_raises_step.
Qed.

(** X7.  A branch found among the common names is cached: when neither
    the preferred branch nor the detected default validates and a common
    name does, [get_branch_with_fallback] returns that name and stores it
    in the cache, so that a later [detect_default_branch] returns it in
    place of the branch the metadata declare. *)
Theorem get_branch_with_fallback_caches_candidate :
  forall (W : Type) (client : GitHubClient W) (owner repo : string)
         (valid : string -> bool) (preferred : option string) (detected : string)
         (s : State W) (candidate : string),
    (forall branch s', fst (validate_branch owner repo branch s') = Ok (valid branch)) ->
    (forall s', _branch_cache s' = _branch_cache s ->
                fst (detect_default_branch owner repo s') = Ok detected) ->
    match preferred with Some p => str_truthy p && valid p | None => false end = false ->
    valid detected = false ->
    List.find (fun c => negb (String.eqb c detected) && valid c) common_branches
    = Some candidate ->
    let run := get_branch_with_fallback owner repo preferred s in
    fst run = Ok candidate /\
    _branch_cache (snd run) !! (owner +:+ "/" +:+ repo) = Some candidate /\
    fst (detect_default_branch owner repo (snd run)) = Ok candidate /\
    world (snd (detect_default_branch owner repo (snd run))) = world (snd run).
Proof.
  intros W client owner repo valid preferred detected s candidate
    Hvalid Hdetect Hpref Hdet Hfind run.
  assert (exists s1 : State W,
            run = (let* found := try_common_branches owner repo detected common_branches in
                   match found with
                   | Some branch => ret branch
                   | None =>
                       logger_warning
                         "Could not find valid branch for {owner}/{repo}, using 'main'";;
                       ret "main"
                   end) s1) as (s1 & Hrun).
  { assert (forall s0 : State W, _branch_cache s0 = _branch_cache s ->
        exists s1 : State W,
          (logger_debug "Detecting default branch for {owner}/{repo}";;
           let* default_branch := detect_default_branch owner repo in
           let* ok := validate_branch owner repo default_branch in
           if ok then
             logger_info "Using default branch '{default_branch}' for {owner}/{repo}";;
             ret default_branch
           else
             let* found := try_common_branches owner repo default_branch common_branches in
             match found with
             | Some branch => ret branch
             | None =>
                 logger_warning
                   "Could not find valid branch for {owner}/{repo}, using 'main'";;
                 ret "main"
             end) s0
          = (let* found := try_common_branches owner repo detected common_branches in
             match found with
             | Some branch => ret branch
             | None =>
                 logger_warning
                   "Could not find valid branch for {owner}/{repo}, using 'main'";;
                 ret "main"
             end) s1) as Htail.
    { intros s0 Hs0.
      pose proof (Hdetect (log_record
        (DEBUG, "Detecting default branch for {owner}/{repo}") s0) Hs0) as Hd.
      apply run_fst in Hd as [s2 Hd].
      destruct (validate_branch_run owner repo valid Hvalid detected s2) as (s3 & Hv & _).
      exists s3. run_monad. rewrite Hd, Hv, Hdet. reflexivity. }
    subst run. unfold get_branch_with_fallback.
    destruct preferred as [p|]; [destruct (str_truthy p) eqn:Hp|].
    - simpl in Hpref.
      destruct (validate_branch_run owner repo valid Hvalid p (log_record
        (DEBUG, "Trying preferred branch: {preferred_branch}") s)) as (s0 & Hv & Hc0).
      rewrite Hpref in Hv.
      rewrite (bind_ok _ _ s
        (log_record (WARNING, "Preferred branch '{preferred_branch}' not found for {owner}/{repo}") s0)
        None); [|run_monad; by rewrite Hv].
      apply Htail. simpl. by rewrite Hc0.
    - rewrite (bind_ok _ _ s s None); [by apply Htail|reflexivity].
    - rewrite (bind_ok _ _ s s None); [by apply Htail|reflexivity]. }
  pose proof (try_common_branches_find owner repo valid Hvalid detected common_branches s1)
    as Hcommon.
  rewrite Hfind in Hcommon. apply run_fst in Hcommon as [s2 Hcommon].
  assert (run = (Ok candidate, s2)) as ->.
  { rewrite Hrun. by rewrite (bind_ok _ _ _ _ _ Hcommon). }
  pose proof (try_common_branches_caches owner repo detected common_branches _ _ _ Hcommon)
    as Hcache.
  split; [done|]. split; [done|].
  destruct (detect_default_branch_cached owner repo s2 candidate Hcache) as (? & ? & _).
  done.
Qed.

Lemma get_branch_with_fallback_caches_candidate_witness :
  let client := mock_client (repo_with_branches (Some "dev") ["master"; "trunk"]) in
  let run := get_branch_with_fallback "o" "r" (Some "topic") (initial_state []) in
  fst run = Ok "master" /\
  _branch_cache (snd run) !! "o/r" = Some "master" /\
  fst (detect_default_branch "o" "r" (snd run)) = Ok "master" /\
  world (snd (detect_default_branch "o" "r" (snd run))) = world (snd run).
Proof.
  intros client.
  apply (get_branch_with_fallback_caches_candidate _ client "o" "r"
           (fun b => bool_decide (b ∈ ["master"; "trunk"])) (Some "topic") "dev").
  - intros branch s'. unfold validate_branch, call. run_monad. simpl.
    by destruct (bool_decide _).
  - intros s' Hs'. unfold detect_default_branch. run_monad. rewrite Hs'. simpl.
    by rewrite lookup_empty.
  - reflexivity.
  - reflexivity.
  - reflexivity.
Defined.

(** ** github_client.py *)

Section Retrying.
Context (env : HttpEnv).

Lemma make_request_body_raises (k : DocKind) (self : GitHubAPIClient) endpoint params
    (w : HttpWorld) :
  fst (github_client._make_request_body env k self endpoint params w) <> Diverge /\
  forall e, fst (github_client._make_request_body env k self endpoint params w) = Raise e ->
            retried e = true.
Proof.
  unfold github_client._make_request_body, github_client.session_get,
    github_client.raise_for_status, github_client.response_json. run_monad.
  pose proof (check_rate_limit_never_raises env self w) as Hok.
  destruct (github_client._check_rate_limit env self w) as [r w1].
  simpl in Hok. subst r.
  destruct (http_get env k (trace w1) _) as [[|]|response]; simpl.
  - split; [done|]. by intros e [= <-].
  - split; [done|]. by intros e [= <-].
  - destruct ((status_code response =? 403) && _); simpl.
    { split; [done|]. by intros e [= <-]. }
    destruct ((400 <=? status_code response) && _); simpl.
    { split; [done|]. by intros e [= <-]. }
    destruct (json response); simpl; split; try done. by intros e [= <-].
Qed.

Lemma retrying_raises {A} (wait : nat -> Z) (retry_if : exn -> bool)
    (fn : M HttpWorld A) :
  (forall w, fst (fn w) <> Diverge /\ forall e, fst (fn w) = Raise e -> retry_if e = true) ->
  forall left attempt_number w,
    fst (github_client.retrying left attempt_number wait retry_if fn w) <> Diverge /\
    forall e,
      fst (github_client.retrying left attempt_number wait retry_if fn w) = Raise e ->
      exists last, e = RetryError last /\ retry_if last = true.
Proof.
  intros Hfn. induction left as [|left IH]; intros attempt_number w;
    cbn [github_client.retrying]; destruct (Hfn w) as [Hdiv Hraise];
    destruct (fn w) as [[a|e|] w1]; simpl in *; try done.
  - rewrite (Hraise e eq_refl). simpl. split; [done|]. intros e' [= <-]. eauto.
  - rewrite (Hraise e eq_refl). apply IH.
Qed.

(** The body of one attempt adds two requests to the trace: that of the
    rate-limit check and its own. *)
Lemma make_request_body_requests (k : DocKind) (self : GitHubAPIClient) endpoint params
    (w : HttpWorld) :
  exists evs,
    trace (snd (github_client._make_request_body env k self endpoint params w))
    = (trace w ++ evs)%list /\
    requests_in evs = 2%nat.
Proof.
  rewrite make_request_body_trace.
  destruct (rate_limit_status env self w) as [core|] eqn:Hs.
  - apply check_rate_limit_readable in Hs as [_ ->].
    eexists. rewrite <- app_assoc. split; [reflexivity|].
    unfold requests_in. rewrite List.filter_app, length_app. simpl.
    destruct (remaining core <=? _), (fromtimestamp_accepts env _); cbn [andb];
      try reflexivity;
      destruct (Qlt_le_dec _ _); [destruct (sleep_accepts env _)|]; reflexivity.
  - apply check_rate_limit_unreadable in Hs as [_ ->].
    eexists. rewrite <- app_assoc. split; [reflexivity|]. reflexivity.
Qed.

Lemma retrying_requests {A} (wait : nat -> Z) (retry_if : exn -> bool)
    (fn : M HttpWorld A) :
  (forall w, exists evs, trace (snd (fn w)) = (trace w ++ evs)%list /\
                         requests_in evs = 2%nat) ->
  forall left attempt_number w,
  exists evs n,
    trace (snd (github_client.retrying left attempt_number wait retry_if fn w))
    = (trace w ++ evs)%list /\
    requests_in evs = (2 * n)%nat /\ (1 <= n <= S left)%nat.
Proof.
  intros Hfn. induction left as [|left IH]; intros attempt_number w;
    cbn [github_client.retrying]; destruct (Hfn w) as (evs & Htr & Hreq);
    destruct (fn w) as [[a|e|] w1]; simpl in *;
    try (exists evs, 1%nat; split; [done|split; [done|lia]]).
  - destruct (retry_if e); exists evs, 1%nat; (split; [done|split; [done|lia]]).
  - destruct (retry_if e); [|exists evs, 1%nat; split; [done|split; [done|lia]]].
    unfold bind, github_client.time_sleep, modify.
    destruct (IH (S attempt_number)
                {| trace := (trace w1 ++ [EvSleep (inject_Z (wait attempt_number))])%list;
                   http_log := http_log w1 |}) as (evs' & n & Htr' & Hreq' & Hn).
    exists (evs ++ EvSleep (inject_Z (wait attempt_number)) :: evs')%list, (S n).
    split; [|split; [|lia]].
    + rewrite Htr'. simpl. rewrite Htr. by rewrite <- !app_assoc.
    + unfold requests_in in *. rewrite List.filter_app, length_app. simpl.
      rewrite Hreq, Hreq'. lia.
Qed.
End Retrying.

(** X8.  [_make_request] always ends, and when it fails the exception is a
    [RetryError] around a request error or a rate-limit error: never the
    [HTTPError] or other request exception itself, so that a handler for
    [HTTPError] around a call of [_make_request] cannot fire. *)
Theorem make_request_raises_only_RetryError :
  forall (env : HttpEnv) (k : DocKind) (self : GitHubAPIClient) (endpoint : string)
         (params : option (gmap string pval)) (w : HttpWorld),
    let run := github_client._make_request env k self endpoint params w in
    fst run <> Diverge /\
    forall e, fst run = Raise e ->
      is_RequestException e = false /\
      exists last, e = RetryError last /\ retried last = true.
Proof.
  intros env k self endpoint params w run. subst run.
  unfold github_client._make_request, github_client.retry.
  destruct (retrying_raises (wait_exponential 1 2 10) retried
              (github_client._make_request_body env k self endpoint params)
              (make_request_body_raises env k self endpoint params)
              (3 - 1)%nat 1%nat w) as [Hdiv Hraise].
  split; [exact Hdiv|]. intros e He.
  destruct (Hraise e He) as (last & -> & Hlast). split; [done|eauto].
Qed.

Lemma make_request_raises_only_RetryError_witness :
  is_RequestException (RetryError ConnectionError) = false /\
  exists last, RetryError ConnectionError = RetryError last /\ retried last = true.
Proof.
  apply (make_request_raises_only_RetryError failing_env KRepo (test_client 3 10)
           "repos/o/r" None empty_world).
  vm_compute. reflexivity.
Defined.

(** X9.  Whatever the provider does and whatever [max_retries] is, one
    call of [_make_request] makes one, two or three attempts, each of them
    a rate-limit request followed by the request itself: it adds two, four
    or six requests to the trace. *)
Theorem make_request_at_most_three_attempts :
  forall (env : HttpEnv) (k : DocKind) (self : GitHubAPIClient) (endpoint : string)
         (params : option (gmap string pval)) (w : HttpWorld),
  exists evs n,
    trace (snd (github_client._make_request env k self endpoint params w))
    = (trace w ++ evs)%list /\
    requests_in evs = (2 * n)%nat /\ (1 <= n <= 3)%nat.
Proof.
  intros env k self endpoint params w.
  unfold github_client._make_request, github_client.retry.
  apply (retrying_requests (wait_exponential 1 2 10) _
           (github_client._make_request_body env k self endpoint params)
           (make_request_body_requests env k self endpoint params) (3 - 1)%nat 1%nat w).
Qed.

(** X10.  [test_connection] never raises and sends exactly one request,
    [GET /user], with no rate-limit check and no retry; it returns [True]
    exactly when that request is answered with a status that is no error
    and a body that is a JSON object. *)
Theorem test_connection_one_request :
  forall (env : HttpEnv) (self : GitHubAPIClient) (w : HttpWorld),
    let run := github_client.test_connection env self w in
    let request := {| url := api_url self +:+ "/user"; params := None |} in
    exists ok,
      fst run = Ok ok /\
      trace (snd run) = (trace w ++ [EvGet request])%list /\
      (ok = true <->
       exists response user_data,
         http_get env KUser (trace w) request = inr response /\
         (400 <=? status_code response) && (status_code response <? 600) = false /\
         json response = Some (UserObject user_data)).
Proof.
  intros env self w run request. subst run request.
  unfold github_client.test_connection, github_client.session_get,
    github_client.raise_for_status, github_client.response_json.
  run_monad.
  destruct (http_get env KUser (trace w) _) as [e|response]; cbn [doc] in *.
  - exists false. split; [done|]. split; [done|]. split; [done|].
    by intros (? & ? & ? & _).
  - destruct ((400 <=? status_code response) && _) eqn:Hstatus.
    + exists false. split; [done|]. split; [done|]. split; [done|].
      intros (r & d & [= <-] & Hs & _). congruence.
    + destruct (json response) as [[d|]|] eqn:Hjson.
      * exists true. split; [done|]. split; [done|]. split; [|done]. eauto.
      * exists false. split; [done|]. split; [done|]. split; [done|].
        intros (r & d & [= <-] & _ & Hj). congruence.
      * exists false. split; [done|]. split; [done|]. split; [done|].
        intros (r & d & [= <-] & _ & Hj). congruence.
Qed.

(** An answer 200 whose body is JSON but no object: the test fails. *)
Example test_connection_body_not_an_object :
  let env :=
    {| http_get := fun k _ _ =>
         match k return TransportError + Response (doc k) with
         | KUser => inr {| status_code := 200; text := "[]";
                           json := Some UserNotAnObject |}
         | _ => inl TConnectionError
         end;
       time_time := fun _ => 0%Q;
     float_of := fun q => q;
     fromtimestamp_accepts := fun t => (0 <=? t) && (t <=? 253402300799);
     sleep_accepts := fun q => Qle_bool q 9223372036 |} in
  fst (github_client.test_connection env (test_client 3 10) empty_world) = Ok false.
Proof. reflexivity. Qed.

(** X11.  [GitHubAPIClient.__init__] sends nothing and stores the API URL
    without its trailing slashes: the stored URL does not end with a slash,
    and the URL given is the stored one followed by slashes only. *)
Theorem init_strips_trailing_slashes :
  forall (token base : string) (timeout_s retries buffer : Z)
         (w : HttpWorld),
  exists self w',
    github_client.init token base timeout_s retries buffer w
    = (Ok self, w') /\
    trace w' = trace w /\
    (forall p, api_url self <> p +:+ "/") /\
    (exists n, base = api_url self +:+ repeat_char "/" n) /\
    retries = max_retries self /\
    buffer = rate_limit_buffer self.
Proof.
  intros token base timeout_s retries buffer w.
  eexists _, _. split; [reflexivity|]. split; [done|]. simpl. split; [|split; [|done]].
  - induction base as [|a r IH]; intros p; simpl.
    + by destruct p as [|? [|? ?]].
    + destruct (rstrip "/" r) as [|b r'] eqn:Hr.
      * destruct (Ascii.eqb_spec a "/") as [->|Hne].
        -- by destruct p as [|? [|? ?]].
        -- intros Heq. destruct p as [|c [|? ?]]; inversion Heq; congruence.
      * destruct p as [|c p]; simpl; [discriminate|].
        intros [= <- Hp]. by apply (IH p).
  - induction base as [|a r [n IH]]; simpl; [by exists 0%nat|].
    destruct (rstrip "/" r) as [|b r'] eqn:Hr.
    + change (r = repeat_char "/" n) in IH.
      destruct (Ascii.eqb_spec a "/") as [->|Hne].
      * exists (S n). change (String "/" r = String "/" (repeat_char "/" n)). by rewrite IH.
      * exists n. change (String a r = String a (repeat_char "/" n)). by rewrite IH.
    + exists n. change (String a r = String a (String b r' +:+ repeat_char "/" n)).
      by rewrite <- IH.
Qed.

(** The waiting time between two attempts lies between the bounds
    of [wait_exponential] and never shrinks from one attempt to the next;
    for the decorator of [_make_request] it is between 2 and 10 seconds. *)
Theorem wait_exponential_bounds :
  forall (multiplier min max : Z) (n n' : nat),
    0 <= min <= max ->
    0 <= multiplier ->
    (n <= n')%nat ->
    min <= wait_exponential multiplier min max n <= max /\
    wait_exponential multiplier min max n <= wait_exponential multiplier min max n'.
Proof.
  intros multiplier min max n n' Hbounds Hmult Hn. unfold wait_exponential.
  split; [lia|].
  assert (2 ^ (Z.of_nat n - 1) <= 2 ^ (Z.of_nat n' - 1)) as Hpow.
  { destruct n as [|n].
    - simpl. change (2 ^ (-1)) with 0. apply Z.pow_nonneg. lia.
    - apply Z.pow_le_mono_r; lia. }
  assert (multiplier * 2 ^ (Z.of_nat n - 1) <= multiplier * 2 ^ (Z.of_nat n' - 1))
    by (apply Z.mul_le_mono_nonneg_l; lia).
  lia.
Qed.

Lemma wait_exponential_bounds_witness :
  2 <= wait_exponential 1 2 10 1 <= 10 /\
  wait_exponential 1 2 10 1 <= wait_exponential 1 2 10 5.
Proof. apply wait_exponential_bounds; lia. Defined.

(** ** data_collector.py: repository URLs *)

Section StringFacts.

Lemma all_chars_app p (x y : string) :
  all_chars p (x +:+ y) = all_chars p x && all_chars p y.
Proof.
  induction x as [|a x IH]; [done|].
  change (String a x +:+ y) with (String a (x +:+ y)). simpl.
  by rewrite IH, andb_assoc.
Qed.

Lemma all_chars_weaken (p q : ascii -> bool) (s : string) :
  (forall a, p a = true -> q a = true) ->
  all_chars p s = true -> all_chars q s = true.
Proof.
  intros Hpq. induction s as [|a s IH]; [done|]. simpl.
  rewrite !andb_true_iff. intros [Ha Hs]. auto.
Qed.

Lemma lstrip_space_id (s : string) :
  all_chars (fun a => negb (is_space a)) s = true -> lstrip_space s = s.
Proof.
  destruct s as [|a s]; [done|]. simpl. by destruct (is_space a).
Qed.

Lemma rstrip_space_id (s : string) :
  all_chars (fun a => negb (is_space a)) s = true -> rstrip_space s = s.
Proof.
  induction s as [|a s IH]; [done|]. simpl.
  rewrite andb_true_iff. intros [Ha Hs]. rewrite (IH Hs).
  destruct s; [|done]. by destruct (is_space a).
Qed.

Lemma strip_id (s : string) :
  all_chars (fun a => negb (is_space a)) s = true -> strip s = s.
Proof.
  intros Hs. unfold strip. rewrite (lstrip_space_id s Hs). by apply rstrip_space_id.
Qed.

Lemma rstrip_id (c : ascii) (s : string) :
  all_chars (fun a => negb (Ascii.eqb a c)) s = true -> rstrip c s = s.
Proof.
  induction s as [|a s IH]; [done|]. simpl.
  rewrite andb_true_iff. intros [Ha Hs]. rewrite (IH Hs).
  destruct s; [|done]. by destruct (Ascii.eqb a c).
Qed.

Lemma rstrip_app_id (c : ascii) (x y : string) :
  y <> "" ->
  rstrip c y = y ->
  rstrip c (x +:+ y) = x +:+ y.
Proof.
  intros Hy Hc. induction x as [|a x IH]; [done|].
  change (String a x +:+ y) with (String a (x +:+ y)). simpl. rewrite IH.
  destruct (x +:+ y) eqn:Hxy; [|done].
  destruct x; [|done]. by destruct Hy.
Qed.

Lemma rstrip_snoc (c : ascii) (x : string) :
  rstrip c (x +:+ String c "") = rstrip c x.
Proof.
  induction x as [|a x IH].
  - change (rstrip c (String c "") = ""). simpl. by rewrite Ascii.eqb_refl.
  - change (String a x +:+ String c "") with (String a (x +:+ String c "")).
    simpl. by rewrite IH.
Qed.

Lemma str_contains_char (c : ascii) (x y : string) :
  str_contains (String c "") (x +:+ String c y) = true.
Proof.
  induction x as [|a x IH].
  - change (str_contains (String c "") (String c y) = true).
    simpl. destruct (ascii_dec c c); [|done]. by destruct y.
  - change (String a x +:+ String c y) with (String a (x +:+ String c y)).
    cbn [str_contains]. rewrite IH. by destruct (String.prefix _ _).
Qed.

Lemma split_id (c : ascii) (s : string) :
  all_chars (fun a => negb (Ascii.eqb a c)) s = true -> split c s = [s].
Proof.
  induction s as [|a s IH]; [done|]. simpl.
  rewrite andb_true_iff. intros [Ha Hs]. rewrite (IH Hs).
  by destruct (Ascii.eqb a c).
Qed.

Lemma split_app (c : ascii) (x y : string) :
  all_chars (fun a => negb (Ascii.eqb a c)) x = true ->
  split c (x +:+ String c y) = x :: split c y.
Proof.
  induction x as [|a x IH].
  - intros _. change (split c (String c y) = "" :: split c y).
    simpl. by rewrite Ascii.eqb_refl.
  - change (String a x +:+ String c y) with (String a (x +:+ String c y)). simpl.
    rewrite andb_true_iff. intros [Ha Hx]. rewrite (IH Hx).
    by destruct (Ascii.eqb a c).
Qed.

Lemma remove_all_id (old s : string) :
  str_contains old s = false -> remove_all old 0 s = s.
Proof.
  induction s as [|a s IH]; [done|]. cbn [str_contains remove_all].
  destruct (String.prefix old (String a s)); [done|]. intros Hs. by rewrite IH.
Qed.

Lemma prefix_app_char (p x y : string) (c : ascii) :
  all_chars (fun a => negb (Ascii.eqb a c)) p = true ->
  String.prefix p (x +:+ String c y) = String.prefix p x.
Proof.
  revert x. induction p as [|a p IH]; intros x; [by destruct x|].
  cbn [all_chars]. rewrite andb_true_iff. intros [Ha Hp].
  destruct x as [|b x].
  - change (String.prefix (String a p) (String c y) = false). cbn [String.prefix].
    destruct (ascii_dec a c) as [->|]; [|done]. by rewrite Ascii.eqb_refl in Ha.
  - change (String b x +:+ String c y) with (String b (x +:+ String c y)).
    cbn [String.prefix]. destruct (ascii_dec a b); [by apply IH|done].
Qed.
End StringFacts.

(** X16.  The short form [owner/repo] is read back as it was written:
    when neither name holds a slash or white space, the owner does not
    start with [http] and the repository name is not empty and holds no
    [.git], [parse_repo_url] returns the two names and touches nothing; a
    slash at the end of the URL changes nothing. *)
Theorem parse_repo_url_shorthand :
  forall (W : Type) (host : Host W) (owner repo : string) (s : State W),
    all_chars name_char owner = true ->
    all_chars name_char repo = true ->
    repo <> "" ->
    str_contains ".git" repo = false ->
    String.prefix "http" owner = false ->
    parse_repo_url (Some (owner +:+ "/" +:+ repo)) s = (Ok (owner, repo), s) /\
    parse_repo_url (Some ((owner +:+ "/" +:+ repo) +:+ "/")) s = (Ok (owner, repo), s).
Proof.
  intros W host owner repo s Howner Hrepo Hne Hgit Hhttp.
  assert (all_chars (fun a => negb (is_space a)) (owner +:+ "/" +:+ repo) = true) as Hsp.
  { rewrite all_chars_app. apply andb_true_iff. split.
    - revert Howner. apply all_chars_weaken. intros a. unfold name_char.
      by rewrite !andb_true_iff; intros (_ & ? & _).
    - change (all_chars (fun a => negb (is_space a)) repo = true).
      revert Hrepo. apply all_chars_weaken. intros a. unfold name_char.
      by rewrite !andb_true_iff; intros (_ & ? & _). }
  assert (all_chars (fun a => negb (Ascii.eqb a "/")) owner = true) as Hso.
  { revert Howner. apply all_chars_weaken. intros a. unfold name_char.
    by rewrite !andb_true_iff; intros (_ & _ & ?). }
  assert (all_chars (fun a => negb (Ascii.eqb a "/")) repo = true) as Hsr.
  { revert Hrepo. apply all_chars_weaken. intros a. unfold name_char.
    by rewrite !andb_true_iff; intros (_ & _ & ?). }
  assert (forall url, rstrip "/" (strip url) = owner +:+ "/" +:+ repo ->
            parse_repo_url (Some url) s = (Ok (owner, repo), s)) as Hparse.
  { intros url Hurl. unfold parse_repo_url. rewrite Hurl.
    change (owner +:+ "/" +:+ repo) with (owner +:+ String "/" repo).
    rewrite prefix_app_char by done. rewrite Hhttp, str_contains_char.
    run_monad. rewrite split_app, split_id by done. simpl.
    by rewrite remove_all_id. }
  assert (rstrip "/" (owner +:+ "/" +:+ repo) = owner +:+ "/" +:+ repo) as Hrs.
  { apply rstrip_app_id; [done|]. apply (rstrip_app_id "/" "/" repo Hne).
    by apply rstrip_id. }
  split; apply Hparse.
  - by rewrite strip_id.
  - rewrite strip_id; [by rewrite rstrip_snoc|].
    rewrite all_chars_app, Hsp. reflexivity.
Qed.

Lemma parse_repo_url_shorthand_witness :
  parse_repo_url (host := test_host) (Some "octocat/hello-world") (initial_state [] : State (list MockCall))
  = (Ok ("octocat", "hello-world"), initial_state []) /\
  parse_repo_url (host := test_host) (Some "octocat/hello-world/") (initial_state [] : State (list MockCall))
  = (Ok ("octocat", "hello-world"), initial_state []).
Proof.
  apply (parse_repo_url_shorthand _ test_host "octocat" "hello-world" (initial_state []));
    try reflexivity.
  discriminate.
Defined.

(** ** commit_processor.py *)

Section FilterFacts.
Context {W : Type}.

Lemma filter_filter_and {A} (f g : A -> bool) (l : list A) :
  List.filter g (List.filter f l) = List.filter (fun x => f x && g x) l.
Proof.
  induction l as [|x l IH]; [done|]. simpl.
  destruct (f x); simpl; [destruct (g x)|]; by rewrite IH.
Qed.

Lemma filter_true {A} (l : list A) : List.filter (fun _ => true) l = l.
Proof. induction l as [|x l IH]; [done|]. simpl. by rewrite IH. Qed.

Lemma filter_sublist {A} (f : A -> bool) (l : list A) : sublist (List.filter f l) l.
Proof.
  induction l as [|x l IH]; [constructor|]. simpl.
  destruct (f x); by constructor.
Qed.

(** A comprehension whose test is pure on the elements of the list is a
    filter. *)
Lemma comprehension_if_filter {S A} (test : A -> M S bool) (f : A -> bool) (l : list A)
    (s : S) :
  (forall x, x ∈ l -> test x s = (Ok (f x), s)) ->
  comprehension_if test l s = (Ok (List.filter f l), s).
Proof.
  induction l as [|x l IH]; intros Htest; [done|]. cbn [comprehension_if].
  rewrite (bind_ok _ _ s s (f x)) by (apply Htest; left).
  rewrite (bind_ok _ _ s s (List.filter f l)) by (apply IH; intros y Hy; apply Htest; by right).
  simpl. by destruct (f x).
Qed.

(** A comprehension whose test raises on an element, and is pure or raises
    the same on the others, raises. *)
Lemma comprehension_if_raises {S A} (test : A -> M S bool) (e : exn) (l : list A)
    (x : A) (s : S) :
  (forall y, fst (test y s) = Raise e \/ exists b, test y s = (Ok b, s)) ->
  x ∈ l -> fst (test x s) = Raise e ->
  fst (comprehension_if test l s) = Raise e.
Proof.
  intros Htest Hx Hraise. induction l as [|y l IH]; [by apply elem_of_nil in Hx|].
  cbn [comprehension_if]. unfold bind at 1.
  destruct (Htest y) as [Hy|[b Hy]].
  - destruct (test y s) as [[?|?|] ?]; simpl in *; congruence.
  - rewrite Hy. apply elem_of_cons in Hx as [->|Hx]; [rewrite Hy in Hraise; done|].
    specialize (IH Hx). unfold bind.
    destruct (comprehension_if test l s) as [[?|?|] ?]; simpl in *; congruence.
Qed.

Lemma datetime_cmp_comparable (aware : datetime -> bool) op a b (s : State W) :
  aware a = aware b -> datetime_cmp aware op a b s = (Ok (op a b), s).
Proof. intros Hab. unfold datetime_cmp. rewrite Hab. by destruct (aware b). Qed.

Lemma filter_commits_value aware (self : CommitProcessor) commits date_from date_to
    authors teams (s : State W) :
  comparable aware date_from date_to commits ->
  fst (filter_commits aware self commits date_from date_to authors teams s)
  = Ok (List.filter (keeps date_from date_to authors teams) commits) /\
  world (snd (filter_commits aware self commits date_from date_to authors teams s))
  = world s.
Proof.
  intros Hcmp. unfold filter_commits, keeps.
  rewrite <- !filter_filter_and.
  set (after := List.filter (fun c => match date_from with
                                      | Some d => d <=? commit_date c | None => true end)
                  commits).
  set (before := List.filter (fun c => match date_to with
                                       | Some d => commit_date c <=? d | None => true end)
                   after).
  assert (forall c, c ∈ after -> c ∈ commits) as Hafter.
  { intros c. unfold after. rewrite !list_elem_of_In, List.filter_In. tauto. }
  assert (forall s0 : State W,
            match date_from with
            | Some d =>
                comprehension_if (fun c => datetime_cmp aware Z.geb (commit_date c) d)
                  commits s0 = (Ok after, s0)
            | None => after = commits
            end) as Hfrom.
  { intros s0. unfold after. destruct date_from as [d|]; [|by rewrite filter_true].
    apply comprehension_if_filter. intros c Hc.
    rewrite datetime_cmp_comparable by (apply Hcmp; auto). by rewrite Z.geb_leb. }
  assert (forall s0 : State W,
            match date_to with
            | Some d =>
                comprehension_if (fun c => datetime_cmp aware Z.leb (commit_date c) d)
                  after s0 = (Ok before, s0)
            | None => before = after
            end) as Hto.
  { intros s0. unfold before. destruct date_to as [d|]; [|by rewrite filter_true].
    apply comprehension_if_filter. intros c Hc.
    by rewrite datetime_cmp_comparable by (apply Hcmp; auto). }
  clearbody after before.
  assert (exists s1 : State W,
            world s1 = world s /\
            match date_from with
            | Some date_from =>
                let* filtered :=
                  comprehension_if
                    (fun c => datetime_cmp aware Z.geb (commit_date c) date_from) commits in
                logger_debug
                  "Filtered to commits after {date_from}: {len(filtered)} remaining";;
                ret filtered
            | None => ret commits
            end s = (Ok after, s1)) as (s1 & Hw1 & H1).
  { destruct date_from as [d1|]; run_monad.
    - rewrite Hfrom. eexists. split; [|reflexivity]. done.
    - pose proof (Hfrom s) as <-. by exists s. }
  assert (exists s2 : State W,
            world s2 = world s1 /\
            match date_to with
            | Some date_to =>
                let* filtered :=
                  comprehension_if
                    (fun c => datetime_cmp aware Z.leb (commit_date c) date_to) after in
                logger_debug
                  "Filtered to commits before {date_to}: {len(filtered)} remaining";;
                ret filtered
            | None => ret after
            end s1 = (Ok before, s2)) as (s2 & Hw2 & H2).
  { destruct date_to as [d2|]; run_monad.
    - rewrite Hto. eexists. split; [|reflexivity]. done.
    - pose proof (Hto s) as <-. by exists s1. }
  rewrite (bind_ok _ _ s s1 after H1), (bind_ok _ _ s1 s2 before H2).
  destruct authors as [[|a l]|], teams as [[|t l']|]; run_monad; cbn [fst snd];
    rewrite ?filter_true; (split; [reflexivity|]); cbn; congruence.
Qed.

Lemma keeps_passes date_from date_to authors teams c :
  keeps date_from date_to authors teams c = true <->
  passes date_from date_to authors teams c.
Proof.
  unfold keeps, passes. rewrite !andb_true_iff. split.
  - intros [[[H1 H2] H3] H4]. repeat split.
    + intros d ->. by apply Z.leb_le.
    + intros d ->. by apply Z.leb_le.
    + intros l -> Hl. destruct l as [|a l]; [done|].
      destruct (author_username c) as [u|]; [|done].
      apply andb_true_iff in H3 as [Hu Hin]. apply bool_decide_eq_true in Hin.
      apply list_elem_of_fmap in Hin as (b & Hb & Hin).
      exists u, b. split; [done|]. split; [by destruct u|]. split; [done|].
      by apply same_ignoring_case_lower.
    + intros l -> Hl. destruct l as [|t l]; [done|]. by apply bool_decide_eq_true in H4.
  - intros (H1 & H2 & H3 & H4). repeat split.
    + destruct date_from as [d|]; [|done]. by apply Z.leb_le, (H1 d).
    + destruct date_to as [d|]; [|done]. by apply Z.leb_le, (H2 d).
    + destruct authors as [[|a l]|]; try done.
      destruct (H3 (a :: l) eq_refl) as (u & b & -> & Hu & Hb & Hlow); [done|].
      apply same_ignoring_case_lower in Hlow.
      apply andb_true_iff. split; [by destruct u|].
      apply bool_decide_eq_true, list_elem_of_fmap. eauto.
    + destruct teams as [[|t l]|]; try done.
      by apply bool_decide_eq_true, (H4 (t :: l)).
Qed.
End FilterFacts.

(** X13.  When the dates given can be compared with the date of every
    commit, and the usernames of the commits and of [authors] are written
    in ASCII, [filter_commits] returns, in their order, the commits that
    pass every criterion given: not earlier than [date_from], not later
    than [date_to], by an author whose username is one of [authors] up to
    letter case, and of a team in [teams].  A criterion that is [None] or
    an empty list lets every commit pass; a commit without username passes
    no author criterion. *)
Theorem filter_commits_keeps_what_passes :
  forall (W : Type) (aware : datetime -> bool) (self : CommitProcessor)
         (commits : list CommitData) (date_from date_to : option datetime)
         (authors teams : option (list string)) (s : State W),
    comparable aware date_from date_to commits ->
    (forall c u, c ∈ commits -> author_username c = Some u -> is_ascii u = true) ->
    (forall l a, authors = Some l -> a ∈ l -> is_ascii a = true) ->
    exists filtered,
      fst (filter_commits aware self commits date_from date_to authors teams s)
      = Ok filtered /\
      sublist filtered commits /\
      (forall c, c ∈ filtered <->
                 c ∈ commits /\ passes date_from date_to authors teams c) /\
      world (snd (filter_commits aware self commits date_from date_to authors teams s))
      = world s.
Proof.
  intros W aware self commits date_from date_to authors teams s Hcmp _ _.
  exists (List.filter (keeps date_from date_to authors teams) commits).
  destruct (filter_commits_value aware self commits date_from date_to authors teams s Hcmp)
    as [Hvalue Hworld].
  split; [exact Hvalue|]. split; [apply filter_sublist|]. split; [|exact Hworld].
  intros c. rewrite list_elem_of_In, List.filter_In, <- list_elem_of_In.
  by rewrite keeps_passes.
Qed.

Lemma filter_commits_keeps_what_passes_witness :
  let self := {| cp_team_mapper := new_TeamMapper test_team_config |} in
  let commits := [test_commit "a" 10 (Some "Alice") "backend";
                  test_commit "b" 20 None "unassigned";
                  test_commit "c" 30 (Some "bob") "frontend";
                  test_commit "d" 40 (Some "ALICE") "backend"] in
  let s := initial_state ([] : list MockCall) in
  exists filtered,
    fst (filter_commits test_aware self commits (Some 20) None (Some ["alice"]) None s)
    = Ok filtered /\
    sublist filtered commits /\
    (forall c, c ∈ filtered <->
               c ∈ commits /\ passes (Some 20) None (Some ["alice"]) None c) /\
    world (snd (filter_commits test_aware self commits (Some 20) None (Some ["alice"])
                  None s))
    = world s.
Proof.
  intros self commits s.
  apply (filter_commits_keeps_what_passes (list MockCall) test_aware self commits
           (Some 20) None (Some ["alice"]) None s).
  - intros d c [[= <-]|[=]] Hc.
    repeat (apply elem_of_cons in Hc as [->|Hc]; [reflexivity|]).
    by apply elem_of_nil in Hc.
  - intros c u Hc.
    repeat (apply elem_of_cons in Hc as [->|Hc];
            [cbn; intros [= <-]; reflexivity|]).
    by apply elem_of_nil in Hc.
  - intros l a [= <-] Ha. apply list_elem_of_singleton in Ha as ->. reflexivity.
Defined.

(** The commits that the filter of the witness keeps. *)
Example filter_commits_by_author_and_date :
  let self := {| cp_team_mapper := new_TeamMapper test_team_config |} in
  fst (filter_commits test_aware self
         [test_commit "a" 10 (Some "Alice") "backend";
          test_commit "b" 20 None "unassigned";
          test_commit "c" 30 (Some "bob") "frontend";
          test_commit "d" 40 (Some "ALICE") "backend"]
         (Some 20) None (Some ["alice"]) None (initial_state ([] : list MockCall)))
  = Ok [test_commit "d" 40 (Some "ALICE") "backend"].
Proof. reflexivity. Qed.

(** X14.  A date that cannot be compared with the date of a commit makes
    [filter_commits] raise [TypeError]: this happens when [date_from]
    carries a time zone and the date of some commit does not, or the other
    way round. *)
Theorem filter_commits_mixed_datetimes :
  forall (W : Type) (aware : datetime -> bool) (self : CommitProcessor)
         (commits : list CommitData) (date_from : datetime) (date_to : option datetime)
         (authors teams : option (list string)) (s : State W) (c : CommitData),
    c ∈ commits ->
    aware (commit_date c) <> aware date_from ->
    fst (filter_commits aware self commits (Some date_from) date_to authors teams s)
    = Raise TypeError.
Proof.
  intros W aware self commits date_from date_to authors teams s c Hc Hkind.
  unfold filter_commits.
  assert (fst (comprehension_if
                 (fun c => datetime_cmp aware Z.geb (commit_date c) date_from) commits s)
          = Raise TypeError) as Hraise.
  { apply (comprehension_if_raises _ _ _ c); [|done|].
    - intros y. unfold datetime_cmp.
      destruct (Bool.eqb _ _); [right; by eexists|by left].
    - unfold datetime_cmp.
      destruct (Bool.eqb _ _) eqn:Heq; [|done]. by apply Bool.eqb_prop in Heq. }
  run_monad.
  destruct (comprehension_if _ commits s) as [[?|?|] ?]; simpl in *; congruence.
Qed.

Lemma filter_commits_mixed_datetimes_witness :
  fst (filter_commits test_aware {| cp_team_mapper := new_TeamMapper test_team_config |}
         [test_commit "a" 10 None "unassigned"; test_commit "b" 21 None "unassigned"]
         (Some 0) None None None (initial_state ([] : list MockCall)))
  = Raise TypeError.
Proof.
  apply (filter_commits_mixed_datetimes _ test_aware _ _ 0 None None None _
           (test_commit "b" 21 None "unassigned")).
  - apply elem_of_cons. right. apply elem_of_cons. by left.
  - discriminate.
Defined.

(** X15.  Filtering composes: to filter by dates and then to filter the
    outcome by authors and teams gives what one call with all the criteria
    gives, and to filter an outcome again by the same criteria changes
    nothing. *)
Theorem filter_commits_composes :
  forall (W : Type) (aware : datetime -> bool) (self : CommitProcessor)
         (commits : list CommitData) (date_from date_to : option datetime)
         (authors teams : option (list string)) (s s1 s2 : State W),
    comparable aware date_from date_to commits ->
    exists all_at_once by_dates,
      fst (filter_commits aware self commits date_from date_to authors teams s)
      = Ok all_at_once /\
      fst (filter_commits aware self commits date_from date_to None None s1)
      = Ok by_dates /\
      fst (filter_commits aware self by_dates None None authors teams s2)
      = Ok all_at_once /\
      fst (filter_commits aware self all_at_once date_from date_to authors teams s2)
      = Ok all_at_once.
Proof.
  intros W aware self commits date_from date_to authors teams s s1 s2 Hcmp.
  eexists _, _.
  split; [apply (filter_commits_value aware); exact Hcmp|].
  split; [apply (filter_commits_value aware); exact Hcmp|].
  split.
  - destruct (filter_commits_value aware self
                (List.filter (keeps date_from date_to None None) commits)
                None None authors teams s2) as [-> _].
    { by intros d c [[=]|[=]]. }
    f_equal. rewrite filter_filter_and. apply List.filter_ext. intros c. unfold keeps.
    destruct (match date_from with Some d => _ | None => _ end),
      (match date_to with Some d => _ | None => _ end),
      (match authors with Some (_ :: _) => _ | _ => _ end); reflexivity.
  - destruct (filter_commits_value aware self
                (List.filter (keeps date_from date_to authors teams) commits)
                date_from date_to authors teams s2) as [-> _].
    { intros d c Hd Hc. apply (Hcmp d c Hd).
      apply list_elem_of_In in Hc. apply List.filter_In in Hc as [Hc _].
      by apply list_elem_of_In. }
    f_equal. rewrite filter_filter_and. apply List.filter_ext. intros c.
    by destruct (keeps _ _ _ _ c).
Qed.

Lemma filter_commits_composes_witness :
  let self := {| cp_team_mapper := new_TeamMapper test_team_config |} in
  let commits := [test_commit "a" 10 (Some "Alice") "backend";
                  test_commit "c" 30 (Some "bob") "frontend";
                  test_commit "d" 40 (Some "ALICE") "backend"] in
  let s := initial_state ([] : list MockCall) in
  exists all_at_once by_dates,
    fst (filter_commits test_aware self commits (Some 20) None None (Some ["backend"]) s)
    = Ok all_at_once /\
    fst (filter_commits test_aware self commits (Some 20) None None None s) = Ok by_dates /\
    fst (filter_commits test_aware self by_dates None None None (Some ["backend"]) s)
    = Ok all_at_once /\
    fst (filter_commits test_aware self all_at_once (Some 20) None None (Some ["backend"]) s)
    = Ok all_at_once.
Proof.
  intros self commits s.
  apply (filter_commits_composes (list MockCall) test_aware self commits (Some 20) None
           None (Some ["backend"]) s s s).
  intros d c [[= <-]|[=]] Hc.
  repeat (apply elem_of_cons in Hc as [->|Hc]; [reflexivity|]).
  by apply elem_of_nil in Hc.
Defined.

(** ** data_collector.py: statistics *)

Section StatisticsFacts.
Context {W : Type} {host : Host W} (aware : datetime -> bool).

Lemma filter_nothing {A} (f : A -> bool) (l : list A) :
  (forall x, x ∈ l -> f x = false) -> List.filter f l = [].
Proof.
  induction l as [|x l IH]; intros Hf; [done|]. simpl.
  rewrite (Hf x) by (by left). apply IH. intros y Hy. apply Hf. by right.
Qed.

Lemma append_commit_keys k c (g : list (string * list CommitData)) :
  map fst (append_commit k c g)
  = if decide (k ∈ map fst g) then map fst g else (map fst g ++ [k])%list.
Proof.
  induction g as [|[k0 l0] g IH]; cbn [append_commit map fst].
  - destruct (decide (k ∈ [])) as [Hin|_]; [by apply elem_of_nil in Hin|done].
  - destruct (String.eqb_spec k0 k) as [->|Hne]; cbn [map fst].
    + destruct (decide (k ∈ k :: map fst g)) as [_|Hnin]; [done|].
      destruct Hnin. by left.
    + rewrite IH.
      destruct (decide (k ∈ map fst g)) as [Hin|Hnin],
        (decide (k ∈ k0 :: map fst g)) as [Hin'|Hnin']; try done.
      * destruct Hnin'. by right.
      * apply elem_of_cons in Hin' as [?|?]; congruence.
Qed.

Lemma append_commit_elem k c (g : list (string * list CommitData)) k' l' :
  NoDup (map fst g) ->
  (k', l') ∈ append_commit k c g ->
  (k' <> k /\ (k', l') ∈ g) \/
  (k' = k /\ ((exists l, (k, l) ∈ g /\ l' = (l ++ [c])%list)
              \/ ((k ∉ map fst g) /\ l' = [c]))).
Proof.
  induction g as [|[k0 l0] g IH]; simpl; intros Hnd Hin.
  - apply list_elem_of_singleton in Hin as [= -> ->]. right. split; [done|]. right.
    split; [|done]. by intros ?%elem_of_nil.
  - apply NoDup_cons in Hnd as [Hk0 Hnd].
    destruct (String.eqb_spec k0 k) as [->|Hne].
    + apply elem_of_cons in Hin as [[= -> ->]|Hin].
      * right. split; [done|]. left. exists l0. split; [by left|done].
      * left. split; [|by right]. intros ->. apply Hk0.
        apply list_elem_of_fmap. by exists (k, l').
    + apply elem_of_cons in Hin as [[= -> ->]|Hin].
      * left. split; [done|by left].
      * destruct (IH Hnd Hin) as [[Hk' Hg]|[-> [(l & Hl & ->)|[Hnin ->]]]].
        -- left. split; [done|by right].
        -- right. split; [done|]. left. exists l. split; [by right|done].
        -- right. split; [done|]. right. split; [|done].
           intros [?|?]%elem_of_cons; congruence.
Qed.

Lemma group_by_repository_snoc commits c :
  group_by_repository (commits ++ [c])
  = append_commit (key_of c) c (group_by_repository commits).
Proof. unfold group_by_repository. by rewrite fold_left_app. Qed.

(** The groups: one for each key, in the order of first appearance, each
    with the commits of its key in their order. *)
Lemma group_by_repository_spec commits :
  let g := group_by_repository commits in
  NoDup (map fst g) /\
  (forall k l, (k, l) ∈ g ->
     l <> [] /\ l = List.filter (fun c => String.eqb (key_of c) k) commits) /\
  (forall c, c ∈ commits -> key_of c ∈ map fst g).
Proof.
  induction commits as [|c commits IH] using rev_ind; intros g.
  - split; [constructor|]. split; [by intros k l ?%elem_of_nil|by intros c ?%elem_of_nil].
  - subst g. rewrite group_by_repository_snoc.
    destruct IH as (Hnd & Hgroups & Hkeys).
    split; [|split].
    + rewrite append_commit_keys. destruct (decide _) as [Hin|Hnin]; [done|].
      apply NoDup_app. split; [done|]. split; [|apply NoDup_singleton].
      intros k Hk ->%list_elem_of_singleton. done.
    + intros k l Hin. rewrite List.filter_app. simpl.
      apply append_commit_elem in Hin
        as [[Hk Hin]|[-> [(l0 & Hin & ->)|[Hnin ->]]]]; [| | |done].
      * destruct (Hgroups k l Hin) as [Hl ->]. split; [done|].
        destruct (String.eqb_spec (key_of c) k); [congruence|]. by rewrite app_nil_r.
      * destruct (Hgroups _ l0 Hin) as [Hl <-]. rewrite String.eqb_refl.
        split; [|done]. by destruct l0.
      * rewrite String.eqb_refl. split; [done|].
        replace (List.filter (fun c0 => String.eqb (key_of c0) (key_of c)) commits)
          with ([] : list CommitData); [done|].
        symmetry. apply filter_nothing. intros c0 Hc0.
        destruct (String.eqb_spec (key_of c0) (key_of c)) as [Heq|]; [|done].
        destruct Hnin. rewrite <- Heq. by apply Hkeys.
    + intros c0 Hc0. rewrite append_commit_keys.
      apply elem_of_app in Hc0 as [Hc0|Hc0];
        [|apply list_elem_of_singleton in Hc0 as ->].
      * destruct (decide _); [by apply Hkeys|].
        apply elem_of_app. left. by apply Hkeys.
      * destruct (decide _) as [?|?]; [done|].
        apply elem_of_app. right. by left.
Qed.

Lemma datetime_best_run {S} (R : Z -> Z -> Prop) (op : Z -> Z -> bool) :
  (forall a, R a a) ->
  (forall a b c, R a b -> R b c -> R a c) ->
  (forall a b, op a b = true -> R a b) ->
  (forall a b, op a b = false -> R b a) ->
  forall rest current (s : S),
    (forall d, d ∈ rest -> aware d = aware current) ->
    exists m,
      datetime_best aware op current rest s = (Ok m, s) /\
      m ∈ current :: rest /\
      forall d, d ∈ current :: rest -> R m d.
Proof.
  intros Hrefl Htrans Htrue Hfalse.
  induction rest as [|item rest IH]; intros current s Hkind; cbn [datetime_best].
  - exists current. split; [done|]. split; [by left|].
    by intros d ->%list_elem_of_singleton.
  - unfold datetime_cmp. rewrite (Hkind item) by (by left).
    rewrite Bool.eqb_reflx. run_monad.
    destruct (IH (if op item current then item else current) s) as (m & Hrun & Hin & Hbest).
    { intros d Hd. rewrite (Hkind d) by (by right).
      destruct (op item current); [|done]. symmetry. apply Hkind. by left. }
    exists m. split; [exact Hrun|]. split.
    + apply elem_of_cons in Hin as [->|Hin].
      * destruct (op item current); [right; by left|by left].
      * by do 2 right.
    + intros d Hd.
      assert (R m (if op item current then item else current)) as Hm
        by (apply Hbest; by left).
      apply elem_of_cons in Hd as [->|Hd]; [|apply elem_of_cons in Hd as [->|Hd]].
      * apply (Htrans _ _ _ Hm). destruct (op item current) eqn:Hop; auto.
      * apply (Htrans _ _ _ Hm). destruct (op item current) eqn:Hop; auto.
      * apply Hbest. by right.
Qed.

Lemma insert_sorted_elem x l t : t ∈ insert_sorted x l <-> t = x \/ t ∈ l.
Proof.
  induction l as [|y l IH]; simpl; [by rewrite list_elem_of_singleton, elem_of_nil; tauto|].
  destruct (String.leb x y); rewrite !elem_of_cons; [tauto|]. rewrite IH. tauto.
Qed.

Lemma sorted_elem l t : t ∈ sorted l <-> t ∈ l.
Proof.
  induction l as [|y l IH]; simpl; [done|].
  rewrite insert_sorted_elem, elem_of_cons, IH. tauto.
Qed.

Lemma stats_loop_run (items : list (string * list CommitData)) :
  Forall (fun item =>
            snd item <> [] /\
            forall c c', c ∈ snd item -> c' ∈ snd item ->
              fst item = key_of c /\
              slash_free (repository_owner c) = true /\
              slash_free (repository_name c) = true /\
              aware (commit_date c) = aware (commit_date c')) items ->
  forall stats_list (s : State W),
  exists new,
    stats_loop aware items stats_list s = (Ok (stats_list ++ new)%list, s) /\
    Forall2 (fun item st =>
               fst item = rs_repository_owner st +:+ "/" +:+ rs_repository_name st /\
               slash_free (rs_repository_owner st) = true /\
               slash_free (rs_repository_name st) = true /\
               stats_of_commits (snd item) st) items new.
Proof.
  induction 1 as [|[k l] items [Hl Hitem] _ IH]; intros stats_list s;
    cbn [stats_loop fst snd] in *.
  - exists []. by rewrite app_nil_r.
  - destruct l as [|c0 l]; [done|].
    destruct (Hitem c0 c0) as (-> & Hso & Hsn & _); [by left..|].
    unfold key_of.
    change (repository_owner c0 +:+ "/" +:+ repository_name c0)
      with (repository_owner c0 +:+ String "/" (repository_name c0)).
    rewrite split_app, split_id by done. run_monad.
    cbn [min_or_None max_or_None map].
    run_monad.
    assert (forall d, d ∈ map commit_date l -> aware d = aware (commit_date c0)) as Hkind.
    { intros d (c & -> & Hc)%list_elem_of_fmap. apply Hitem; [by right|by left]. }
    destruct (datetime_best_run (S := State W) Z.le Z.ltb
                Z.le_refl Z.le_trans
                (fun a b H => Z.lt_le_incl _ _ (proj1 (Z.ltb_lt a b) H))
                (fun a b H => proj1 (Z.ltb_ge a b) H)
                (map commit_date l) (commit_date c0) s Hkind)
      as (first & -> & Hfirst & Hmin).
    destruct (datetime_best_run (S := State W) (fun a b => b <= a) Z.gtb
                Z.le_refl (fun a b c H1 H2 => Z.le_trans c b a H2 H1)
                (fun a b H => Z.lt_le_incl _ _ (Z.gt_lt _ _ (proj1 (Z.gtb_gt a b) H)))
                (fun a b H => proj1 (Z.ltb_ge b a) (eq_trans (eq_sym (Z.gtb_ltb a b)) H))
                (map commit_date l) (commit_date c0) s Hkind)
      as (last & -> & Hlast & Hmax).
    cbn [fst snd].
    match goal with
    | |- context [stats_loop aware items (stats_list ++ [?st])%list s] =>
        destruct (IH (stats_list ++ [st])%list s) as (new & -> & Hnew);
        exists (st :: new)
    end.
    split; [by rewrite <- app_assoc|].
    constructor; [|exact Hnew]. cbn [fst snd rs_repository_owner rs_repository_name].
    split; [done|]. split; [done|]. split; [done|].
    unfold stats_of_commits.
    cbn [rs_total_commits rs_total_additions rs_total_deletions rs_total_files_changed
         rs_date_range_start rs_date_range_end rs_teams_involved].
    split; [done|]. split; [done|]. split; [done|]. split; [done|]. split.
    + exists first, last. split; [done|]. split; [done|]. split; [done|]. split; [done|].
      intros c Hc.
      assert (commit_date c ∈ commit_date c0 :: map commit_date l) as Hd.
      { change (commit_date c ∈ map commit_date (c0 :: l)).
        apply list_elem_of_fmap. eauto. }
      specialize (Hmin _ Hd). specialize (Hmax _ Hd). lia.
    + intros t. rewrite sorted_elem, elem_of_remove_dups.
      change (t ∈ map team_name (c0 :: l) <-> (exists c, c ∈ c0 :: l /\ team_name c = t)).
      rewrite list_elem_of_fmap. split; intros (c & ? & ?); eauto.
Qed.
End StatisticsFacts.

Section StatisticsTheorems.
Context {W : Type} {host : Host W} (aware : datetime -> bool).

Lemma Forall2_elem_l {A B} (R : A -> B -> Prop) l k x :
  Forall2 R l k -> x ∈ l -> exists y, y ∈ k /\ R x y.
Proof.
  induction 1 as [|a b l k Hab _ IH]; [by intros ?%elem_of_nil|].
  intros [->|Hx]%elem_of_cons.
  - exists b. split; [by left|done].
  - destruct (IH Hx) as (y & Hy & Hxy). exists y. split; [by right|done].
Qed.

Lemma Forall2_elem_r {A B} (R : A -> B -> Prop) l k y :
  Forall2 R l k -> y ∈ k -> exists x, x ∈ l /\ R x y.
Proof.
  induction 1 as [|a b l k Hab _ IH]; [by intros ?%elem_of_nil|].
  intros [->|Hy]%elem_of_cons.
  - exists a. split; [by left|done].
  - destruct (IH Hy) as (x & Hx & Hxy). exists x. split; [by right|done].
Qed.

Lemma key_inj (o n o' n' : string) :
  slash_free o = true -> slash_free n = true ->
  slash_free o' = true -> slash_free n' = true ->
  o +:+ "/" +:+ n = o' +:+ "/" +:+ n' -> o = o' /\ n = n'.
Proof.
  intros Ho Hn Ho' Hn' Heq.
  assert (split "/" (o +:+ String "/" n) = split "/" (o' +:+ String "/" n')) as Hsplit
    by (by f_equal).
  rewrite !split_app, !split_id in Hsplit by done. by injection Hsplit.
Qed.

Lemma groups_well_formed (commits : list CommitData) :
  well_formed aware commits ->
  Forall (fun item =>
            snd item <> [] /\
            forall c c', c ∈ snd item -> c' ∈ snd item ->
              fst item = key_of c /\
              slash_free (repository_owner c) = true /\
              slash_free (repository_name c) = true /\
              aware (commit_date c) = aware (commit_date c'))
         (group_by_repository commits).
Proof.
  intros [Hnames Hdates].
  destruct (group_by_repository_spec commits) as (_ & Hgroups & _).
  apply Forall_forall. intros [k l] Hin. destruct (Hgroups k l Hin) as [Hl Heq].
  split; [done|]. cbn [fst snd]. intros c c' Hc Hc'.
  rewrite Heq in Hc, Hc'.
  apply list_elem_of_In, List.filter_In in Hc as [Hc Hk].
  apply list_elem_of_In, List.filter_In in Hc' as [Hc' Hk'].
  apply list_elem_of_In in Hc, Hc'.
  apply String.eqb_eq in Hk, Hk'.
  destruct (Hnames c Hc) as [Ho Hn]. destruct (Hnames c' Hc') as [Ho' Hn'].
  split; [done|]. split; [done|]. split; [done|].
  destruct (key_inj _ _ _ _ Ho Hn Ho' Hn') as [? ?]; [unfold key_of in *; congruence|].
  by apply Hdates.
Qed.

Lemma fold_left_add (l : list Z) (a b : Z) :
  fold_left Z.add l (a + b) = a + fold_left Z.add l b.
Proof.
  revert b. induction l as [|x l IH]; intros b; simpl; [done|].
  by rewrite <- Z.add_assoc, IH.
Qed.

Lemma sum_of_cons (x : Z) (l : list Z) : sum_of (x :: l) = x + sum_of l.
Proof.
  unfold sum_of. cbn [fold_left]. rewrite (Z.add_comm 0 x). apply fold_left_add.
Qed.

Lemma sum_of_app (l l' : list Z) : sum_of (l ++ l') = sum_of l + sum_of l'.
Proof.
  induction l as [|x l IH]; [done|].
  rewrite <- app_comm_cons, !sum_of_cons, IH. lia.
Qed.

Lemma sum_of_ones {A} (l : list A) : sum_of (map (fun _ => 1) l) = Z.of_nat (length l).
Proof.
  induction l as [|x l IH]; [done|]. cbn [map length]. rewrite sum_of_cons, IH. lia.
Qed.

(** Grouping loses nothing and repeats nothing: a sum over the groups is
    the sum over the commits. *)
Lemma append_commit_total (w : CommitData -> Z) k c g :
  sum_of (map (fun item => sum_of (map w (snd item))) (append_commit k c g))
  = sum_of (map (fun item => sum_of (map w (snd item))) g) + w c.
Proof.
  induction g as [|[k0 l0] g IH]; cbn [append_commit map snd].
  - rewrite !sum_of_cons. change (sum_of []) with 0. lia.
  - destruct (String.eqb k0 k); cbn [map snd]; rewrite !sum_of_cons.
    + rewrite map_app, sum_of_app. cbn [map]. rewrite sum_of_cons.
      change (sum_of []) with 0. lia.
    + rewrite IH. lia.
Qed.

Lemma group_by_repository_total (w : CommitData -> Z) commits :
  sum_of (map (fun item => sum_of (map w (snd item))) (group_by_repository commits))
  = sum_of (map w commits).
Proof.
  induction commits as [|c commits IH] using rev_ind; [done|].
  rewrite group_by_repository_snoc, append_commit_total, IH, map_app, sum_of_app.
  cbn [map]. rewrite sum_of_cons. change (sum_of []) with 0. lia.
Qed.

(** A list of dates of both kinds makes [min] and [max] raise. *)
Lemma datetime_best_mixed {S} (op : Z -> Z -> bool) rest current (s : S) d :
  d ∈ rest -> aware d <> aware current ->
  fst (datetime_best aware op current rest s) = Raise TypeError.
Proof.
  revert current. induction rest as [|item rest IH]; intros current Hd Hkind;
    [by apply elem_of_nil in Hd|].
  cbn [datetime_best]. unfold datetime_cmp.
  destruct (Bool.eqb (aware item) (aware current)) eqn:Heq; [|done].
  apply Bool.eqb_prop in Heq. run_monad.
  apply elem_of_cons in Hd as [->|Hd]; [done|].
  apply IH; [done|]. by destruct (op item current); rewrite ?Heq.
Qed.

(** The loop over the groups ends with [TypeError] when a group holds dates
    of both kinds, provided the keys of the groups before it are
    well formed. *)
Lemma stats_loop_mixed (items : list (string * list CommitData)) :
  Forall (fun item =>
            snd item <> [] /\
            forall c, c ∈ snd item ->
              fst item = key_of c /\
              slash_free (repository_owner c) = true /\
              slash_free (repository_name c) = true) items ->
  Exists (fun item =>
            exists c c', c ∈ snd item /\ c' ∈ snd item /\
                         aware (commit_date c) <> aware (commit_date c')) items ->
  forall stats_list (s : State W),
    fst (stats_loop aware items stats_list s) = Raise TypeError.
Proof.
  induction 1 as [|[k l] items [Hl Hitem] Hitems IH]; intros Hex stats_list s;
    [by apply Exists_nil in Hex|].
  cbn [stats_loop fst snd] in *.
  destruct l as [|c0 l]; [done|].
  destruct (Hitem c0) as (-> & Hso & Hsn); [by left|].
  unfold key_of.
  change (repository_owner c0 +:+ "/" +:+ repository_name c0)
    with (repository_owner c0 +:+ String "/" (repository_name c0)).
  rewrite split_app, split_id by done. run_monad.
  cbn [min_or_None max_or_None map]. run_monad.
  destruct (decide (Forall (fun d => aware d = aware (commit_date c0)) (map commit_date l)))
    as [Hsame|Hmixed].
  - assert (forall d, d ∈ map commit_date l -> aware d = aware (commit_date c0)) as Hkind
      by (by apply Forall_forall).
    destruct (datetime_best_run aware (S := State W) Z.le Z.ltb
                Z.le_refl Z.le_trans
                (fun a b H => Z.lt_le_incl _ _ (proj1 (Z.ltb_lt a b) H))
                (fun a b H => proj1 (Z.ltb_ge a b) H)
                (map commit_date l) (commit_date c0) s Hkind)
      as (first & -> & _).
    destruct (datetime_best_run aware (S := State W) (fun a b => b <= a) Z.gtb
                Z.le_refl (fun a b c H1 H2 => Z.le_trans c b a H2 H1)
                (fun a b H => Z.lt_le_incl _ _ (Z.gt_lt _ _ (proj1 (Z.gtb_gt a b) H)))
                (fun a b H => proj1 (Z.ltb_ge b a) (eq_trans (eq_sym (Z.gtb_ltb a b)) H))
                (map commit_date l) (commit_date c0) s Hkind)
      as (last & -> & _).
    apply IH. apply Exists_cons in Hex as [(c & c' & Hc & Hc' & Hne)|Hex]; [|done].
    cbn [snd] in *. destruct Hne.
    assert (forall x, x ∈ c0 :: l -> aware (commit_date x) = aware (commit_date c0)) as Hall.
    { intros x [->|Hx]%elem_of_cons; [done|]. apply Hkind, list_elem_of_fmap. eauto. }
    by rewrite (Hall c), (Hall c').
  - apply not_Forall_Exists in Hmixed; [|apply _].
    apply Exists_exists in Hmixed as (d & Hd & Hne).
    pose proof (datetime_best_mixed (S := State W) Z.ltb (map commit_date l)
                  (commit_date c0) s d Hd Hne) as Hraise.
    destruct (datetime_best aware Z.ltb _ _ s) as [[?|?|] ?]; simpl in *; congruence.
Qed.
End StatisticsTheorems.

(** X19.  When the names of the repositories hold no slash and the dates
    of the commits of one repository can be compared,
    [calculate_repository_stats] returns one entry for each repository that
    has a commit, and each entry counts the commits of its repository and
    no others: their number, the sums of their additions, deletions and
    files changed, the earliest and the latest of their dates, and the teams
    of their authors. *)
Theorem calculate_repository_stats_per_repository :
  forall (W : Type) (aware : datetime -> bool) (self : DataCollector)
         (commits : list CommitData) (s : State W),
    well_formed aware commits ->
    exists stats_list,
      fst (calculate_repository_stats aware self commits s) = Ok stats_list /\
      world (snd (calculate_repository_stats aware self commits s)) = world s /\
      NoDup (map (fun st => (rs_repository_owner st, rs_repository_name st)) stats_list) /\
      (forall c, c ∈ commits ->
         exists st, st ∈ stats_list /\
                    rs_repository_owner st = repository_owner c /\
                    rs_repository_name st = repository_name c) /\
      (forall st, st ∈ stats_list ->
         let l := List.filter
                    (in_repository (rs_repository_owner st) (rs_repository_name st))
                    commits in
         l <> [] /\ stats_of_commits l st).
Proof.
  intros W aware self commits s Hwf.
  destruct (stats_loop_run aware (group_by_repository commits)
              (groups_well_formed aware commits Hwf) [] s) as (stats_list & Hrun & Hstats).
  destruct (group_by_repository_spec commits) as (Hnd & Hgroups & Hkeys).
  exists stats_list. unfold calculate_repository_stats.
  rewrite (bind_ok _ _ _ _ _ Hrun). run_monad. cbn [fst snd].
  split; [done|]. split; [done|].
  assert (map fst (group_by_repository commits)
          = map (fun st => rs_repository_owner st +:+ "/" +:+ rs_repository_name st)
                stats_list) as Hmap.
  { clear -Hstats. induction Hstats as [|item st items sts (Hk & _) _ IH]; [done|].
    simpl. by rewrite Hk, IH. }
  destruct Hwf as [Hnames Hdates].
  split; [|split].
  - rewrite Hmap in Hnd.
    apply (NoDup_fmap_1 (fun p : string * string => fst p +:+ "/" +:+ snd p)).
    by rewrite <- list_fmap_compose.
  - intros c Hc.
    pose proof (Hkeys c Hc) as Hkey. rewrite Hmap in Hkey.
    apply list_elem_of_fmap in Hkey as (st & Hkey & Hst).
    exists st. split; [done|].
    destruct (Forall2_elem_r _ _ _ _ Hstats Hst) as ([k l] & _ & _ & Ho & Hn & _).
    destruct (Hnames c Hc) as [Ho' Hn'].
    destruct (key_inj _ _ _ _ Ho Hn Ho' Hn'); [by symmetry|done].
  - intros st Hst.
    destruct (Forall2_elem_r _ _ _ _ Hstats Hst) as ([k l0] & Hin & Hk & Ho & Hn & Hl0).
    cbn [fst snd] in *. destruct (Hgroups k l0 Hin) as [Hne Heq].
    assert (l0 = List.filter
                   (in_repository (rs_repository_owner st) (rs_repository_name st))
                   commits) as <-; [|done].
    rewrite Heq. apply List.filter_ext_in. intros c Hc%list_elem_of_In.
    destruct (Hnames c Hc) as [Ho' Hn']. unfold in_repository. subst k.
    destruct (String.eqb_spec (key_of c)
                (rs_repository_owner st +:+ "/" +:+ rs_repository_name st)) as [Heq'|Hne'].
    + destruct (key_inj _ _ _ _ Ho' Hn' Ho Hn Heq') as [-> ->].
      by rewrite !String.eqb_refl.
    + destruct (String.eqb_spec (repository_owner c) (rs_repository_owner st)) as [E1|];
        [|done].
      destruct (String.eqb_spec (repository_name c) (rs_repository_name st)) as [E2|];
        [|done].
      destruct Hne'. unfold key_of. by rewrite E1, E2.
Qed.

Lemma calculate_repository_stats_per_repository_witness :
  let commits := [commit_in "o" "a" 10 1 2 1; commit_in "o" "b" 20 3 4 2;
                  commit_in "o" "a" 30 5 6 3] in
  exists stats_list,
    fst (calculate_repository_stats test_aware (test_collector false)
           commits (initial_state ([] : list MockCall))) = Ok stats_list /\
    map rs_total_commits stats_list = [2; 1] /\
    map rs_total_additions stats_list = [6; 3].
Proof.
  intros commits.
  destruct (calculate_repository_stats_per_repository (list MockCall) test_aware
              (test_collector false) commits (initial_state [])) as (stats_list & Hrun & _).
  - split.
    + intros c Hc.
      repeat (apply elem_of_cons in Hc as [->|Hc]; [by split|]).
      by apply elem_of_nil in Hc.
    + intros c c' Hc Hc' _ _.
      repeat (apply elem_of_cons in Hc as [->|Hc];
              [repeat (apply elem_of_cons in Hc' as [->|Hc']; [reflexivity|]);
               by apply elem_of_nil in Hc'|]).
      by apply elem_of_nil in Hc.
  - exists stats_list. split; [exact Hrun|].
    vm_compute in Hrun. injection Hrun as <-. split; reflexivity.
Defined.

(** X20.  Under the same conditions the statistics lose no commit and count
    none twice: the numbers of commits of the entries add up to the number
    of commits given, and so do the additions, the deletions and the files
    changed. *)
Theorem calculate_repository_stats_conserves :
  forall (W : Type) (aware : datetime -> bool) (self : DataCollector)
         (commits : list CommitData) (s : State W),
    well_formed aware commits ->
    exists stats_list,
      fst (calculate_repository_stats aware self commits s) = Ok stats_list /\
      sum_of (map rs_total_commits stats_list) = Z.of_nat (length commits) /\
      sum_of (map rs_total_additions stats_list) = sum_of (map total_additions commits) /\
      sum_of (map rs_total_deletions stats_list) = sum_of (map total_deletions commits) /\
      sum_of (map rs_total_files_changed stats_list)
      = sum_of (map files_changed_count commits).
Proof.
  intros W aware self commits s Hwf.
  destruct (stats_loop_run aware (group_by_repository commits)
              (groups_well_formed aware commits Hwf) [] s) as (stats_list & Hrun & Hstats).
  exists stats_list. unfold calculate_repository_stats.
  rewrite (bind_ok _ _ _ _ _ Hrun). run_monad. cbn [fst].
  split; [done|].
  assert (forall (f : RepositoryStats -> Z) (w : CommitData -> Z),
            (forall l st, stats_of_commits l st -> f st = sum_of (map w l)) ->
            sum_of (map f stats_list) = sum_of (map w commits)) as Hsum.
  { intros f w Hf. rewrite <- (group_by_repository_total w commits). f_equal.
    clear -Hstats Hf. induction Hstats as [|item st items sts (_ & _ & _ & Hst) _ IH];
      [done|].
    simpl. by rewrite IH, (Hf _ _ Hst). }
  split; [|split; [|split]].
  - rewrite <- sum_of_ones. apply Hsum. intros l st (-> & _). by rewrite sum_of_ones.
  - apply Hsum. by intros l st (_ & -> & _).
  - apply Hsum. by intros l st (_ & _ & -> & _).
  - apply Hsum. by intros l st (_ & _ & _ & -> & _).
Qed.

Lemma calculate_repository_stats_conserves_witness :
  let commits := [commit_in "o" "a" 10 1 2 1; commit_in "o" "b" 20 3 4 2;
                  commit_in "o" "a" 30 5 6 3] in
  exists stats_list,
    fst (calculate_repository_stats test_aware (test_collector false)
           commits (initial_state ([] : list MockCall))) = Ok stats_list /\
    sum_of (map rs_total_commits stats_list) = 3 /\
    sum_of (map rs_total_additions stats_list) = 9 /\
    sum_of (map rs_total_deletions stats_list) = 12 /\
    sum_of (map rs_total_files_changed stats_list) = 6.
Proof.
  intros commits.
  apply (calculate_repository_stats_conserves (list MockCall) test_aware
           (test_collector false) commits (initial_state [])).
  split.
  - intros c Hc.
    repeat (apply elem_of_cons in Hc as [->|Hc]; [by split|]).
    by apply elem_of_nil in Hc.
  - intros c c' Hc Hc' _ _.
    repeat (apply elem_of_cons in Hc as [->|Hc];
            [repeat (apply elem_of_cons in Hc' as [->|Hc']; [reflexivity|]);
             by apply elem_of_nil in Hc'|]).
    by apply elem_of_nil in Hc.
Defined.

(** X21.  Two commits of one repository whose dates cannot be compared,
    one with a time zone and one without, make
    [calculate_repository_stats] raise [TypeError], whatever the other
    commits are: no statistics are returned for any repository. *)
Theorem calculate_repository_stats_mixed_datetimes :
  forall (W : Type) (aware : datetime -> bool) (self : DataCollector)
         (commits : list CommitData) (s : State W) (c c' : CommitData),
    (forall c, c ∈ commits ->
       slash_free (repository_owner c) = true /\ slash_free (repository_name c) = true) ->
    c ∈ commits -> c' ∈ commits ->
    repository_owner c = repository_owner c' ->
    repository_name c = repository_name c' ->
    aware (commit_date c) <> aware (commit_date c') ->
    fst (calculate_repository_stats aware self commits s) = Raise TypeError.
Proof.
  intros W aware self commits s c c' Hnames Hc Hc' Ho Hn Hkind.
  destruct (group_by_repository_spec commits) as (_ & Hgroups & Hkeys).
  assert (fst (stats_loop aware (group_by_repository commits) [] s) = Raise TypeError)
    as Hraise.
  { apply stats_loop_mixed.
    - apply Forall_forall. intros [k l] Hin. destruct (Hgroups k l Hin) as [Hl Heq].
      split; [done|]. cbn [fst snd]. intros x Hx. rewrite Heq in Hx.
      apply list_elem_of_In, List.filter_In in Hx as [Hx Hk].
      apply list_elem_of_In in Hx. apply String.eqb_eq in Hk.
      destruct (Hnames x Hx). done.
    - pose proof (Hkeys c Hc) as Hkey.
      apply list_elem_of_fmap in Hkey as ([k l] & Hk & Hin). cbn [fst] in Hk. subst k.
      apply Exists_exists. exists (key_of c, l). split; [done|].
      destruct (Hgroups _ l Hin) as [_ Heq]. exists c, c'. cbn [snd].
      split; [|split; [|done]]; rewrite Heq; apply list_elem_of_In, List.filter_In;
        (split; [by apply list_elem_of_In|]); apply String.eqb_eq; [done|].
      unfold key_of. by rewrite Ho, Hn. }
  unfold calculate_repository_stats. run_monad.
  destruct (stats_loop aware _ [] s) as [[?|?|] ?]; simpl in *; congruence.
Qed.

Lemma calculate_repository_stats_mixed_datetimes_witness :
  fst (calculate_repository_stats test_aware (test_collector false)
         [commit_in "o" "a" 10 1 2 1; commit_in "o" "b" 20 3 4 2;
          commit_in "o" "a" 31 5 6 3]
         (initial_state ([] : list MockCall))) = Raise TypeError.
Proof.
  apply (calculate_repository_stats_mixed_datetimes (list MockCall) test_aware
           (test_collector false) _ (initial_state [])
           (commit_in "o" "a" 10 1 2 1) (commit_in "o" "a" 31 5 6 3)).
  - intros c Hc.
    repeat (apply elem_of_cons in Hc as [->|Hc]; [by split|]).
    by apply elem_of_nil in Hc.
  - by left.
  - do 2 right. by left.
  - reflexivity.
  - reflexivity.
  - discriminate.
Defined.

(** ** data_collector.py: metadata *)

Section MetadataFacts.
Context {W : Type} {host : Host W}.

(** [parse_repo_url] reads no state and changes none, and it ends. *)
Lemma parse_repo_url_pure (url : option string) :
  exists r, r <> Diverge /\ forall s : State W, parse_repo_url url s = (r, s).
Proof.
  unfold parse_repo_url. destruct url as [url|].
  - destruct (String.prefix "http" _); [|destruct (str_contains "/" _)]; run_monad;
      try destruct (2 <=? _)%nat;
      (eexists; split; [|intros s; reflexivity]; discriminate).
  - eexists; split; [|intros s; reflexivity]; discriminate.
Qed.

Lemma repo_names_of_run (repos_config : list RepoConfig) (names : list string)
    (s : State W) :
  Forall2 (fun r name => exists owner repo,
                           reads_as r owner repo /\ name = owner +:+ "/" +:+ repo)
          repos_config names ->
  repo_names_of repos_config s = (Ok names, s).
Proof.
  induction 1 as [|r name rs names (owner & repo & (url & Hurl & Hparse) & ->) _ IH];
    [done|].
  cbn [repo_names_of]. rewrite Hurl. run_monad.
  destruct (parse_repo_url_pure (Some url)) as (res & _ & Hpure).
  specialize (Hparse s). rewrite Hpure in Hparse. cbn [fst] in Hparse. subst res.
  rewrite Hpure. cbn iota beta. rewrite Hpure. cbn iota beta. by rewrite IH.
Qed.

Lemma repo_names_of_raises (repos_config : list RepoConfig) (r : RepoConfig)
    (s : State W) :
  r ∈ repos_config ->
  (forall owner repo, ~ reads_as r owner repo) ->
  exists e, fst (repo_names_of repos_config s) = Raise e.
Proof.
  intros Hr Hbad. induction repos_config as [|r0 rs IH]; [by apply elem_of_nil in Hr|].
  cbn [repo_names_of].
  destruct (cfg_url r0) as [url|] eqn:Hurl; run_monad; [|by eexists].
  destruct (parse_repo_url_pure (Some url)) as (res & Hdiv & Hpure).
  rewrite !Hpure. destruct res as [[owner repo]|e|]; [|by eexists|done].
  cbn iota beta.
  apply elem_of_cons in Hr as [->|Hr].
  - destruct (Hbad owner repo). exists url. split; [done|]. intros s'. by rewrite Hpure.
  - destruct (IH Hr) as [e He].
    rewrite Hpure. cbn iota beta.
    destruct (repo_names_of rs s) as [[?|?|] ?]; simpl in *; try congruence. by eexists.
Qed.
End MetadataFacts.

(** X22.  [create_collection_metadata] needs every entry of the
    configuration to have a URL that [parse_repo_url] reads.  Then it
    returns the number of entries, the number of commits, the names
    [owner/repo] of the entries in their order and the filters, and changes
    nothing.  If one entry has no URL or a URL that [parse_repo_url]
    rejects, it raises: an entry that the collection has skipped for its
    URL makes the metadata fail. *)
Theorem create_collection_metadata_reads_every_url :
  forall (W : Type) (host : Host W) (self : DataCollector) (commits : list CommitData)
         (repos_config : list RepoConfig) (filters : gmap string string) (s : State W),
    (forall names,
       Forall2 (fun r name => exists owner repo,
                                reads_as r owner repo /\ name = owner +:+ "/" +:+ repo)
               repos_config names ->
       create_collection_metadata self commits repos_config filters s
       = (Ok {| cm_collection_date := datetime_now (world s);
                cm_total_repositories := Z.of_nat (length repos_config);
                cm_total_commits_collected := Z.of_nat (length commits);
                cm_repositories_processed := names;
                cm_filters_applied := filters |}, s)) /\
    (forall r, r ∈ repos_config ->
       (forall owner repo, ~ reads_as r owner repo) ->
       exists e, fst (create_collection_metadata self commits repos_config filters s)
                 = Raise e).
Proof.
  intros W host self commits repos_config filters s. split.
  - intros names Hnames. unfold create_collection_metadata.
    by rewrite (bind_ok _ _ _ _ _ (repo_names_of_run _ _ s Hnames)).
  - intros r Hr Hbad. unfold create_collection_metadata.
    destruct (repo_names_of_raises repos_config r s Hr Hbad) as [e He].
    exists e. run_monad.
    destruct (repo_names_of repos_config s) as [[?|?|] ?]; simpl in *; congruence.
Qed.

Lemma create_collection_metadata_reads_every_url_witness :
  let s := initial_state ([] : list MockCall) in
  fst (create_collection_metadata (host := test_host) (test_collector false) []
         [repo_config_of "octocat/hello"; repo_config_of "octocat/world"] ∅ s)
  = Ok {| cm_collection_date := 0;
          cm_total_repositories := 2;
          cm_total_commits_collected := 0;
          cm_repositories_processed := ["octocat/hello"; "octocat/world"];
          cm_filters_applied := ∅ |} /\
  exists e,
    fst (create_collection_metadata (host := test_host) (test_collector false) []
           [repo_config_of "octocat/hello"; repo_config_of "nowhere"] ∅ s)
    = Raise e.
Proof.
  intros s. split.
  - destruct (create_collection_metadata_reads_every_url (list MockCall) test_host
                (test_collector false) []
                [repo_config_of "octocat/hello"; repo_config_of "octocat/world"] ∅ s)
      as [Hok _].
    rewrite (Hok ["octocat/hello"; "octocat/world"]); [reflexivity|].
    repeat constructor.
    + exists "octocat", "hello". split; [|reflexivity]. by exists "octocat/hello".
    + exists "octocat", "world". split; [|reflexivity]. by exists "octocat/world".
  - destruct (create_collection_metadata_reads_every_url (list MockCall) test_host
                (test_collector false) []
                [repo_config_of "octocat/hello"; repo_config_of "nowhere"] ∅ s)
      as [_ Hraise].
    apply (Hraise (repo_config_of "nowhere")).
    + right. by left.
    + intros owner repo (url & [= <-] & Hparse). specialize (Hparse s). discriminate.
Defined.

(** ** data_collector.py: the collection of one repository *)

Section CollectFacts.
Context {W : Type} {client : GitHubClient W} {host : Host W}.

Lemma never_raises_log (r : level) (msg : string) :
  never_raises (modify (log_record (r, msg)) : M (State W) unit).
Proof. apply never_raises_modify. Qed.

Lemma get_team_never_raises (tm : TeamMapper) (username : option string) :
  never_raises (get_team tm username : M (State W) string).
Proof. intros s e. by destruct username as [[|a u]|]. Qed.


Lemma fetch_details_never_raises owner repo (commits : list RawCommit) :
  forall i m, never_raises (fetch_details owner repo commits i m).
Proof.
  induction commits as [|commit rest IH]; intros i m; cbn [fetch_details];
    [apply never_raises_ret|].
  apply never_raises_bind; [|intros m'; apply IH].
  destruct (rc_sha commit) as [sha|]; [destruct (str_truthy sha)|];
    try apply never_raises_ret.
  apply never_raises_try_except. intros e.
  apply never_raises_bind; [apply never_raises_log|intros _; apply never_raises_ret].
Qed.

Lemma process_commits_loop_never_raises (self : CommitProcessor) owner repo repo_url br
    detailed_commits (commits : list RawCommit) :
  forall processed,
    never_raises (process_commits_loop self commits owner repo repo_url br
                    detailed_commits processed).
Proof.
  induction commits as [|commit rest IH]; intros processed; cbn [process_commits_loop];
    [apply never_raises_ret|].
  apply never_raises_bind; [|intros p; apply IH].
  apply never_raises_try_except. intros e.
  apply never_raises_bind; [apply never_raises_log|intros _; apply never_raises_ret].
Qed.
End CollectFacts.



(** X18.  [collect_repository_commits] raises only what the part up to the
    listing raises: the URL that does not parse, or an error of the client
    while the metadata or the commits are read.  Once the commits are
    listed, nothing is raised, whatever the detail requests do. *)
Theorem collect_repository_commits_raises_listing_errors_only :
  forall (W : Type) (client : GitHubClient W) (host : Host W) (self : DataCollector)
         (repo_url branch date_from date_to author : option string) (s : State W)
         (e : exn),
    fst (collect_repository_commits self repo_url branch date_from date_to author s)
    = Raise e ->
    fst (list_repository_commits self repo_url branch date_from date_to author s)
    = Raise e.
Proof.
  intros W client host self repo_url branch date_from date_to author s e.
  unfold collect_repository_commits, try_except. unfold bind at 1.
  destruct (list_repository_commits self repo_url branch date_from date_to author s)
    as [[[[[[owner repo] resolved] full_repo_url] commits]|e'|] s1];
    [|run_monad; simpl; intros [= ->]; reflexivity|done].
  intros Hraise. exfalso. revert Hraise.
  match goal with
  | |- fst (let (_, _) := ?m s1 in _) = _ -> _ =>
      assert (never_raises m) as Hnever
  end.
  { destruct commits as [|commit rest].
    - apply never_raises_bind; [apply never_raises_log|intros _; apply never_raises_ret].
    - apply never_raises_bind.
      + destruct (fetch_detailed_commits self); [|apply never_raises_ret].
        apply never_raises_bind; [apply never_raises_log|intros _].
        apply fetch_details_never_raises.
      + intros detailed_commits. apply never_raises_bind.
        * unfold process_commits_batch. apply never_raises_bind.
          -- apply process_commits_loop_never_raises.
          -- intros p. apply never_raises_bind;
               [apply never_raises_log|intros _; apply never_raises_ret].
        * intros p. apply never_raises_bind;
            [apply never_raises_log|intros _; apply never_raises_ret]. }
  specialize (Hnever s1).
  match goal with
  | |- fst (let (_, _) := ?m s1 in _) = _ -> _ =>
      destruct (m s1) as [[?|e'|] ?]; simpl in *; [done| |done]
  end.
  by destruct (Hnever e').
Qed.

Lemma collect_repository_commits_raises_listing_errors_only_witness :
  fst (list_repository_commits (client := mock_client unreachable_repo)
         (host := test_host) (test_collector true)
         (Some "o/r") (Some "main") None None None (initial_state []))
  = Raise ConnectionError.
Proof.
  apply (collect_repository_commits_raises_listing_errors_only _
           (mock_client unreachable_repo) test_host (test_collector true)).
  vm_compute. reflexivity.
Defined.

(** ** team_mapper.py: the mapping built from the configuration *)

Lemma add_teams_app (l1 l2 : list (string * option (list string)))
    (m : gmap string string) :
  add_teams (l1 ++ l2) m = add_teams l2 (add_teams l1 m).
Proof. unfold add_teams. by rewrite fold_left_app. Qed.

(** X3.  A user listed under several teams belongs to the last of them:
    [TeamMapper.__init__] lets a later team of the configuration overwrite
    an earlier one, and for usernames written in ASCII the comparison
    ignores letter case. *)
Theorem TeamMapper_init_last_team_wins :
  forall (S : Type) (L : Logging S) (cfg : TeamConfig)
         (before after : list (string * option (list string)))
         (team : string) (members : list string) (u : string) (s : S),
    cfg_teams cfg = Some (before ++ (team, Some members) :: after)%list ->
    u <> "" ->
    is_ascii u = true ->
    ascii_members ((team, Some members) :: after) ->
    (exists m, m ∈ members /\ same_ignoring_case m u = true) ->
    (forall t m, listed after t m -> same_ignoring_case m u = false) ->
    exists self s1,
      TeamMapper_init cfg s = (Ok self, s1) /\
      forall s2, fst (get_team self (Some u) s2) = Ok team.
Proof.
  intros S L cfg before after team members u s Hcfg Hu _ _ (m & Hm & Hsame) Hafter.
  apply same_ignoring_case_lower in Hsame.
  eexists _, _. split; [reflexivity|]. intros s2.
  rewrite get_team_nonempty by done. cbn [username_to_team default_team].
  rewrite Hcfg. cbn [default].
  replace (before ++ (team, Some members) :: after)%list
    with ((before ++ [(team, Some members)]) ++ after)%list
    by (by rewrite <- app_assoc).
  unfold id. rewrite add_teams_app, add_teams_lookup_notin
    by (intros t m' Hl; by apply not_same_ignoring_case_lower, (Hafter t)).
  rewrite add_teams_snoc, add_members_lookup_in by eauto. reflexivity.
Qed.

Lemma TeamMapper_init_last_team_wins_witness :
  exists self s1,
    TeamMapper_init
      {| cfg_default_team := None;
         cfg_teams := Some [("backend", Some ["alice"; "bob"]);
                            ("frontend", Some ["Alice"]);
                            ("ops", Some ["bob"])] |} ([] : list LogRecord)
    = (Ok self, s1) /\
    forall s2 : list LogRecord, fst (get_team self (Some "ALICE") s2) = Ok "frontend".
Proof.
  apply (TeamMapper_init_last_team_wins _ _ _ [("backend", Some ["alice"; "bob"])]
           [("ops", Some ["bob"])] "frontend" ["Alice"]).
  - reflexivity.
  - discriminate.
  - reflexivity.
  - intros t m (ms & Hin & Hm).
    repeat (apply elem_of_cons in Hin as [Hin|Hin];
            [inversion Hin; subst; clear Hin;
             repeat (apply elem_of_cons in Hm as [->|Hm]; [reflexivity|]);
             by apply elem_of_nil in Hm|]).
    by apply elem_of_nil in Hin.
  - exists "Alice". split; [by left|reflexivity].
  - intros t m (ms & Hin & Hm).
    apply list_elem_of_singleton in Hin as [= -> ->].
    apply list_elem_of_singleton in Hm as ->. reflexivity.
Defined.

(** ** config_manager.py *)

(** X23.  [load_repositories] returns, in their order, the entries of
    repositories.yaml that are enabled: an entry without the key [enabled]
    counts as enabled, an entry whose [enabled] is false or null does not.
    Without the key [repositories] the list is empty; a null
    [repositories] raises [TypeError].  When the file does not exist the
    list is empty and nothing is raised; another error of reading the file
    is raised. *)
Theorem load_repositories_enabled_only :
  forall (S : Type) (L : Logging S) (files : HostFiles) (s : S),
    match repositories_yaml files with
    | Some (inr config) =>
        match doc_repositories config with
        | Value listed =>
            exists repos,
              fst (load_repositories files s) = Ok repos /\
              sublist repos listed /\
              forall r, r ∈ repos <->
                        r ∈ listed /\
                        (cfg_enabled r = Absent \/ cfg_enabled r = Value true)
        | Absent => fst (load_repositories files s) = Ok []
        | Null => fst (load_repositories files s) = Raise TypeError
        end
    | Some (inl e) =>
        fst (load_repositories files s)
        = if is_FileNotFoundError e then Ok [] else Raise e
    | None => fst (load_repositories files s) = Ok []
    end.
Proof.
  intros S L files s. unfold load_repositories, load_yaml_config, try_except_of.
  destruct (repositories_yaml files) as [[e|config]|]; run_monad.
  - by destruct (is_FileNotFoundError e).
  - destruct (doc_repositories config) as [| |listed]; [done..|].
    eexists. split; [reflexivity|]. split; [apply filter_sublist|].
    intros r. rewrite list_elem_of_In, List.filter_In, <- list_elem_of_In.
    destruct (cfg_enabled r) as [| |[|]]; split; intros [? ?]; split;
      try done; auto; by destruct H0.
  - done.
Qed.

(** A file with an entry of each kind: only the entries without [enabled]
    and with [enabled: true] are returned. *)
Example load_repositories_enabled_only_example :
  let entry enabled :=
    {| cfg_url := Some "o/r"; cfg_branch := None; cfg_enabled := enabled;
       cfg_filters := Absent |} in
  fst (load_repositories
         (files_with
            (Some (inr {| doc_repositories :=
                            Value [entry Absent; entry (Value false); entry Null;
                                   entry (Value true)];
                          doc_filters := Absent |}))
            None)
         ([] : list LogRecord))
  = Ok [entry Absent; entry (Value true)] /\
  fst (load_repositories
         (files_with
            (Some (inr {| doc_repositories := Null; doc_filters := Absent |})) None)
         ([] : list LogRecord))
  = Raise TypeError.
Proof. split; reflexivity. Qed.

(** X24.  [validate_config] checks the token and nothing else: it returns
    [True] or raises, it raises [ValueError] when GITHUB_TOKEN is not set or
    empty, and with a token it accepts a configuration without any
    repository, be it that repositories.yaml does not exist or that it
    lists none that is enabled. *)
Theorem validate_config_checks_token_only :
  forall (S : Type) (L : Logging S) (files : HostFiles) (s : S),
    (forall b, fst (validate_config files s) = Ok b ->
               b = true /\ truthy (getenv files "GITHUB_TOKEN") = true) /\
    (truthy (getenv files "GITHUB_TOKEN") = false ->
     fst (validate_config files s)
     = Raise (ValueError "Configuration validation failed: {e}")) /\
    (truthy (getenv files "GITHUB_TOKEN") = true ->
     (forall s', fst (load_repositories files s') = Ok []) ->
     fst (validate_config files s) = Ok true).
Proof.
  intros S L files s. unfold validate_config, get_github_token, try_except_of.
  destruct (getenv files "GITHUB_TOKEN") as [[|a t]|]; cbn [truthy str_truthy];
    run_monad; cbn [is_ValueError fst]; try (split; [done|split; done]).
  split; [|split; [done|]].
  - intros b.
    destruct (load_repositories files s) as [[[|? ?]|?|] ?]; cbn; intros [= <-]; done.
  - intros _ Hnone. specialize (Hnone s).
    destruct (load_repositories files s) as [[[|? ?]|?|] ?]; cbn in *; congruence.
Qed.

Lemma validate_config_checks_token_only_witness :
  fst (validate_config (files_with None None) ([] : list LogRecord)) = Ok true /\
  fst (validate_config
         {| dotenv_loaded := false; getenv := fun _ => None;
            repositories_yaml := None; teams_yaml := None |} ([] : list LogRecord))
  = Raise (ValueError "Configuration validation failed: {e}").
Proof.
  split.
  - apply (validate_config_checks_token_only _ _ (files_with None None) []);
      [reflexivity|]. intros s'. reflexivity.
  - apply (validate_config_checks_token_only _ _
             {| dotenv_loaded := false; getenv := fun _ => None;
                repositories_yaml := None; teams_yaml := None |} []).
    reflexivity.
Defined.

(** X25.  Without teams.yaml every author is unassigned: the
    configuration that [load_team_mapping] returns when the file does not
    exist makes a mapper whose [get_team] answers ["unassigned"] for every
    username. *)
Theorem load_team_mapping_missing_file :
  forall (S : Type) (L : Logging S) (files : HostFiles) (s : S),
    teams_yaml files = None ->
    exists team_config s1 team_mapper s2,
      load_team_mapping files s = (Ok team_config, s1) /\
      TeamMapper_init team_config s1 = (Ok team_mapper, s2) /\
      forall username s3, fst (get_team team_mapper username s3) = Ok "unassigned".
Proof.
  intros S L files s Hteams. unfold load_team_mapping, load_yaml_config, try_except_of.
  rewrite Hteams. run_monad. cbn [is_FileNotFoundError].
  eexists _, _, _, _. split; [reflexivity|]. split; [reflexivity|].
  intros [[|a u]|] s3; reflexivity.
Qed.

Lemma load_team_mapping_missing_file_witness :
  exists team_config s1 team_mapper s2,
    load_team_mapping (files_with None None) ([] : list LogRecord) = (Ok team_config, s1) /\
    TeamMapper_init team_config s1 = (Ok team_mapper, s2) /\
    forall username s3, fst (get_team team_mapper username s3) = Ok "unassigned".
Proof.
  apply (load_team_mapping_missing_file _ _ (files_with None None) []). reflexivity.
Defined.

(** ** main.py *)

Section MainFacts.
Context (env : HttpEnv) (fuel : nat) {host : Host HttpWorld}.
Context (files : HostFiles) (int_of_str : string -> option Z).

Lemma load_env_quiet :
  quiet (fun _ => True) (load_env (S := State HttpWorld) files).
Proof. unfold load_env. destruct (dotenv_loaded files); apply quiet_log. Qed.

Lemma validate_config_without_token :
  truthy (getenv files "GITHUB_TOKEN") = false ->
  quiet (fun _ => False) (validate_config (S := State HttpWorld) files).
Proof.
  intros Htoken s. destruct (validate_config_quiet files s) as [Htr _].
  split; [exact Htr|].
  unfold validate_config, get_github_token, try_except_of.
  destruct (getenv files "GITHUB_TOKEN") as [[|a t]|]; [|discriminate|]; by run_monad.
Qed.

Lemma connection_tested_bind {A} (request : Request) (Q : A -> Prop)
    (m : M (State HttpWorld) A) (k : A -> M (State HttpWorld) Z) :
  quiet Q m -> (forall a, Q a -> connection_tested request (k a)) ->
  connection_tested request (bind m k).
Proof.
  intros Hm Hk s. unfold bind. destruct (Hm s) as [Htr Hres].
  destruct (m s) as [[a|e|] s1]; simpl in *; [| |done].
  - destruct (Hk a Hres s1) as (evs & Htr' & Hevs & Hend).
    exists evs. rewrite Htr', Htr. done.
  - exists []. rewrite Htr, app_nil_r. split; [done|]. split; [by left|done].
Qed.

Lemma get_api_config_url :
  quiet (fun api_config =>
           ac_api_url api_config
           = default "https://api.github.com" (getenv files "GITHUB_API_URL"))
    (get_api_config (S := State HttpWorld) files int_of_str).
Proof.
  unfold get_api_config.
  repeat (eapply quiet_bind; [apply (getenv_int_quiet files int_of_str)|intros ? _]).
  by apply quiet_ret.
Qed.

Lemma init_url token base timeout_s retries buffer :
  quiet (fun self => api_url self = rstrip "/" base)
    (call (github_client.init token base timeout_s retries buffer)).
Proof. by intros s. Qed.

Lemma test_connection_run (self : GitHubAPIClient) (w : HttpWorld) :
  exists ok,
    fst (github_client.test_connection env self w) = Ok ok /\
    trace (snd (github_client.test_connection env self w))
    = (trace w ++ [EvGet {| url := api_url self +:+ "/user"; params := None |}])%list.
Proof.
  unfold github_client.test_connection, github_client.session_get,
    github_client.raise_for_status, github_client.response_json.
  run_monad.
  destruct (http_get env KUser (trace w) _) as [e|response]; cbn [doc] in *;
    [by eexists|].
  destruct ((400 <=? status_code response) && _); [by eexists|].
  destruct (json response) as [[d|]|]; by eexists.
Qed.

Lemma main_never_raises_aux finish (args : Args) :
  never_raises (main env fuel files int_of_str finish args).
Proof.
  unfold main.
  do 3 (apply never_raises_bind; [apply never_raises_modify|intros _]).
  apply never_raises_try_except. intros e.
  apply never_raises_bind; [apply never_raises_modify|intros _; apply never_raises_ret].
Qed.

Lemma main_without_token_aux finish (args : Args) :
  truthy (getenv files "GITHUB_TOKEN") = false ->
  quiet_ok (fun status => status = 1) (main env fuel files int_of_str finish args).
Proof.
  intros Htoken. unfold main.
  do 3 apply quiet_ok_bind_log.
  apply quiet_ok_try_except.
  - apply (quiet_bind (fun _ => True)); [apply load_env_quiet|intros _ _].
    apply (quiet_bind (fun _ => False));
      [by apply validate_config_without_token|by intros _ ?].
  - intros e. apply quiet_ok_bind_log. intros s. split; [done|]. by exists 1.
Qed.

Lemma connection_tested_main (request : Request) (body : M (State HttpWorld) Z)
    (a b c d : string) :
  connection_tested request body ->
  forall s,
  exists status evs,
    fst ((logger_info a;; logger_info b;; logger_info c;;
          try_except body (fun e => logger_error d;; ret 1)) s) = Ok status /\
    trace (world (snd ((logger_info a;; logger_info b;; logger_info c;;
                        try_except body (fun e => logger_error d;; ret 1)) s)))
    = (trace (world s) ++ evs)%list /\
    (evs = [] \/ evs = [EvGet request]) /\
    ((status = 0 /\ evs <> []) \/ status = 1).
Proof.
  intros Hbody s. run_monad.
  destruct (Hbody (log_record (INFO, c) (log_record (INFO, b) (log_record (INFO, a) s))))
    as (evs & Htr & Hevs & Hend).
  destruct (body _) as [[status|e|] s1]; cbn [fst snd] in *.
  - exists status, evs. done.
  - exists 1, evs. split; [done|]. split; [exact Htr|]. split; [done|by right].
  - done.
Qed.

Lemma main_test_connection_aux finish (args : Args) :
  args_test_connection args = true ->
  forall s,
  exists status evs,
    fst (main env fuel files int_of_str finish args s) = Ok status /\
    trace (world (snd (main env fuel files int_of_str finish args s)))
    = (trace (world s) ++ evs)%list /\
    (evs = [] \/ evs = [EvGet (user_request files)]) /\
    ((status = 0 /\ evs <> []) \/ status = 1).
Proof.
  intros Htest. unfold main. rewrite Htest. apply connection_tested_main.
  apply (connection_tested_bind _ (fun _ => True)); [apply load_env_quiet|intros _ _].
  apply (connection_tested_bind _ (fun _ => True));
    [apply validate_config_quiet|intros _ _].
  apply (connection_tested_bind _ _ _ _ get_api_config_url). intros api_config Hurl.
  apply (connection_tested_bind _ (fun _ => True));
    [by apply quiet_ret|intros output_config _].
  apply (connection_tested_bind _ (fun _ => True));
    [apply get_github_token_quiet|intros token _].
  apply (connection_tested_bind _ _ _ _ (init_url _ _ _ _ _)).
  intros github_client Hclient.
  cbv iota.
  apply (connection_tested_bind _ (fun _ => True)); [apply quiet_log|intros _ _].
  intros s. unfold call. run_monad.
  destruct (test_connection_run github_client (world s)) as (ok & Hok & Htr).
  destruct (github_client.test_connection env github_client (world s)) as [r w'].
  cbn [fst snd] in *. subst r.
  rewrite Hclient, Hurl in Htr. fold (user_request files) in Htr.
  exists [EvGet (user_request files)].
  destruct ok; cbn [fst snd world]; (split; [exact Htr|]);
    (split; [by right|]); [left; by split|by right].
Qed.
End MainFacts.

(** X26.  [main] never ends with an exception: whatever the
    configuration, the provider and the export do, an exception raised
    inside becomes an exit status. *)
Theorem main_never_raises :
  forall (env : HttpEnv) (fuel : nat) (host : Host HttpWorld) (files : HostFiles)
         (int_of_str : string -> option Z)
         (finish : Args -> list CommitData -> list RepoConfig ->
                   option (gmap string string) -> M (State HttpWorld) Z)
         (args : Args) (s : State HttpWorld) (e : exn),
    fst (main env fuel files int_of_str finish args s) <> Raise e.
Proof.
  intros env fuel host files int_of_str finish args s e.
  apply main_never_raises_aux.
Qed.

(** X27.  Without a token nothing is sent: when GITHUB_TOKEN is not set
    or empty, [main] ends with exit status 1 without any network activity,
    whatever the arguments are, the connection test included. *)
Theorem main_aborts_without_token :
  forall (env : HttpEnv) (fuel : nat) (host : Host HttpWorld) (files : HostFiles)
         (int_of_str : string -> option Z)
         (finish : Args -> list CommitData -> list RepoConfig ->
                   option (gmap string string) -> M (State HttpWorld) Z)
         (args : Args) (s : State HttpWorld),
    truthy (getenv files "GITHUB_TOKEN") = false ->
    aborted_before_network (main env fuel files int_of_str finish args s) s.
Proof.
  intros env fuel host files int_of_str finish args s Htoken.
  destruct (main_without_token_aux env fuel files int_of_str finish args Htoken s)
    as [Htr (status & Hres & ->)].
  by split.
Qed.

Lemma main_aborts_without_token_witness :
  aborted_before_network
    (main user_env 10 (host := test_host) files_without_token test_int_of_str
       test_finish (test_args true) (initial_state empty_world))
    (initial_state empty_world).
Proof. apply main_aborts_without_token. reflexivity. Defined.

(** X28.  With [--test-connection], [main] does nothing but the test: it
    ends with exit status 0 or 1, it sends at most one request, a [GET] of
    [/user] at the configured API URL (GITHUB_API_URL without its trailing
    slashes, https://api.github.com by default), without rate-limit check
    and without retry, and it does not sleep; the status 0 is returned
    only after that request. *)
Theorem main_test_connection_only :
  forall (env : HttpEnv) (fuel : nat) (host : Host HttpWorld) (files : HostFiles)
         (int_of_str : string -> option Z)
         (finish : Args -> list CommitData -> list RepoConfig ->
                   option (gmap string string) -> M (State HttpWorld) Z)
         (args : Args) (s : State HttpWorld),
    args_test_connection args = true ->
    exists status evs,
      fst (main env fuel files int_of_str finish args s) = Ok status /\
      trace (world (snd (main env fuel files int_of_str finish args s)))
      = (trace (world s) ++ evs)%list /\
      (evs = [] \/ evs = [EvGet (user_request files)]) /\
      ((status = 0 /\ evs <> []) \/ status = 1).
Proof.
  intros env fuel host files int_of_str finish args s Htest.
  by apply main_test_connection_aux.
Qed.

Lemma main_test_connection_only_witness :
  exists status evs,
    fst (main user_env 10 (host := test_host) files_without_repositories
           test_int_of_str test_finish (test_args true) (initial_state empty_world))
    = Ok status /\
    trace (world (snd (main user_env 10 (host := test_host) files_without_repositories
                         test_int_of_str test_finish (test_args true)
                         (initial_state empty_world))))
    = (trace (world (initial_state empty_world)) ++ evs)%list /\
    (evs = [] \/
     evs = [EvGet {| url := "https://api.github.com/user"; params := None |}]) /\
    ((status = 0 /\ evs <> []) \/ status = 1).
Proof.
  apply (main_test_connection_only user_env 10 test_host files_without_repositories
           test_int_of_str test_finish (test_args true) (initial_state empty_world)).
  reflexivity.
Defined.

(** With GITHUB_API_URL set, the request goes to that URL. *)
Example main_test_connection_enterprise :
  let files :=
    {| dotenv_loaded := true;
       getenv := fun name =>
         if String.eqb name "GITHUB_TOKEN" then Some "t0ken"
         else if String.eqb name "GITHUB_API_URL" then Some "https://ghe.example/api/v3/"
         else None;
       repositories_yaml := None;
       teams_yaml := None |} in
  trace (world (snd (main user_env 10 (host := test_host) files test_int_of_str
                       test_finish (test_args true) (initial_state empty_world))))
  = [EvGet {| url := "https://ghe.example/api/v3/user"; params := None |}].
Proof. vm_compute. reflexivity. Qed.

(** ** models.py *)

Lemma to_dict_file_changes_map (include_patch : bool) (l : list FileChange)
    (acc : list pyval) :
  fold_left
    (fun data_file_changes fc =>
       let fc_dict := FileChange_to_dict fc in
       let fc_dict := if negb include_patch then dict_pop "patch" fc_dict else fc_dict in
       (data_file_changes ++ [VDict fc_dict])%list)
    l acc
  = (acc ++ map (fun fc => VDict (if negb include_patch
                                  then dict_pop "patch" (FileChange_to_dict fc)
                                  else FileChange_to_dict fc)) l)%list.
Proof.
  revert acc. induction l as [|fc l IH]; intros acc; simpl; [by rewrite app_nil_r|].
  by rewrite IH, <- app_assoc.
Qed.

(** X29.  The text of a patch is exported on request only:
    [CommitData.to_dict] gives one dictionary for each file change, in
    order, and that dictionary has the key [patch], with the patch of the
    file change, exactly when [include_patch] is set; the other keys are
    there in both cases. *)
Theorem to_dict_patch_on_request_only :
  forall (isoformat : datetime -> string) (self : CommitData) (include_patch : bool),
  exists entries,
    dict_get "file_changes" (CommitData_to_dict isoformat self include_patch)
    = Some (VList entries) /\
    Forall2 (fun fc entry =>
               exists d,
                 entry = VDict d /\
                 dict_get "filename" d = Some (VStr (filename fc)) /\
                 dict_get "status" d = Some (VStr (status fc)) /\
                 dict_get "additions" d = Some (VInt (additions fc)) /\
                 dict_get "deletions" d = Some (VInt (deletions fc)) /\
                 dict_get "changes" d = Some (VInt (changes fc)) /\
                 dict_get "patch" d
                 = if include_patch then Some (of_optional (patch fc)) else None)
            (file_changes self) entries.
Proof.
  intros isoformat self include_patch. eexists. split; [reflexivity|].
  rewrite to_dict_file_changes_map. cbn [app].
  induction (file_changes self) as [|fc l IH]; cbn [map]; constructor; [|exact IH].
  eexists. split; [reflexivity|]. by destruct include_patch.
Qed.

(** X30.  The flat dictionary of the CSV export and the nested one of the
    JSON export agree: each of the sixteen columns of [to_flat_dict] holds
    the value that [to_dict] holds under the matching pair of keys, and
    [to_flat_dict] has no column for the file changes. *)
Theorem to_flat_dict_agrees_with_to_dict :
  forall (isoformat : datetime -> string) (self : CommitData) (include_patch : bool),
    let flat := CommitData_to_flat_dict isoformat self in
    let nested := CommitData_to_dict isoformat self include_patch in
    Forall (fun '(column, outer, inner) =>
              is_Some (dict_get column flat) /\
              dict_get column flat = dict_get2 outer inner nested)
      [("repository_name", "repository", "name");
       ("repository_owner", "repository", "owner");
       ("repository_url", "repository", "url");
       ("commit_sha", "commit", "sha");
       ("commit_message", "commit", "message");
       ("commit_date", "commit", "date");
       ("commit_url", "commit", "url");
       ("branch", "commit", "branch");
       ("author_name", "author", "name");
       ("author_username", "author", "username");
       ("author_email", "author", "email");
       ("team_name", "author", "team");
       ("total_additions", "statistics", "total_additions");
       ("total_deletions", "statistics", "total_deletions");
       ("total_changes", "statistics", "total_changes");
       ("files_changed_count", "statistics", "files_changed")] /\
    length flat = 16%nat /\
    dict_get "file_changes" flat = None.
Proof.
  intros isoformat self include_patch flat nested. split; [|by split].
  repeat constructor; by eexists.
Qed.

(** ** github_client.py: a listing that fails *)

Section FailingPage.
Context (env : HttpEnv) (self : GitHubAPIClient).

Lemma make_request_body_unreachable (k : DocKind) endpoint params (w : HttpWorld) :
  unreachable env k {| url := api_url self +:+ "/" +:+ lstrip "/" endpoint;
                       params := params |} ->
  exists e, fst (github_client._make_request_body env k self endpoint params w) = Raise e /\
            retried e = true.
Proof.
  intros Hun. unfold github_client._make_request_body, bind at 1.
  pose proof (check_rate_limit_never_raises env self w) as Hok.
  destruct (github_client._check_rate_limit env self w) as [r w1].
  simpl in Hok. subst r. simpl.
  unfold try_except_of, try_except, bind, github_client.session_get.
  destruct (Hun (trace w1)) as [te ->]. exists (exn_of_transport te).
  by destruct te.
Qed.

Lemma retrying_always_raises {A} (wait : nat -> Z) (retry_if : exn -> bool)
    (fn : M HttpWorld A) :
  (forall w, exists e, fst (fn w) = Raise e /\ retry_if e = true) ->
  forall left attempt_number w,
  exists e, fst (github_client.retrying left attempt_number wait retry_if fn w)
            = Raise (RetryError e) /\ retry_if e = true.
Proof.
  intros Hfn. induction left as [|left IH]; intros attempt_number w;
    cbn [github_client.retrying]; destruct (Hfn w) as (e & He & Hretry);
    destruct (fn w) as [r w1]; simpl in He; subst r; rewrite Hretry.
  - by exists e.
  - apply IH.
Qed.

Lemma make_request_unreachable (k : DocKind) endpoint params (w : HttpWorld) :
  unreachable env k {| url := api_url self +:+ "/" +:+ lstrip "/" endpoint;
                       params := params |} ->
  exists e, fst (github_client._make_request env k self endpoint params w)
            = Raise (RetryError e) /\ retried e = true.
Proof.
  intros Hun. unfold github_client._make_request, github_client.retry.
  apply (retrying_always_raises (wait_exponential 1 2 10) retried).
  intros w'. by apply make_request_body_unreachable.
Qed.

Lemma get_commits_loop_fails owner repo query per_page
    (full_pages : list (list RawCommit)) :
  Forall (full_page per_page) full_pages ->
  forall (fuel : nat) (cur : gmap string pval) (acc : list RawCommit) (page : Z)
         (w : HttpWorld),
    (length full_pages < fuel)%nat ->
    (forall j, <["page" := PInt j]> cur = <["page" := PInt j]> query) ->
    (forall (i : nat) p, full_pages !! i = Some p ->
       answers_page env (listing_url self owner repo) query (page + Z.of_nat i) p) ->
    unreachable env KCommitList
      (page_request (listing_url self owner repo) query
         (page + Z.of_nat (length full_pages))) ->
    exists e,
      fst (github_client.get_commits_loop env fuel self
             ("repos/" +:+ owner +:+ "/" +:+ repo +:+ "/commits")
             cur per_page acc page w)
      = Raise (RetryError e) /\ retried e = true.
Proof.
  induction 1 as [|p ps Hp Hps IH]; intros fuel cur acc page w Hfuel Hcur Hans Hun;
    (destruct fuel as [|fuel]; [simpl in Hfuel; lia|]).
  - cbn [github_client.get_commits_loop]. rewrite Hcur. unfold bind at 1.
    simpl length in Hun. rewrite Z.add_0_r in Hun.
    destruct (make_request_unreachable KCommitList
                ("repos/" +:+ owner +:+ "/" +:+ repo +:+ "/commits")
                (Some (<["page" := PInt page]> query)) w Hun) as (e & He & Hretry).
    destruct (github_client._make_request env KCommitList self _ _ w) as [r w1].
    simpl in He. subst r. by exists e.
  - destruct Hp as [Hne Hlen].
    assert (answers_page env (listing_url self owner repo) query page p) as Ha.
    { specialize (Hans 0%nat p eq_refl). by rewrite Z.add_0_r in Hans. }
    destruct (make_request_page env self owner repo query page p w Ha)
      as (w1 & Hrun & _).
    cbn [github_client.get_commits_loop]. rewrite Hcur. unfold bind at 1.
    rewrite Hrun.
    destruct p as [|c p]; [done|].
    unfold bind at 1, logger_debug, modify.
    assert ((Z.of_nat (length (c :: p)) <? per_page) = false) as ->
      by (by apply Z.ltb_ge).
    apply IH.
    + simpl in Hfuel. lia.
    + intros j. by rewrite insert_insert_eq.
    + intros i q Hi. specialize (Hans (S i) q Hi).
      by replace (page + 1 + Z.of_nat i) with (page + Z.of_nat (S i)) by lia.
    + simpl length in Hun.
      by replace (page + 1 + Z.of_nat (length ps))
        with (page + Z.of_nat (S (length ps))) by lia.
Qed.
End FailingPage.

(** X12.  A listing that fails is lost as a whole: when the provider has
    answered the first pages, all full, and cannot be reached for the next
    one, [get_commits] raises [RetryError] and returns none of the commits
    of the pages it has fetched. *)
Theorem get_commits_fails_as_a_whole :
  forall (env : HttpEnv) (self : GitHubAPIClient) (owner repo branch : string)
         (since until author : option string) (per_page : Z)
         (full_pages : list (list RawCommit)) (fuel : nat) (w : HttpWorld),
    Forall (full_page per_page) full_pages ->
    (length full_pages < fuel)%nat ->
    (forall (i : nat) p, full_pages !! i = Some p ->
       answers_page env (listing_url self owner repo)
         (listing_params branch since until author per_page) (1 + Z.of_nat i) p) ->
    unreachable env KCommitList
      (page_request (listing_url self owner repo)
         (listing_params branch since until author per_page)
         (1 + Z.of_nat (length full_pages))) ->
    exists e,
      fst (github_client.get_commits env fuel self owner repo branch
             since until author per_page w)
      = Raise (RetryError e) /\ retried e = true.
Proof.
  intros env self owner repo branch since until author per_page full_pages fuel w
    Hfull Hfuel Hans Hun.
  destruct (get_commits_loop_fails env self owner repo
              (listing_params branch since until author per_page) per_page
              full_pages Hfull fuel
              (listing_params branch since until author per_page) [] 1
              (log_record (INFO, "Fetching commits from {owner}/{repo} (branch: {branch})") w)
              Hfuel (fun j => eq_refl) Hans Hun) as (e & He & Hretry).
  exists e. split; [|done].
  unfold github_client.get_commits, listing_params in *.
  unfold bind, logger_info, modify. cbv beta iota.
  destruct (github_client.get_commits_loop env fuel self _ _ per_page [] 1 _) as [r w'].
  simpl in He. by subst r.
Qed.

Lemma get_commits_fails_as_a_whole_witness :
  exists e,
    fst (github_client.get_commits
           (truncated_env [repeat (commit_with_sha "a") 100; repeat (commit_with_sha "b") 100])
           5 (test_client 3 10) "o" "r" "main" None None None 100 empty_world)
    = Raise (RetryError e) /\ retried e = true.
Proof.
  apply (get_commits_fails_as_a_whole
           (truncated_env [repeat (commit_with_sha "a") 100; repeat (commit_with_sha "b") 100])
           (test_client 3 10) "o" "r" "main" None None None 100
           [repeat (commit_with_sha "a") 100; repeat (commit_with_sha "b") 100] 5
           empty_world).
  - repeat (apply List.Forall_cons;
              [split; [vm_compute; discriminate|vm_compute; discriminate]|]).
    apply List.Forall_nil.
  - simpl. lia.
  - intros i p Hi tr.
    destruct i as [|[|i]]; [| |by destruct i]; injection Hi as <-;
      (eexists; split; [reflexivity|]; split; reflexivity).
  - intros tr. by exists TTimeout.
Defined.
